(** * Waste-classification pipeline: a shallow embedding of the ML module

    The development follows the TypeScript module "Machine Learning
    Integration for Waste Classification" (hooks [useTensorFlowModel],
    [useAPIClassification], [useWasteClassification] and their helpers).

    Conventions of the embedding.
    - JavaScript numbers are rationals ([Q]).  The brightness statistics
      of the image analysis, whose result is compared against thresholds
      after one addition and one division per pixel, are rounded to
      binary64 after every operation, as the engine rounds them
      ([binary64]); sums of bytes are far from the overflow threshold,
      which is not modelled.  The remaining arithmetic (the
      confidence scaling, the forecast, the footprint estimates) is kept
      exact.  The scores of a prediction are numbers: a NaN or missing
      score is not represented, and the statements on predictions assume
      a bound on the largest score, which no such score meets.
    - Strings hold UTF-8 bytes; where the source enumerates the UTF-16
      code units of a string they are decoded ([JS.chars]).
    - Objects are finite maps from property names to values.
    - Code that reads the outside world (the random source, the clock, the
      network, the model store) reads it from an environment [Env]; code
      that changes something (React state, console, IndexedDB, timers)
      threads a [State].  An exception leaves the state as it was when the
      exception was raised, as in JavaScript.
    - [async]/[await] is sequential composition: no claim below depends on
      the interleaving of two calls. *)

From Stdlib Require Import QArith Qround Qminmax Qabs Qpower ZArith String Lia Lqa.
From stdpp Require Import gmap strings list fin_maps pretty.

Set Warnings "-register-all".
Local Open Scope Z_scope.

(** ** Numbers *)

Module Num.

Definition Qltb (a b : Q) : bool := negb (Qle_bool b a).

Definition Math_floor (x : Q) : Z := Qfloor x.

(** [Math.round]: the nearest integer, halves towards plus infinity. *)
Definition Math_round (x : Q) : Z := Qfloor (x + (1 # 2)).

Definition Math_min (a b : Q) : Q := Qmin a b.
Definition Math_max (a b : Q) : Q := Qmax a b.

(** The binary exponent of a non-zero number: the [k] with
    [2^k <= |x| < 2^(k+1)]. *)
Definition exponent (x : Q) : Z :=
  let k := Z.log2 (Z.abs (Qnum x)) - Z.log2 (Z.pos (Qden x)) in
  if Qltb (Qabs x) (2 ^ k) then k - 1 else k.

(** The nearest integer, a half going to the even neighbour. *)
Definition nearest_even (q : Q) : Z :=
  let f := Qfloor q in
  match (q - inject_Z f ?= 1 # 2)%Q with
  | Lt => f
  | Gt => f + 1
  | Eq => if Z.even f then f else f + 1
  end.

(** The double nearest to a real number: 53 significant bits, round to
    nearest, ties to even, subnormal below [2^-1022].  Every arithmetic
    operation on doubles returns the exact result rounded this way. *)
Definition binary64 (x : Q) : Q :=
  let x := Qred x in
  if Qeq_bool x 0 then 0%Q
  else
    let e := Z.max (exponent x - 52) (-1074) in
    Qred (inject_Z (nearest_even (x / 2 ^ e)) * 2 ^ e).

End Num.
Import Num.

(** ** Exceptions *)

(** What a [throw] carries: an [Error] object with its message, or any
    other thrown value (the handlers test [err instanceof Error]). *)
Inductive exn : Type :=
  | ErrorObj (message : string)
  | Thrown (what : string).

Inductive outcome (A : Type) : Type :=
  | Returned (a : A)
  | Threw (e : exn).
Arguments Returned {A} a.
Arguments Threw {A} e.

(** [err instanceof Error ? err.message : fallback] *)
Definition message_or (fallback : string) (e : exn) : string :=
  match e with
  | ErrorObj m => m
  | Thrown _ => fallback
  end.

(** ** Image quality analysis *)

Inductive Quality : Type := QGood | QFair | QPoor.
Inductive Lighting : Type := LGood | LLow | LOverexposed.

Record ImageAnalysis : Type := {
  quality : Quality;
  clarity : Q;
  lightingConditions : Lighting;
  objectDetectionCount : Z
}.

(** An image element: its [width] and [height] and the decoded picture
    laid over a bitmap of that size, as the flat RGBA bytes of its pixels
    (colours not premultiplied; a position the picture does not cover is
    transparent). *)
Record HTMLImageElement : Type := {
  width : nat;
  height : nat;
  rgba : nat -> Byte.byte
}.

Definition byte_value (b : Byte.byte) : Z := Z.of_N (Byte.to_N b).

(** What a colour byte of a partly transparent pixel reads back as, from
    the byte and the pixel's alpha: the canvas keeps colours multiplied
    by alpha and [getImageData] divides them back, each with a rounding
    that is the browser's. *)
Definition Blend : Type := Byte.byte -> Byte.byte -> Byte.byte.

(** The byte at index [i] of the canvas after
    [ctx.drawImage(imageElement, 0, 0)] on the new (transparent) canvas:
    an opaque pixel reads back as it is, a fully transparent one as four
    zeros, a partly transparent one with its alpha and blended colours. *)
Definition canvas_byte (blend : Blend) (img : HTMLImageElement) (i : nat)
  : Byte.byte :=
  let alpha := rgba img (i - i mod 4 + 3) in
  if (i mod 4 =? 3)%nat then alpha
  else if byte_value alpha =? 255 then rgba img i
  else if byte_value alpha =? 0 then Byte.x00
  else blend (rgba img i) alpha.

(** [ctx.getImageData(0, 0, w, h)]: a [Uint8ClampedArray] of [4*w*h]
    entries; a zero width or height raises [IndexSizeError]. *)
Definition getImageData (blend : Blend) (img : HTMLImageElement)
  : outcome (list Z) :=
  if ((width img =? 0) || (height img =? 0))%nat
  then Threw (ErrorObj "IndexSizeError")
  else Returned (map (fun i => byte_value (canvas_byte blend img i))
                     (seq 0 (4 * width img * height img))).

(** The loop [for (i = 0; i < data.length; i += 4) brightness +=
    (data[i] + data[i + 1] + data[i + 2]) / 3], every operation rounded. *)
Fixpoint brightnessLoop (data : list Z) (brightness : Q) : Q :=
  match data with
  | r :: g :: b :: _ :: rest =>
      brightnessLoop rest
        (binary64 (brightness
                   + binary64 (binary64 (binary64 (inject_Z r + inject_Z g)
                                         + inject_Z b) / 3)))%Q
  | _ => brightness
  end.

(** [brightness /= data.length / 4] *)
Definition meanBrightness (data : list Z) : Q :=
  binary64 (brightnessLoop data 0
            / binary64 (inject_Z (Z.of_nat (length data)) / 4))%Q.

Definition analyzeImageQuality (blend : Blend) (img : HTMLImageElement)
  : outcome ImageAnalysis :=
  match getImageData blend img with
  | Threw e => Threw e
  | Returned data =>
      let brightness := meanBrightness data in
      let quality :=
        if Qltb 100 brightness && Qltb brightness 200 then QGood
        else if Qltb 50 brightness then QFair
        else QPoor in
      let lightingConditions :=
        if Qltb 180 brightness then LOverexposed
        else if Qltb brightness 80 then LLow
        else LGood in
      Returned {|
        quality := quality;
        clarity := Math_min 100 (Math_max 0
                     (binary64 (binary64 (brightness - 50) / (3 # 2)))%Q);
        lightingConditions := lightingConditions;
        objectDetectionCount := 1
      |}
  end.

(** The brightness of an image as the analyzer computes it: the value of
    the variable [brightness] after the division. *)
Definition luminance (blend : Blend) (img : HTMLImageElement) : Q :=
  match getImageData blend img with
  | Returned data => meanBrightness data
  | Threw _ => 0
  end.

(** The buckets in the words of the specification (section 4.1). *)
Definition spec_quality (L : Q) : Quality :=
  if Qltb 100 L && Qltb L 200 then QGood
  else if Qltb 50 L && Qle_bool L 100 then QFair
  else QPoor.

Definition spec_lighting (L : Q) : Lighting :=
  if Qltb 180 L then LOverexposed
  else if Qltb L 80 then LLow
  else LGood.

(** The mean luminance in the words of the specification: the exact
    average, over the pixels read, of the mean of the three colour
    channels. *)
Fixpoint channel_sum (data : list Z) : Z :=
  match data with
  | r :: g :: b :: _ :: rest => r + g + b + channel_sum rest
  | _ => 0
  end.

Definition spec_mean_luminance (blend : Blend) (img : HTMLImageElement) : Q :=
  match getImageData blend img with
  | Returned data =>
      (inject_Z (channel_sum data) / (3 * (inject_Z (Z.of_nat (length data)) / 4)))%Q
  | Threw _ => 0
  end.

(** An opaque image of one value [b] in every colour channel. *)
Definition uniform_image (w h : nat) (b : Byte.byte) : HTMLImageElement :=
  {| width := w; height := h;
     rgba := fun i => if (i mod 4 =? 3)%nat then Byte.xff else b |}.

(** ** JavaScript values *)

(** The values a classification result is built from.  The remote
    response is untyped ([any]): it may be any of these. *)
Inductive value : Type :=
  | VUndefined
  | VNull
  | VBool (b : bool)
  | VNum (q : Q)
  | VStr (s : string)
  | VArr (items : list value)
  | VObj (props : gmap string value).

Module JS.

(** A possibly absent string ([string | undefined]) used as a condition:
    absent and empty are falsy. *)
Definition truthy (s : option string) : bool :=
  match s with
  | Some s => negb (String.eqb s "")
  | None => false
  end.

(** A continuation byte of a UTF-8 sequence. *)
Definition continuation (a : Ascii.ascii) : bool :=
  (N.shiftr (Ascii.N_of_ascii a) 6 =? 2)%N.

(** A code unit from U+0800 on, surrogates included, as a string. *)
Definition unit_string (u : N) : string :=
  String (Ascii.ascii_of_N (224 + N.shiftr u 12))
    (String (Ascii.ascii_of_N (128 + N.land (N.shiftr u 6) 63))
       (String (Ascii.ascii_of_N (128 + N.land u 63)) EmptyString)).

(** The UTF-16 code units of a string, each as a string of its own: a
    sequence of one to three bytes is one unit, a sequence of four bytes
    (a code point above U+FFFF) the two units of its surrogate pair; a
    byte outside any sequence stands for itself. *)
Fixpoint chars (s : string) : list value :=
  match s with
  | EmptyString => []
  | String a r1 =>
      let one := VStr (String a EmptyString) :: chars r1 in
      if (Ascii.N_of_ascii a <? 192)%N then one
      else
        match r1 with
        | String b r2 =>
            if negb (continuation b) then one
            else if (Ascii.N_of_ascii a <? 224)%N
            then VStr (String a (String b EmptyString)) :: chars r2
            else
              match r2 with
              | String c r3 =>
                  if negb (continuation c) then one
                  else if (Ascii.N_of_ascii a <? 240)%N
                  then VStr (String a (String b (String c EmptyString))) :: chars r3
                  else
                    match r3 with
                    | String d r4 =>
                        if negb (continuation d) then one
                        else
                          let point :=
                            (N.shiftl (N.land (Ascii.N_of_ascii a) 7) 18
                             + N.shiftl (N.land (Ascii.N_of_ascii b) 63) 12
                             + N.shiftl (N.land (Ascii.N_of_ascii c) 63) 6
                             + N.land (Ascii.N_of_ascii d) 63 - 65536)%N in
                          VStr (unit_string (55296 + N.shiftr point 10))
                          :: VStr (unit_string (56320 + N.land point 1023))
                          :: chars r4
                    | EmptyString => one
                    end
              | EmptyString => one
              end
        | EmptyString => one
        end
  end.

Definition indexed (items : list value) : gmap string value :=
  list_to_map (imap (fun i v => (pretty i, v)) items).

(** The own enumerable properties copied by an object spread [{...v}]:
    those of an object, the indices of an array or of a string, none of
    anything else ([null] and [undefined] included). *)
Definition spread (v : value) : gmap string value :=
  match v with
  | VObj props => props
  | VArr items => indexed items
  | VStr s => indexed (chars s)
  | _ => ∅
  end.

(** The property read [v.k], for the names the module reads from untyped
    values ([details], [type]): none of them is an index, [length] or a
    prototype member, so only an object can hold one; reading from
    [null] or [undefined] raises a [TypeError]. *)
Definition get (v : value) (k : string) : outcome value :=
  match v with
  | VNull => Threw (ErrorObj ("Cannot read properties of null (reading '" +:+ k +:+ "')"))
  | VUndefined =>
      Threw (ErrorObj ("Cannot read properties of undefined (reading '" +:+ k +:+ "')"))
  | VObj props => Returned (default VUndefined (props !! k))
  | _ => Returned VUndefined
  end.

(** The same read on a value known to be an object. *)
Definition field (k : string) (v : value) : value :=
  match v with
  | VObj props => default VUndefined (props !! k)
  | _ => VUndefined
  end.

Definition strings (l : list string) : value := VArr (VStr <$> l).

(** [arr[i]] for a computed index: [undefined] out of range. *)
Definition at_index (arr : list string) (i : Z) : value :=
  if i <? 0 then VUndefined
  else from_option VStr VUndefined (arr !! Z.to_nat i).

End JS.

(** ** Waste categories and the per-category tables *)

Inductive WasteType : Type := biodegradable | recyclable | hazardous.

Definition type_name (t : WasteType) : string :=
  match t with
  | biodegradable => "biodegradable"
  | recyclable => "recyclable"
  | hazardous => "hazardous"
  end.

Definition type_value (t : WasteType) : value := VStr (type_name t).

(** The discriminator of the [switch (type)] statements: which [case]
    label a value is strictly equal to, if any. *)
Definition switch_type (v : value) : option WasteType :=
  match v with
  | VStr s =>
      if String.eqb s "biodegradable" then Some biodegradable
      else if String.eqb s "recyclable" then Some recyclable
      else if String.eqb s "hazardous" then Some hazardous
      else None
  | _ => None
  end.

Definition getRecommendations (type : value) : list string :=
  match switch_type type with
  | Some biodegradable =>
      [ "Compost in your garden or community compost bin";
        "Remove any non-organic materials before composting";
        "Consider setting up a home composting system" ]
  | Some recyclable =>
      [ "Clean the item before recycling";
        "Check local recycling guidelines for this material";
        "Take to your nearest recycling center";
        "Consider reusing before recycling" ]
  | Some hazardous =>
      [ "Do not put in regular trash";
        "Take to specialized hazardous waste facility";
        "Check for manufacturer take-back programs";
        "Store safely until proper disposal" ]
  | None => []
  end.

Definition subCategories (t : WasteType) : list string :=
  match t with
  | biodegradable =>
      ["Food waste"; "Garden waste"; "Paper products"; "Natural materials"]
  | recyclable =>
      ["Plastic container"; "Glass bottle"; "Metal can"; "Paper product"]
  | hazardous =>
      ["Electronic waste"; "Battery"; "Chemical container"; "Paint container"]
  end.

Definition materials (t : WasteType) : list string :=
  match t with
  | biodegradable =>
      ["Organic matter"; "Plant-based"; "Natural fiber"; "Biodegradable plastic"]
  | recyclable => ["PET plastic"; "Aluminum"; "Glass"; "Cardboard"; "Steel"]
  | hazardous =>
      ["Lithium battery"; "Lead"; "Chemical compound"; "Electronic components"]
  end.

Definition calculateEnvironmentalImpact (t : WasteType) : value :=
  let impact (co2 energy water : Q) :=
    VObj (<["co2Saved" := VNum co2]>
          (<["energySaved" := VNum energy]>
           (<["waterSaved" := VNum water]> ∅))) in
  match t with
  | biodegradable => impact (23 # 10) 15 25
  | recyclable => impact (47 # 10) 35 50
  | hazardous => impact (12 # 10) 8 12
  end%Q.

Definition getWasteReductionTips (t : WasteType) : list string :=
  match t with
  | biodegradable =>
      [ "Start composting at home to reduce organic waste";
        "Buy only what you need to minimize food waste";
        "Use reusable containers instead of disposable ones" ]
  | recyclable =>
      [ "Rinse containers before recycling";
        "Choose products with minimal packaging";
        "Reuse items before recycling them" ]
  | hazardous =>
      [ "Buy rechargeable batteries instead of disposable ones";
        "Look for eco-friendly alternatives";
        "Participate in manufacturer take-back programs" ]
  end.

Definition findNearestFacilities (t : WasteType) : list string :=
  match t with
  | biodegradable => ["Community Compost Center"; "Green Garden Hub"]
  | recyclable => ["City Recycling Center"; "EcoPoint Station"]
  | hazardous => ["Hazardous Waste Facility"; "Electronics Recycling Center"]
  end.

Definition getAlternativeDisposal (t : WasteType) : list string :=
  match t with
  | biodegradable =>
      ["Home composting"; "Community garden donation"; "Worm composting"]
  | recyclable =>
      ["Upcycling projects"; "Donation to local schools"; "DIY crafts"]
  | hazardous =>
      ["Manufacturer take-back"; "Special collection events"; "Electronics stores"]
  end.

Definition calculateCarbonFootprint (t : WasteType) : Q :=
  match t with
  | biodegradable => 8 # 10
  | recyclable => 23 # 10
  | hazardous => 11 # 10
  end.

(** ** The world: configuration, model store, network, hook state *)

(** A loaded TensorFlow model.  [predict] stands for the whole inference
    chain of [classifyImage] on an image (preprocessing to a 224x224
    normalised tensor, [model.predict], [predictions.data()]): it yields
    the three category scores, as numbers, or raises. *)
Record Model : Type := {
  model_name : string;
  predict : HTMLImageElement -> outcome (Q * Q * Q)
}.

Inductive LoadingState : Type := idle | loading_model | loaded | error_state.

Record TrainingData : Type := {
  samples : Z;
  training_accuracy : Q;
  lastUpdated : string
}.

Record MLModel : Type := {
  name : string;
  version : string;
  accuracy : Q;
  supportedFormats : list string;
  info_loadingState : LoadingState;
  modelSize : option Q;
  trainingData : option TrainingData;
  offlineCapable : bool
}.

(** The [ml] section of the application configuration. *)
Record Config : Type := {
  tensorflowModelUrl : option string;
  apiEndpoint : option string;
  apiKey : option string
}.

Record File : Type := {
  file_name : string;
  file_type : string;
  file_size : Z
}.

Record Request : Type := {
  url : string;
  method : string;
  authorization : option string;
  body : File
}.

Record Response : Type := {
  ok : bool;
  statusText : string;
  json : outcome value
}.

Inductive Event : Type :=
  | ConsoleLog (text : string)
  | ConsoleWarn (text : string)
  | ConsoleError (text : string)
  | SetTimeout (ms : Q)
  | Fetch (request : Request)
  | LoadLayersModel (from : string)
  | ModelSave (to : string).

(** What the module reads from outside and cannot change. *)
Record Env : Type := {
  mlConfig : Config;
  random_source : nat -> Q;          (* the n-th [Math.random()] *)
  clock_source : nat -> Z;           (* the n-th [Date.now()] *)
  import_tfjs : outcome unit;        (* [import("@tensorflow/tfjs")] *)
  http_model : string -> outcome Model;  (* a model artifact behind a URL *)
  demo_model : Model;                (* what [tf.sequential] builds *)
  indexeddb_write : outcome unit;    (* whether IndexedDB takes a write *)
  network : Request -> outcome Response;
  canvas_rounding : Blend            (* the canvas, on partly transparent pixels *)
}.

(** What the module changes: the React state of the three hooks, the
    IndexedDB model store, and the trace of observable actions (oldest
    first). *)
Record State : Type := {
  randoms_drawn : nat;
  clock_reads : nat;
  indexeddb : gmap string Model;
  events : list Event;
  model : option Model;
  loadingState : LoadingState;
  error : option string;
  modelInfo : option MLModel;
  isOfflineMode : bool;
  api_loading : bool;
  api_error : option string;
  loading : bool
}.

Definition initial_state (store : gmap string Model) : State := {|
  randoms_drawn := 0; clock_reads := 0; indexeddb := store; events := [];
  model := None; loadingState := idle; error := None; modelInfo := None;
  isOfflineMode := false; api_loading := false; api_error := None;
  loading := false
|}.

(** ** The effect monad *)

Definition M (A : Type) : Type := State -> outcome A * State.

Definition ret {A} (a : A) : M A := fun s => (Returned a, s).

Definition bind {A B} (m : M A) (k : A -> M B) : M B :=
  fun s =>
    match m s with
    | (Returned a, s') => k a s'
    | (Threw e, s') => (Threw e, s')
    end.

Definition throw {A} (e : exn) : M A := fun s => (Threw e, s).

Definition lift {A} (o : outcome A) : M A := fun s => (o, s).

(** [try { m } catch (e) { handler e }] *)
Definition try_catch {A} (m : M A) (handler : exn -> M A) : M A :=
  fun s =>
    match m s with
    | (Threw e, s') => handler e s'
    | r => r
    end.

(** [try { m } finally { cleanup }] *)
Definition try_finally {A} (m : M A) (cleanup : M unit) : M A :=
  fun s =>
    match m s with
    | (r, s') =>
        match cleanup s' with
        | (Returned _, s'') => (r, s'')
        | (Threw e, s'') => (Threw e, s'')
        end
    end.

Declare Scope js_scope.
Delimit Scope js_scope with js.
Notation "x <- c ;; k" := (bind c (fun x => k))
  (at level 100, c at next level, right associativity) : js_scope.
Notation "c ;; k" := (bind c (fun _ => k))
  (at level 100, right associativity) : js_scope.
Local Open Scope js_scope.

Definition modify (f : State -> State) : M unit := fun s => (Returned tt, f s).
Definition gets {A} (f : State -> A) : M A := fun s => (Returned (f s), s).

Definition with_events (f : list Event -> list Event) (s : State) : State := {|
  randoms_drawn := randoms_drawn s; clock_reads := clock_reads s;
  indexeddb := indexeddb s; events := f (events s);
  model := model s; loadingState := loadingState s; error := error s;
  modelInfo := modelInfo s; isOfflineMode := isOfflineMode s;
  api_loading := api_loading s; api_error := api_error s; loading := loading s
|}.

Definition emit (e : Event) : M unit := modify (with_events (fun l => l ++ [e])).

Definition setModel (m : Model) : M unit := modify (fun s => {|
  randoms_drawn := randoms_drawn s; clock_reads := clock_reads s;
  indexeddb := indexeddb s; events := events s;
  model := Some m; loadingState := loadingState s; error := error s;
  modelInfo := modelInfo s; isOfflineMode := isOfflineMode s;
  api_loading := api_loading s; api_error := api_error s; loading := loading s
|}).

Definition setLoadingState (l : LoadingState) : M unit := modify (fun s => {|
  randoms_drawn := randoms_drawn s; clock_reads := clock_reads s;
  indexeddb := indexeddb s; events := events s;
  model := model s; loadingState := l; error := error s;
  modelInfo := modelInfo s; isOfflineMode := isOfflineMode s;
  api_loading := api_loading s; api_error := api_error s; loading := loading s
|}).

Definition setError (msg : string) : M unit := modify (fun s => {|
  randoms_drawn := randoms_drawn s; clock_reads := clock_reads s;
  indexeddb := indexeddb s; events := events s;
  model := model s; loadingState := loadingState s; error := Some msg;
  modelInfo := modelInfo s; isOfflineMode := isOfflineMode s;
  api_loading := api_loading s; api_error := api_error s; loading := loading s
|}).

Definition setModelInfo (i : MLModel) : M unit := modify (fun s => {|
  randoms_drawn := randoms_drawn s; clock_reads := clock_reads s;
  indexeddb := indexeddb s; events := events s;
  model := model s; loadingState := loadingState s; error := error s;
  modelInfo := Some i; isOfflineMode := isOfflineMode s;
  api_loading := api_loading s; api_error := api_error s; loading := loading s
|}).

Definition setIsOfflineMode (b : bool) : M unit := modify (fun s => {|
  randoms_drawn := randoms_drawn s; clock_reads := clock_reads s;
  indexeddb := indexeddb s; events := events s;
  model := model s; loadingState := loadingState s; error := error s;
  modelInfo := modelInfo s; isOfflineMode := b;
  api_loading := api_loading s; api_error := api_error s; loading := loading s
|}).

Definition setApiLoading (b : bool) : M unit := modify (fun s => {|
  randoms_drawn := randoms_drawn s; clock_reads := clock_reads s;
  indexeddb := indexeddb s; events := events s;
  model := model s; loadingState := loadingState s; error := error s;
  modelInfo := modelInfo s; isOfflineMode := isOfflineMode s;
  api_loading := b; api_error := api_error s; loading := loading s
|}).

Definition setApiError (e : option string) : M unit := modify (fun s => {|
  randoms_drawn := randoms_drawn s; clock_reads := clock_reads s;
  indexeddb := indexeddb s; events := events s;
  model := model s; loadingState := loadingState s; error := error s;
  modelInfo := modelInfo s; isOfflineMode := isOfflineMode s;
  api_loading := api_loading s; api_error := e; loading := loading s
|}).

Definition setLoading (b : bool) : M unit := modify (fun s => {|
  randoms_drawn := randoms_drawn s; clock_reads := clock_reads s;
  indexeddb := indexeddb s; events := events s;
  model := model s; loadingState := loadingState s; error := error s;
  modelInfo := modelInfo s; isOfflineMode := isOfflineMode s;
  api_loading := api_loading s; api_error := api_error s; loading := b
|}).

Definition store_model (key : string) (m : Model) : M unit := modify (fun s => {|
  randoms_drawn := randoms_drawn s; clock_reads := clock_reads s;
  indexeddb := <[key := m]> (indexeddb s); events := events s;
  model := model s; loadingState := loadingState s; error := error s;
  modelInfo := modelInfo s; isOfflineMode := isOfflineMode s;
  api_loading := api_loading s; api_error := api_error s; loading := loading s
|}).

Definition tick_random : M nat := fun s => (Returned (randoms_drawn s), {|
  randoms_drawn := S (randoms_drawn s); clock_reads := clock_reads s;
  indexeddb := indexeddb s; events := events s;
  model := model s; loadingState := loadingState s; error := error s;
  modelInfo := modelInfo s; isOfflineMode := isOfflineMode s;
  api_loading := api_loading s; api_error := api_error s; loading := loading s
|}).

Definition tick_clock : M nat := fun s => (Returned (clock_reads s), {|
  randoms_drawn := randoms_drawn s; clock_reads := S (clock_reads s);
  indexeddb := indexeddb s; events := events s;
  model := model s; loadingState := loadingState s; error := error s;
  modelInfo := modelInfo s; isOfflineMode := isOfflineMode s;
  api_loading := api_loading s; api_error := api_error s; loading := loading s
|}).

(** ** The module's functions *)

Definition modelKey : string := "ecosort-waste-classifier-v2".
Definition indexeddb_scheme : string := "indexeddb://".
Definition supported_formats : list string :=
  ["image/jpeg"; "image/png"; "image/webp"].

Definition mock_types : list string :=
  ["biodegradable"; "recyclable"; "hazardous"].

(** The [Partial<ClassificationResult>] of [processEnhancedPredictions]. *)
Record Prediction : Type := {
  p_type : WasteType;
  p_confidence : Z;
  p_details : gmap string value
}.

Definition quality_name (q : Quality) : string :=
  match q with QGood => "good" | QFair => "fair" | QPoor => "poor" end.

Definition lighting_name (l : Lighting) : string :=
  match l with LGood => "good" | LLow => "low" | LOverexposed => "overexposed" end.

Definition imageAnalysis_value (a : ImageAnalysis) : value :=
  VObj (<["quality" := VStr (quality_name (quality a))]>
        (<["clarity" := VNum (clarity a)]>
         (<["lightingConditions" := VStr (lighting_name (lightingConditions a))]>
          (<["objectDetectionCount" := VNum (inject_Z (objectDetectionCount a))]> ∅)))).

Inductive Input : Type :=
  | InFile (f : File)
  | InImage (img : HTMLImageElement).

Definition as_image (input : Input) : option HTMLImageElement :=
  match input with InImage img => Some img | InFile _ => None end.

Definition as_file (input : Input) : option File :=
  match input with InFile f => Some f | InImage _ => None end.

(** [isReady: loadingState === "loaded"] *)
Definition isReady (s : State) : bool :=
  match loadingState s with loaded => true | _ => false end.

Section Hooks.

Variable env : Env.

Definition Math_random : M Q :=
  n <- tick_random ;; ret (random_source env n).

Definition Date_now : M Z :=
  n <- tick_clock ;; ret (clock_source env n).

(** [arr[Math.floor(Math.random() * arr.length)]] *)
Definition random_pick (arr : list string) : M value :=
  r <- Math_random ;;
  ret (JS.at_index arr (Math_floor (r * inject_Z (Z.of_nat (length arr))))).

Definition getSubCategory (type : value) : M value :=
  match switch_type type with
  | Some t => random_pick (subCategories t)
  | None => ret (VStr "Unknown")
  end.

Definition getMaterial (type : value) : M value :=
  match switch_type type with
  | Some t => random_pick (materials t)
  | None => ret (VStr "Unknown")
  end.

(** The object literal [{ subCategory, material, recommendations }], its
    members evaluated in this order. *)
Definition basic_details (type : value) : M (gmap string value) :=
  subCategory <- getSubCategory type ;;
  material <- getMaterial type ;;
  ret (<["subCategory" := subCategory]>
       (<["material" := material]>
        (<["recommendations" := JS.strings (getRecommendations type)]> ∅))).

Definition mockClassification : M value :=
  r <- Math_random ;;
  emit (SetTimeout (350 + r * 400)%Q) ;;
  type <- random_pick mock_types ;;
  r' <- Math_random ;;
  let confidence := 85 + Math_floor (r' * 15) in
  details <- basic_details type ;;
  ret (VObj (<["type" := type]>
             (<["confidence" := VNum (inject_Z confidence)]>
              (<["processingTime" := VNum 600]>
               (<["details" := VObj details]> ∅))))).

Definition processEnhancedPredictions
    (data : Q * Q * Q) (imageAnalysis : ImageAnalysis) : M Prediction :=
  let '(biodegradable_score, recyclable_score, hazardous_score) := data in
  let maxConfidence :=
    Math_max (Math_max biodegradable_score recyclable_score) hazardous_score in
  let type :=
    if Qeq_bool maxConfidence biodegradable_score then biodegradable
    else if Qeq_bool maxConfidence recyclable_score then recyclable
    else hazardous in
  let adjustedConfidence := (maxConfidence * 100)%Q in
  let adjustedConfidence :=
    match quality imageAnalysis with
    | QPoor => (adjustedConfidence * (8 # 10))%Q
    | _ => adjustedConfidence
    end in
  let adjustedConfidence :=
    match lightingConditions imageAnalysis with
    | LLow => (adjustedConfidence * (9 # 10))%Q
    | _ => adjustedConfidence
    end in
  details <- basic_details (type_value type) ;;
  ret {| p_type := type;
         p_confidence := Math_round (Math_min 99 adjustedConfidence);
         p_details := details |}.

(** [useTensorFlowModel().classifyImage] *)
Definition classifyImage (imageElement : HTMLImageElement) : M value :=
  current <- gets model ;;
  match current with
  | None => throw (ErrorObj "Model not loaded")
  | Some model =>
      try_catch
        (startTime <- Date_now ;;
         lift (import_tfjs env) ;;
         imageAnalysis <- lift (analyzeImageQuality (canvas_rounding env) imageElement) ;;
         data <- lift (predict model imageElement) ;;
         result <- processEnhancedPredictions data imageAnalysis ;;
         endTime <- Date_now ;;
         let processingTime := endTime - startTime in
         let type := p_type result in
         ret (VObj
           (<["type" := type_value type]>
            (<["confidence" := VNum (inject_Z (p_confidence result))]>
             (<["processingTime" := VNum (inject_Z processingTime)]>
              (<["imageAnalysis" := imageAnalysis_value imageAnalysis]>
               (<["details" := VObj
                    (<["nearestFacilities" := JS.strings (findNearestFacilities type)]>
                     (<["wasteReductionTips" := JS.strings (getWasteReductionTips type)]>
                      (<["environmentalImpact" := calculateEnvironmentalImpact type]>
                       (p_details result))))]>
                (<["alternativeDisposal" := JS.strings (getAlternativeDisposal type)]>
                 (<["carbonFootprint" := VNum (calculateCarbonFootprint type)]> ∅)))))))))
        (fun err =>
           throw (ErrorObj ("Classification failed: " +:+ message_or "Unknown error" err)))
  end.

(** The [fetch] call of [classifyImageViaAPI]: a POST of the file to the
    configured endpoint, with a bearer header when a key is configured. *)
Definition api_request (imageFile : File) : Request := {|
  url := default "" (apiEndpoint (mlConfig env));
  method := "POST";
  authorization :=
    if JS.truthy (apiKey (mlConfig env))
    then Some ("Bearer " +:+ default "" (apiKey (mlConfig env)))
    else None;
  body := imageFile |}.

(** [useAPIClassification().classifyImageViaAPI] *)
Definition classifyImageViaAPI (imageFile : File) : M value :=
  if negb (JS.truthy (apiEndpoint (mlConfig env)))
  then throw (ErrorObj "ML API endpoint not configured")
  else
    setApiLoading true ;;
    setApiError None ;;
    try_finally
      (try_catch
         (startTime <- Date_now ;;
          let request := api_request imageFile in
          emit (Fetch request) ;;
          response <- lift (network env request) ;;
          if negb (ok response)
          then throw (ErrorObj ("API request failed: " +:+ statusText response))
          else
            result <- lift (json response) ;;
            endTime <- Date_now ;;
            let processingTime := endTime - startTime in
            details <- lift (JS.get result "details") ;;
            type <- lift (JS.get result "type") ;;
            ret (VObj
              (<["details" := VObj
                   (<["recommendations" := JS.strings (getRecommendations type)]>
                    (JS.spread details))]>
               (<["processingTime" := VNum (inject_Z processingTime)]>
                (JS.spread result)))))
         (fun err =>
            let errorMessage := message_or "Classification failed" err in
            setApiError (Some errorMessage) ;;
            throw (ErrorObj errorMessage)))
      (setApiLoading false).

(** The body of the [try] block of [classifyWaste]. *)
Definition select_backend (input : Input) : M value :=
  ready <- gets isReady ;;
  match (if ready then as_image input else None) with
  | Some img =>
      emit (ConsoleLog "Using TensorFlow.js model for classification") ;;
      classifyImage img
  | None =>
      match (if JS.truthy (apiEndpoint (mlConfig env))
             then as_file input else None) with
      | Some f =>
          emit (ConsoleLog "Using API for classification") ;;
          classifyImageViaAPI f
      | None =>
          emit (ConsoleLog "Using mock classification") ;;
          mockClassification
      end
  end.

(** The [catch] block of [classifyWaste]. *)
Definition fallback_to_mock (error : exn) : M value :=
  emit (ConsoleError ("Classification error: " +:+ message_or "" error)) ;;
  mockClassification.

(** [useWasteClassification().classifyWaste] *)
Definition classifyWaste (input : Input) : M value :=
  setLoading true ;;
  try_finally
    (try_catch (select_backend input) fallback_to_mock)
    (setLoading false).

(** [tf.loadLayersModel(url)]: from the IndexedDB store for an
    [indexeddb://key] URL (absent key: an error), from the network
    otherwise. *)
Definition tf_loadLayersModel (from : string) : M Model :=
  emit (LoadLayersModel from) ;;
  if String.prefix indexeddb_scheme from
  then
    store <- gets indexeddb ;;
    let key := String.substring (String.length indexeddb_scheme)
                   (String.length from - String.length indexeddb_scheme) from in
    match store !! key with
    | Some m => ret m
    | None => throw (ErrorObj ("Cannot find model with path " +:+ key))
    end
  else lift (http_model env from).

(** [model.save("indexeddb://key")] *)
Definition model_save (m : Model) (key : string) : M unit :=
  emit (ModelSave (indexeddb_scheme +:+ key)) ;;
  lift (indexeddb_write env) ;;
  store_model key m.

Definition loadOfflineModel : M (option (Model * MLModel)) :=
  try_catch
    (model <- tf_loadLayersModel (indexeddb_scheme +:+ modelKey) ;;
     ret (Some (model, {|
       name := "EcoSort Offline Classifier";
       version := "2.0.0";
       accuracy := 921 # 10;
       supportedFormats := supported_formats;
       info_loadingState := loaded;
       modelSize := None;
       trainingData := None;
       offlineCapable := true |})))
    (fun _ => ret None).

Definition cacheModelOffline (model : Model) : M unit :=
  try_catch
    (model_save model modelKey ;;
     emit (ConsoleLog "Model cached for offline use"))
    (fun err =>
       emit (ConsoleWarn ("Failed to cache model offline: " +:+ message_or "" err))).

Definition loadDemoModel : M (Model * MLModel) :=
  ret (demo_model env, {|
    name := "EcoSort Demo Classifier";
    version := "1.0.0";
    accuracy := 885 # 10;
    supportedFormats := supported_formats;
    info_loadingState := loaded;
    modelSize := None;
    trainingData := None;
    offlineCapable := true |}).

(** The effect of [useTensorFlowModel]: one load attempt. *)
Definition loadModel : M unit :=
  setLoadingState loading_model ;;
  try_catch
    (lift (import_tfjs env) ;;
     offlineModel <- loadOfflineModel ;;
     match offlineModel with
     | Some (model, info) =>
         setModel model ;;
         setModelInfo info ;;
         setIsOfflineMode true ;;
         setLoadingState loaded
     | None =>
         if JS.truthy (tensorflowModelUrl (mlConfig env))
         then
           loadedModel <-
             tf_loadLayersModel (default "" (tensorflowModelUrl (mlConfig env))) ;;
           setModel loadedModel ;;
           setModelInfo {|
             name := "EcoSort Waste Classifier";
             version := "2.1.0";
             accuracy := 942 # 10;
             supportedFormats := supported_formats;
             info_loadingState := loaded;
             modelSize := Some (125 # 10);
             trainingData := Some {|
               samples := 100000;
               training_accuracy := 942 # 10;
               lastUpdated := "2024-01-15" |};
             offlineCapable := true |} ;;
           setLoadingState loaded ;;
           cacheModelOffline loadedModel
         else
           demoModel <- loadDemoModel ;;
           setModel (fst demoModel) ;;
           setModelInfo (snd demoModel) ;;
           setLoadingState loaded
     end)
    (fun err =>
       setError (message_or "Failed to load ML model" err) ;;
       setLoadingState error_state ;;
       emit (ConsoleWarn
         "ML model loading failed, classification will use enhanced mock data")).

End Hooks.

(** ** The specification's wording, for comparison *)

(** Section 4.5: multiply by 0.8 when the quality is poor, by 0.9 when the
    lighting is low, clamp to at most 99, round to the nearest integer. *)
Definition spec_adjusted_confidence (C : Q) (a : ImageAnalysis) : Z :=
  let by_quality := (match quality a with QPoor => 8 # 10 | _ => 1 end)%Q in
  let by_lighting := (match lightingConditions a with LLow => 9 # 10 | _ => 1 end)%Q in
  Math_round (Math_min 99 (C * by_quality * by_lighting)%Q).

(** The raw confidence of a prediction: the largest score on a 0-100
    scale. *)
Definition raw_confidence (data : Q * Q * Q) : Q :=
  let '(b, r, h) := data in (Math_max (Math_max b r) h * 100)%Q.

(** Section 4.2 as worded: the sources in priority order, each tried when
    the ones before it failed, the first success kept. *)
Definition spec_first_success (env : Env) (s : State) : option Model :=
  match indexeddb s !! modelKey with
  | Some m => Some m
  | None =>
      match (if JS.truthy (tensorflowModelUrl (mlConfig env))
             then http_model env (default "" (tensorflowModelUrl (mlConfig env)))
             else Threw (ErrorObj "no model URL")) with
      | Returned m => Some m
      | Threw _ => Some (demo_model env)
      end
  end.

(** ** Sample worlds *)

(** A canvas that keeps premultiplied colours in 8 bits, rounding to
    nearest when it multiplies and when it divides back. *)
Definition premultiplied_8bit : Blend := fun colour alpha =>
  let stored := (byte_value colour * byte_value alpha + 127) / 255 in
  let back := Z.min 255 ((stored * 255 + byte_value alpha / 2) / byte_value alpha) in
  default Byte.x00 (Byte.of_N (Z.to_N back)).

(** An opaque image given by the red, green and blue values of its
    pixels, row by row. *)
Definition opaque_pixels (w h : nat) (rgb : list (Z * Z * Z)) : HTMLImageElement :=
  let byte_of n := default Byte.x00 (Byte.of_N (Z.to_N n)) in
  {| width := w; height := h;
     rgba := fun i =>
       match rgb !! (i / 4)%nat with
       | Some (r, g, b) =>
           match (i mod 4)%nat with
           | 0%nat => byte_of r
           | 1%nat => byte_of g
           | 2%nat => byte_of b
           | _ => Byte.xff
           end
       | None => Byte.xff
       end |}.

Definition scores_model (n : string) (scores : Q * Q * Q) : Model :=
  {| model_name := n; predict := fun _ => Returned scores |}.

Definition broken_model (n : string) : Model :=
  {| model_name := n; predict := fun _ => Threw (ErrorObj "Tensor shape mismatch") |}.

Definition no_config : Config :=
  {| tensorflowModelUrl := None; apiEndpoint := None; apiKey := None |}.

Definition api_config : Config :=
  {| tensorflowModelUrl := None;
     apiEndpoint := Some "https://api.example.org/classify";
     apiKey := Some "k-123" |}.

Definition url_config : Config :=
  {| tensorflowModelUrl := Some "https://models.example.org/waste/model.json";
     apiEndpoint := None; apiKey := None |}.

(** A world with the given configuration, remote model artifact and API
    response; the random source yields 1/2 and the clock advances by
    10 ms per reading. *)
Definition world (cfg : Config) (artifact : outcome Model)
    (write : outcome unit) (reply : outcome Response) : Env := {|
  mlConfig := cfg;
  random_source := fun _ => 1 # 2;
  clock_source := fun n => 1000 + 10 * Z.of_nat n;
  import_tfjs := Returned tt;
  http_model := fun _ => artifact;
  demo_model := scores_model "demo" (1 # 3, 1 # 3, 1 # 3)%Q;
  indexeddb_write := write;
  network := fun _ => reply;
  canvas_rounding := premultiplied_8bit
|}.

Definition offline : outcome Response := Threw (ErrorObj "Failed to fetch").
Definition unreachable : outcome Model := Threw (ErrorObj "Failed to fetch").

Definition a_file : File :=
  {| file_name := "bottle.jpg"; file_type := "image/jpeg"; file_size := 4096 |}.

Definition http_ok (body : value) : outcome Response :=
  Returned {| ok := true; statusText := "OK"; json := Returned body |}.

Definition http_500 : outcome Response :=
  Returned {| ok := false; statusText := "Internal Server Error";
              json := Threw (ErrorObj "Unexpected end of JSON input") |}.

(** A remote answer that is certain and brings its own recommendation. *)
Definition certain_body : value :=
  VObj (<["type" := VStr "recyclable"]>
        (<["confidence" := VNum 100]>
         (<["details" := VObj (<["recommendations" :=
              JS.strings ["Throw it in any bin"]]> ∅)]> ∅))).

Definition result_of {A} (r : outcome A * State) : outcome A := fst r.
Definition state_of {A} (r : outcome A * State) : State := snd r.

Definition gray_poor_low : ImageAnalysis :=
  {| quality := QPoor; clarity := 0; lightingConditions := LLow;
     objectDetectionCount := 1 |}.

(** ** Vocabulary of the statements *)

(** Drawing a random number only advances the draw counter. *)
Definition after_draw (s : State) : State := state_of (tick_random s).

(** The confidence [processEnhancedPredictions] reports, as the source
    computes it from the largest score. *)
Definition code_confidence (data : Q * Q * Q) (a : ImageAnalysis) : Z :=
  let x := raw_confidence data in
  let x := match quality a with QPoor => (x * (8 # 10))%Q | _ => x end in
  let x := match lightingConditions a with LLow => (x * (9 # 10))%Q | _ => x end in
  Math_round (Math_min 99 x).

Definition bright_scores : Q * Q * Q := (1 # 10, 7 # 10, 2 # 10)%Q.

(** The report of an analysis with the given quality, the rest fixed. *)
Definition with_quality (q : Quality) (a : ImageAnalysis) : ImageAnalysis :=
  {| quality := q; clarity := clarity a;
     lightingConditions := lightingConditions a;
     objectDetectionCount := objectDetectionCount a |}.

Definition configured (env : Env) : bool := JS.truthy (apiEndpoint (mlConfig env)).

(** A body from which [result.details] cannot be read. *)
Definition nullish (v : value) : bool :=
  match v with VNull | VUndefined => true | _ => false end.

(** The result object of a successful call, for a parsed body and a
    measured processing time. *)
Definition api_result (body : value) (processingTime : Z) : value :=
  VObj (<["details" := VObj
            (<["recommendations" :=
                 JS.strings (getRecommendations (JS.field "type" body))]>
             (JS.spread (JS.field "details" body)))]>
        (<["processingTime" := VNum (inject_Z processingTime)]>
         (JS.spread body))).

(** Every way a call of [classifyImageViaAPI] can end, by what the
    configuration and the network hold. *)
Inductive api_run (env : Env) (file : File) : outcome value -> Prop :=
  | api_not_configured :
      configured env = false ->
      api_run env file (Threw (ErrorObj "ML API endpoint not configured"))
  | api_network_failure e :
      configured env = true ->
      network env (api_request env file) = Threw e ->
      api_run env file (Threw (ErrorObj (message_or "Classification failed" e)))
  | api_bad_status resp :
      configured env = true ->
      network env (api_request env file) = Returned resp ->
      ok resp = false ->
      api_run env file
        (Threw (ErrorObj ("API request failed: " +:+ statusText resp)))
  | api_bad_json resp e :
      configured env = true ->
      network env (api_request env file) = Returned resp ->
      ok resp = true ->
      json resp = Threw e ->
      api_run env file (Threw (ErrorObj (message_or "Classification failed" e)))
  | api_null_body resp body e :
      configured env = true ->
      network env (api_request env file) = Returned resp ->
      ok resp = true ->
      json resp = Returned body ->
      nullish body = true ->
      JS.get body "details" = Threw e ->
      api_run env file (Threw (ErrorObj (message_or "Classification failed" e)))
  | api_success resp body t :
      configured env = true ->
      network env (api_request env file) = Returned resp ->
      ok resp = true ->
      json resp = Returned body ->
      nullish body = false ->
      api_run env file (Returned (api_result body t)).

(** The cases in which, by the specification, the remote classifier
    raises: no endpoint configured, a network failure, a non-success
    status, a body that does not parse. *)
Definition stated_raise_cases (env : Env) (file : File) : Prop :=
  configured env = false
  \/ (exists e, network env (api_request env file) = Threw e)
  \/ (exists resp, network env (api_request env file) = Returned resp
        /\ (ok resp = false \/ exists e, json resp = Threw e)).

Definition cache_url : string := indexeddb_scheme +:+ modelKey.

Definition remote_url (env : Env) : string :=
  default "" (tensorflowModelUrl (mlConfig env)).

Definition remote_configured (env : Env) : bool :=
  JS.truthy (tensorflowModelUrl (mlConfig env)).

Definition logged (e : Event) (s : State) : State :=
  with_events (fun l => l ++ [e]) s.

(** The model information [loadOfflineModel] attaches to a cached model. *)
Definition offline_info : MLModel := {|
  name := "EcoSort Offline Classifier";
  version := "2.0.0";
  accuracy := 921 # 10;
  supportedFormats := supported_formats;
  info_loadingState := loaded;
  modelSize := None;
  trainingData := None;
  offlineCapable := true |}.

(** The state in which the sources are tried: [loadingState] is
    "loading". *)
Definition loading_started (s : State) : State :=
  state_of (setLoadingState loading_model s).

Definition cached_model : Model := scores_model "cached" (6 # 10, 3 # 10, 1 # 10)%Q.
Definition remote_model : Model := scores_model "remote" (1 # 10, 7 # 10, 2 # 10)%Q.

(** ** Further functions of the module *)

(** *** Upload validation *)

Record Validation : Type := {
  isValid : bool;
  validation_error : option string
}.

Definition maxSize : Z := 5 * 1024 * 1024.

Definition allowedTypes : list string :=
  ["image/jpeg"; "image/png"; "image/webp"].

Definition validateImageForClassification (file : File) : Validation :=
  if negb (bool_decide (file_type file ∈ allowedTypes))
  then {| isValid := false;
          validation_error := Some "Please upload a JPEG, PNG, or WebP image" |}
  else if maxSize <? file_size file
  then {| isValid := false;
          validation_error := Some "Image size must be less than 5MB" |}
  else {| isValid := true; validation_error := None |}.

(** *** Waste forecast *)

(** The fields [generateWasteForecast] reads from the user profile; the
    profile itself may be absent ([userProfile?.]). *)
Record UserProfile : Type := {
  householdSize : option Q;
  householdType : option string
}.

Record WeeklyWaste : Type := {
  weekly_biodegradable : Q;
  weekly_recyclable : Q;
  weekly_hazardous : Q
}.

Record MonthlyForecast : Type := {
  total : Q;
  breakdown : gmap string Q
}.

Record PotentialSavings : Type := {
  cost : Q;
  environmental : list string
}.

Record WastePrediction : Type := {
  forecast_householdType : string;
  weeklyWaste : WeeklyWaste;
  monthlyForecast : MonthlyForecast;
  forecast_recommendations : list string;
  potentialSavings : PotentialSavings
}.

(** [n || d] on a possibly absent number: absent and zero are falsy. *)
Definition number_or (n : option Q) (d : Q) : Q :=
  match n with
  | Some q => if Qeq_bool q 0 then d else q
  | None => d
  end.

(** [s || d] on a possibly absent string: absent and empty are falsy. *)
Definition string_or (s : option string) (d : string) : string :=
  if JS.truthy s then default d s else d.

Definition generateWasteForecast (userProfile : option UserProfile)
  : WastePrediction :=
  let householdSize := number_or (userProfile ≫= householdSize) 2 in
  let baseWaste := {|
    weekly_biodegradable := (32 # 10) * householdSize;
    weekly_recyclable := (28 # 10) * householdSize;
    weekly_hazardous := (3 # 10) * householdSize |}%Q in
  {| forecast_householdType :=
       string_or (userProfile ≫= householdType) "apartment";
     weeklyWaste := baseWaste;
     monthlyForecast := {|
       total :=
         (fold_left Qplus
            [weekly_biodegradable baseWaste; weekly_recyclable baseWaste;
             weekly_hazardous baseWaste] 0 * (43 # 10))%Q;
       breakdown :=
         <["Food waste" := (weekly_biodegradable baseWaste * (7 # 10) * (43 # 10))%Q]>
         (<["Plastic packaging" := (weekly_recyclable baseWaste * (5 # 10) * (43 # 10))%Q]>
          (<["Paper products" := (weekly_recyclable baseWaste * (3 # 10) * (43 # 10))%Q]>
           (<["Electronics" := (weekly_hazardous baseWaste * (8 # 10) * (43 # 10))%Q]> ∅)))
     |};
     forecast_recommendations :=
       [ "Consider starting a composting system";
         "Switch to bulk buying to reduce packaging";
         "Set up a household recycling station" ];
     potentialSavings := {|
       cost := 455 # 10;
       environmental :=
         ["2.3 kg CO2 reduction"; "15L water saved"; "8kWh energy saved"] |}
  |}.

(** [useTensorFlowModel().predictWasteGeneration] *)
Definition predictWasteGeneration (userProfile : option UserProfile)
  : WastePrediction :=
  generateWasteForecast userProfile.

(** *** Footprint estimates *)

Definition estimateCO2Saved (classifications pickups : Q) : Q :=
  (inject_Z (Math_round ((classifications * (5 # 10) + pickups * (12 # 10)) * 100))
   / 100)%Q.

Definition treesEquivalent (co2Kg : Q) : Q :=
  (inject_Z (Math_round (co2Kg / 21 * 100)) / 100)%Q.

(** *** What [useWasteClassification] exposes besides [classifyWaste] *)

Record ClassificationView : Type := {
  view_loading : bool;
  modelReady : bool;
  apiAvailable : bool;
  view_error : option string
}.

Definition is_loading (l : LoadingState) : bool :=
  match l with loading_model => true | _ => false end.

Definition useWasteClassification_view (env : Env) (s : State)
  : ClassificationView := {|
  view_loading := loading s || is_loading (loadingState s) || api_loading s;
  modelReady := isReady s;
  apiAvailable := JS.truthy (apiEndpoint (mlConfig env));
  view_error := if JS.truthy (error s) then error s else api_error s
|}.

(** The category [processEnhancedPredictions] selects, as the source
    computes it from the three scores. *)
Definition code_type (data : Q * Q * Q) : WasteType :=
  let '(b, r, h) := data in
  let maxConfidence := Math_max (Math_max b r) h in
  if Qeq_bool maxConfidence b then biodegradable
  else if Qeq_bool maxConfidence r then recyclable
  else hazardous.

(** The report of an analysis with the given lighting, the rest fixed. *)
Definition with_lighting (l : Lighting) (a : ImageAnalysis) : ImageAnalysis :=
  {| quality := quality a; clarity := clarity a;
     lightingConditions := l;
     objectDetectionCount := objectDetectionCount a |}.

(** The [details] object of the mock and on-device results before
    enrichment. *)
Definition details_of (sub mat : value) (type : value) : gmap string value :=
  <["subCategory" := sub]>
  (<["material" := mat]>
   (<["recommendations" := JS.strings (getRecommendations type)]> ∅)).

(** The result object [classifyImage] builds from a prediction, the
    image analysis and the measured time. *)
Definition tf_result (p : Prediction) (a : ImageAnalysis) (processingTime : Z)
  : value :=
  let type := p_type p in
  VObj
    (<["type" := type_value type]>
     (<["confidence" := VNum (inject_Z (p_confidence p))]>
      (<["processingTime" := VNum (inject_Z processingTime)]>
       (<["imageAnalysis" := imageAnalysis_value a]>
        (<["details" := VObj
             (<["nearestFacilities" := JS.strings (findNearestFacilities type)]>
              (<["wasteReductionTips" := JS.strings (getWasteReductionTips type)]>
               (<["environmentalImpact" := calculateEnvironmentalImpact type]>
                (p_details p))))]>
         (<["alternativeDisposal" := JS.strings (getAlternativeDisposal type)]>
          (<["carbonFootprint" := VNum (calculateCarbonFootprint type)]> ∅))))))).

(** The error [classifyImage] raises for a failure inside its [try]. *)
Definition classification_failed (cause : exn) : exn :=
  ErrorObj ("Classification failed: " +:+ message_or "Unknown error" cause).

(** What happens inside the [try] block of [classifyImage] before the
    prediction is processed: the first failing step, or the analysis and
    the scores. *)
Definition inference (env : Env) (m : Model) (img : HTMLImageElement)
  : outcome (ImageAnalysis * (Q * Q * Q)) :=
  match import_tfjs env with
  | Threw e => Threw e
  | Returned _ =>
      match analyzeImageQuality (canvas_rounding env) img with
      | Threw e => Threw e
      | Returned a =>
          match predict m img with
          | Threw e => Threw e
          | Returned data => Returned (a, data)
          end
      end
  end.

Definition after_clock (s : State) : State := state_of (tick_clock s).

(** Two states that differ at most in the trace, the draw and clock
    counters and the loading flag of [useWasteClassification]: the
    model hook, the API hook and the model store are the same. *)
Definition same_hooks (s s' : State) : Prop :=
  model s' = model s
  /\ loadingState s' = loadingState s
  /\ error s' = error s
  /\ modelInfo s' = modelInfo s
  /\ isOfflineMode s' = isOfflineMode s
  /\ api_loading s' = api_loading s
  /\ api_error s' = api_error s
  /\ indexeddb s' = indexeddb s.

Definition is_fetch (e : Event) : bool :=
  match e with Fetch _ => true | _ => false end.

(** A world in which the TensorFlow.js module cannot be imported. *)
Definition world_without_tfjs (cfg : Config) : Env := {|
  mlConfig := cfg;
  random_source := fun _ => 1 # 2;
  clock_source := fun n => 1000 + 10 * Z.of_nat n;
  import_tfjs := Threw (ErrorObj "Failed to fetch dynamically imported module");
  http_model := fun _ => Returned remote_model;
  demo_model := scores_model "demo" (1 # 3, 1 # 3, 1 # 3)%Q;
  indexeddb_write := Returned tt;
  network := fun _ => offline;
  canvas_rounding := premultiplied_8bit
|}.

(** *** Vocabulary of the further statements *)

(** A profile that states a household of two and no type. *)
Definition household_of_two : UserProfile :=
  {| householdSize := Some 2%Q; householdType := None |}.

(** The household size the forecast works with. *)
Definition effective_size (userProfile : option UserProfile) : Q :=
  number_or (userProfile ≫= householdSize) 2.

(** An opaque mid-gray pixel, and the same pixel fully transparent and
    half transparent. *)
Definition opaque_gray : HTMLImageElement := uniform_image 1 1 Byte.x80.

Definition gray_of_alpha (alpha : Byte.byte) : HTMLImageElement :=
  {| width := 1; height := 1;
     rgba := fun i => if (i mod 4 =? 3)%nat then alpha else Byte.x80 |}.

(** Three images of three pixels whose exact mean luminance is 100, 80
    and 50. *)
Definition mean_100 : HTMLImageElement :=
  opaque_pixels 3 1 [(117, 117, 117); (139, 139, 140); (43, 44, 44)].
Definition mean_80 : HTMLImageElement :=
  opaque_pixels 3 1 [(83, 83, 83); (93, 93, 94); (63, 64, 64)].
Definition mean_50 : HTMLImageElement :=
  opaque_pixels 3 1 [(39, 39, 39); (89, 90, 90); (21, 21, 22)].

(** An image of four pixels whose exact mean luminance is 200. *)
Definition mean_200 : HTMLImageElement :=
  opaque_pixels 2 2
    [(172, 173, 173); (247, 247, 247); (160, 161, 161); (219, 220, 220)].

(** The report on an image drawn on the 8-bit canvas. *)
Definition analysis_report (img : HTMLImageElement) : option ImageAnalysis :=
  match analyzeImageQuality premultiplied_8bit img with
  | Returned a => Some a
  | Threw _ => None
  end.

(** The confidence of the prediction for a report. *)
Definition predicted_confidence (env : Env) (data : Q * Q * Q)
    (a : ImageAnalysis) (s : State) : option Z :=
  match result_of (processEnhancedPredictions env data a s) with
  | Returned p => Some (p_confidence p)
  | Threw _ => None
  end.

(** A remote answer of an unknown type with its own timing. *)
Definition odd_body : value :=
  VObj (<["type" := VStr "compostable"]>
        (<["confidence" := VNum 42]>
         (<["processingTime" := VNum 5]> ∅))).

(** * Properties *)

(** ** Arithmetic of the JavaScript number operations *)

Lemma Qltb_lt a b : Qltb a b = true <-> (a < b)%Q.
Proof.
  unfold Qltb. rewrite negb_true_iff. split.
  - intros H. apply Qnot_le_lt. intros Hle.
    apply Qle_bool_iff in Hle. congruence.
  - intros H. destruct (Qle_bool b a) eqn:E; [|reflexivity].
    apply Qle_bool_iff in E. exfalso. exact (Qlt_not_le _ _ H E).
Qed.

Lemma Qltb_ge a b : Qltb a b = false <-> (b <= a)%Q.
Proof.
  unfold Qltb. rewrite negb_false_iff. apply Qle_bool_iff.
Qed.

Lemma Math_round_mono x y : (x <= y)%Q -> Math_round x <= Math_round y.
Proof.
  intros H. unfold Math_round. apply Qfloor_resp_le.
  apply Qplus_le_compat; [exact H | apply Qle_refl].
Qed.

Lemma Math_round_Z (n : Z) : Math_round (inject_Z n) = n.
Proof.
  unfold Math_round.
  assert (Hlo : n <= Qfloor (inject_Z n + (1 # 2))).
  { rewrite <- (Qfloor_Z n) at 1. apply Qfloor_resp_le.
    rewrite <- (Qplus_0_r (inject_Z n)) at 1.
    apply Qplus_le_compat; [apply Qle_refl | discriminate]. }
  assert (Hhi : Qfloor (inject_Z n + (1 # 2)) < n + 1).
  { rewrite Zlt_Qlt. eapply Qle_lt_trans; [apply Qfloor_le|].
    rewrite inject_Z_plus. apply Qplus_lt_r. reflexivity. }
  lia.
Qed.

Lemma Math_round_comp x y : (x == y)%Q -> Math_round x = Math_round y.
Proof.
  intros H. unfold Math_round. apply Qfloor_comp. rewrite H. reflexivity.
Qed.

Lemma Qltb_comp a a' b b' : (a == a')%Q -> (b == b')%Q -> Qltb a b = Qltb a' b'.
Proof.
  intros Ha Hb. destruct (Qltb a' b') eqn:E.
  - apply Qltb_lt. apply Qltb_lt in E. rewrite Ha, Hb. exact E.
  - apply Qltb_ge. apply Qltb_ge in E. rewrite Ha, Hb. exact E.
Qed.

(** Case analysis on every comparison of the goal, each turned into the
    inequality it decides. *)
Ltac compare_all :=
  repeat match goal with
  | |- context [Qltb ?a ?b] =>
      let E := fresh "E" in
      destruct (Qltb a b) eqn:E;
      [apply Qltb_lt in E | apply Qltb_ge in E]
  | |- context [Qle_bool ?a ?b] =>
      let E := fresh "E" in
      destruct (Qle_bool a b) eqn:E;
      [apply Qle_bool_iff in E
      | assert (b < a)%Q by
          (apply Qnot_le_lt; intros Hle; apply Qle_bool_iff in Hle; congruence);
        clear E]
  end.

(** ** Rounding to doubles *)

Lemma pow2_pos k : (0 < 2 ^ k)%Q.
Proof. apply Qpower_0_lt. reflexivity. Qed.

Lemma pow2_add a b : (2 ^ (a + b) == 2 ^ a * 2 ^ b)%Q.
Proof. apply Qpower_plus. discriminate. Qed.

Lemma pow2_succ a : (2 ^ (a + 1) == 2 * 2 ^ a)%Q.
Proof. rewrite pow2_add. change (2 ^ 1)%Q with 2%Q. ring. Qed.

Lemma pow2_le a b : a <= b -> (2 ^ a <= 2 ^ b)%Q.
Proof. intros H. apply Qpower_le_compat_l; [exact H|discriminate]. Qed.

Lemma pow2_Z a : 0 <= a -> (2 ^ a == inject_Z (2 ^ a))%Q.
Proof. intros H. symmetry. exact (Zpower_Qpower 2 a H). Qed.

Lemma pow2_cancel a : (2 ^ a * 2 ^ (- a) == 1)%Q.
Proof. rewrite <- pow2_add. replace (a + - a) with 0 by lia. reflexivity. Qed.

Lemma Qabs_num_den x : (Qabs x * inject_Z (Z.pos (Qden x)) == inject_Z (Z.abs (Qnum x)))%Q.
Proof.
  destruct x as [n d]. unfold Qabs, Qeq, Qmult, inject_Z. cbn. lia.
Qed.

Lemma exponent_spec x :
  ~ (x == 0)%Q -> (2 ^ exponent x <= Qabs x /\ Qabs x < 2 ^ (exponent x + 1))%Q.
Proof.
  intros Hx. unfold exponent.
  set (n := Z.abs (Qnum x)). set (d := Z.pos (Qden x)).
  assert (Hn : 0 < n).
  { unfold n. destruct x as [xn xd]. unfold Qeq in Hx. cbn in *. lia. }
  assert (Hd : 0 < d) by (unfold d; lia).
  pose proof (Z.log2_spec n Hn) as [Hn1 Hn2].
  pose proof (Z.log2_spec d Hd) as [Hd1 Hd2].
  pose proof (Z.log2_nonneg n) as Ha. pose proof (Z.log2_nonneg d) as Hb.
  set (a := Z.log2 n) in *. set (b := Z.log2 d) in *.
  pose proof (Qabs_num_den x) as HX. fold n d in HX.
  pose proof (Qabs_nonneg x) as HX0.
  set (X := Qabs x) in *.
  assert (HA : (2 ^ a == 2 ^ (a - b) * 2 ^ b)%Q).
  { rewrite <- pow2_add. replace (a - b + b) with a by lia. reflexivity. }
  pose proof (pow2_pos (a - b)) as HP. pose proof (pow2_pos b) as HB.
  assert (Hn1q : (2 ^ a <= inject_Z n)%Q).
  { rewrite pow2_Z by lia. rewrite <- Zle_Qle. exact Hn1. }
  assert (Hn2q : (inject_Z n < 2 * 2 ^ a)%Q).
  { rewrite <- pow2_succ, pow2_Z by lia. rewrite <- Zlt_Qlt.
    replace (a + 1) with (Z.succ a) by lia. exact Hn2. }
  assert (Hd1q : (2 ^ b <= inject_Z d)%Q).
  { rewrite pow2_Z by lia. rewrite <- Zle_Qle. exact Hd1. }
  assert (Hd2q : (inject_Z d < 2 * 2 ^ b)%Q).
  { rewrite <- pow2_succ, pow2_Z by lia. rewrite <- Zlt_Qlt.
    replace (b + 1) with (Z.succ b) by lia. exact Hd2. }
  set (P := (2 ^ (a - b))%Q) in *. set (A := (2 ^ a)%Q) in *.
  set (B := (2 ^ b)%Q) in *. set (D := inject_Z d) in *. set (N := inject_Z n) in *.
  destruct (Qltb X P) eqn:E.
  - apply Qltb_lt in E. split.
    + assert (H2 : (2 * 2 ^ (a - b - 1) == P)%Q).
      { rewrite <- pow2_succ. unfold P. replace (a - b - 1 + 1) with (a - b) by lia.
        reflexivity. }
      set (P' := (2 ^ (a - b - 1))%Q) in *.
      apply Qnot_lt_le. intros Hlt. nra.
    + replace (a - b - 1 + 1) with (a - b) by lia. exact E.
  - apply Qltb_ge in E. split; [exact E|].
    rewrite pow2_succ. fold P.
    apply Qnot_le_lt. intros Hle. nra.
Qed.

Lemma nearest_even_comp q q' : (q == q')%Q -> nearest_even q = nearest_even q'.
Proof.
  intros H. unfold nearest_even. rewrite (Qfloor_comp _ _ H).
  assert (E : (q - inject_Z (Qfloor q') ?= 1 # 2)%Q = (q' - inject_Z (Qfloor q') ?= 1 # 2)%Q).
  { apply Qcompare_comp; [rewrite H|]; reflexivity. }
  rewrite E. reflexivity.
Qed.

Lemma nearest_even_Z z : nearest_even (inject_Z z) = z.
Proof.
  unfold nearest_even. rewrite Qfloor_Z.
  assert (E : (inject_Z z - inject_Z z ?= 1 # 2)%Q = Lt).
  { rewrite <- Qlt_alt. lra. }
  rewrite E. reflexivity.
Qed.

Lemma nearest_even_ge z q : (inject_Z z <= q)%Q -> z <= nearest_even q.
Proof.
  intros H. apply Qfloor_resp_le in H. rewrite Qfloor_Z in H.
  unfold nearest_even.
  destruct (q - inject_Z (Qfloor q) ?= 1 # 2)%Q; [destruct (Z.even _)|..]; lia.
Qed.

Lemma nearest_even_le z q : (q <= inject_Z z)%Q -> nearest_even q <= z.
Proof.
  intros H. pose proof (Qfloor_resp_le _ _ H) as Hf. rewrite Qfloor_Z in Hf.
  destruct (Z.eq_dec (Qfloor q) z) as [Heq|Hne].
  - assert (Hq : (q == inject_Z z)%Q).
    { apply Qle_antisym; [exact H|]. rewrite <- Heq. apply Qfloor_le. }
    rewrite (nearest_even_comp _ _ Hq), nearest_even_Z. lia.
  - unfold nearest_even.
    destruct (q - inject_Z (Qfloor q) ?= 1 # 2)%Q; [destruct (Z.even _)|..]; lia.
Qed.

Lemma binary64_comp x y : (x == y)%Q -> binary64 x = binary64 y.
Proof.
  intros H. unfold binary64. rewrite (Qred_complete _ _ H). reflexivity.
Qed.

(** The rounding of a non-zero number, by its exponent. *)
Lemma binary64_unfold x :
  ~ (x == 0)%Q ->
  let e := Z.max (exponent (Qred x) - 52) (-1074) in
  (binary64 x == inject_Z (nearest_even (x / 2 ^ e)) * 2 ^ e)%Q.
Proof.
  intros Hx e. unfold binary64.
  destruct (Qeq_bool (Qred x) 0) eqn:E.
  - apply Qeq_bool_iff in E. rewrite Qred_correct in E. contradiction.
  - fold e. rewrite Qred_correct.
    rewrite (nearest_even_comp (Qred x / 2 ^ e) (x / 2 ^ e)); [reflexivity|].
    rewrite Qred_correct. reflexivity.
Qed.

Lemma binary64_0 x : (x == 0)%Q -> binary64 x = 0%Q.
Proof.
  intros H. unfold binary64.
  assert (E : Qeq_bool (Qred x) 0 = true).
  { apply Qeq_bool_iff. rewrite Qred_correct. exact H. }
  rewrite E. reflexivity.
Qed.

Lemma binary64_nonpos x : (x <= 0)%Q -> (binary64 x <= 0)%Q.
Proof.
  intros H. destruct (Qeq_dec x 0) as [E|E].
  - rewrite (binary64_0 _ E). apply Qle_refl.
  - rewrite (binary64_unfold x E).
    set (e := Z.max _ _). pose proof (pow2_pos e) as Hp.
    assert (Hm : nearest_even (x / 2 ^ e) <= 0).
    { apply nearest_even_le. change (inject_Z 0) with 0%Q.
      apply Qle_shift_div_r; [exact Hp|]. lra. }
    rewrite Zle_Qle in Hm. change (inject_Z 0) with 0%Q in Hm.
    set (m := inject_Z _) in *. nra.
Qed.

Lemma binary64_nonneg x : (0 <= x)%Q -> (0 <= binary64 x)%Q.
Proof.
  intros H. destruct (Qeq_dec x 0) as [E|E].
  - rewrite (binary64_0 _ E). apply Qle_refl.
  - rewrite (binary64_unfold x E).
    set (e := Z.max _ _). pose proof (pow2_pos e) as Hp.
    assert (Hm : 0 <= nearest_even (x / 2 ^ e)).
    { apply nearest_even_ge. change (inject_Z 0) with 0%Q.
      apply Qle_shift_div_l; [exact Hp|]. lra. }
    rewrite Zle_Qle in Hm. change (inject_Z 0) with 0%Q in Hm.
    set (m := inject_Z _) in *. nra.
Qed.

(** The exponent of a number of magnitude at least one is not negative. *)
Lemma exponent_nonneg x : (1 <= Qabs x)%Q -> 0 <= exponent (Qred x).
Proof.
  intros H.
  assert (Hx : ~ (Qred x == 0)%Q).
  { rewrite Qred_correct. intros E.
    assert (HA : (Qabs x == 0)%Q) by (rewrite E; reflexivity). lra. }
  destruct (exponent_spec _ Hx) as [_ Hhi].
  assert (HA : (Qabs (Qred x) == Qabs x)%Q) by (rewrite Qred_correct; reflexivity).
  rewrite HA in Hhi.
  destruct (Z_lt_le_dec (exponent (Qred x)) 0) as [Hneg|]; [|assumption].
  exfalso. pose proof (pow2_le (exponent (Qred x) + 1) 0 ltac:(lia)) as Hle.
  change (2 ^ 0)%Q with 1%Q in Hle. lra.
Qed.

(** A number that is an integer multiple of its unit in the last place
    is a double. *)
Lemma binary64_exact x m :
  ~ (x == 0)%Q ->
  (x / 2 ^ Z.max (exponent (Qred x) - 52) (-1074) == inject_Z m)%Q ->
  (binary64 x == x)%Q.
Proof.
  intros Hx Hm. rewrite (binary64_unfold x Hx). cbv zeta.
  set (e := Z.max _ _) in *. pose proof (pow2_pos e) as Hp.
  rewrite (nearest_even_comp _ _ Hm), nearest_even_Z, <- Hm.
  field. lra.
Qed.

(** Dividing by a power of two with a negative exponent multiplies. *)
Lemma div_pow2_neg (x : Q) e :
  e <= 0 -> (x / 2 ^ e == x * inject_Z (2 ^ (- e)))%Q.
Proof.
  intros He. rewrite <- pow2_Z by lia.
  pose proof (pow2_pos e) as Hp. pose proof (pow2_cancel e) as Hc.
  apply Qmult_inj_r with (z := (2 ^ e)%Q); [lra|].
  rewrite <- Qmult_assoc, (Qmult_comm (2 ^ (- e))), Hc.
  field. lra.
Qed.

Lemma exponent_of_integer x z :
  (x == inject_Z z)%Q -> z <> 0 -> Z.abs z < 2 ^ 53 ->
  0 <= exponent (Qred x) <= 52.
Proof.
  intros Hxz Hz0 Hz.
  assert (HA : (Qabs x == inject_Z (Z.abs z))%Q) by (rewrite Hxz; reflexivity).
  assert (H1 : (1 <= Qabs x)%Q).
  { rewrite HA. change 1%Q with (inject_Z 1). rewrite <- Zle_Qle. lia. }
  split; [exact (exponent_nonneg x H1)|].
  assert (Hx : ~ (Qred x == 0)%Q).
  { rewrite Qred_correct, Hxz. intros E. apply Hz0.
    apply inject_Z_injective. exact E. }
  destruct (exponent_spec _ Hx) as [Hlo _].
  assert (HR : (Qabs (Qred x) == Qabs x)%Q) by (rewrite Qred_correct; reflexivity).
  rewrite HR, HA in Hlo.
  assert (Hlt : (2 ^ exponent (Qred x) < 2 ^ 53)%Q).
  { eapply Qle_lt_trans; [exact Hlo|].
    rewrite (pow2_Z 53) by lia. rewrite <- Zlt_Qlt. exact Hz. }
  apply Qpower_lt_compat_l_inv in Hlt; [lia|reflexivity].
Qed.

(** Integers below [2^53] in magnitude are doubles. *)
Lemma binary64_Z x z :
  (x == inject_Z z)%Q -> Z.abs z < 2 ^ 53 -> (binary64 x == inject_Z z)%Q.
Proof.
  intros Hxz Hz. destruct (Z.eq_dec z 0) as [->|Hz0].
  - rewrite (binary64_0 _ Hxz). reflexivity.
  - assert (Hx : ~ (x == 0)%Q).
    { rewrite Hxz. intros E. apply Hz0. apply inject_Z_injective. exact E. }
    pose proof (exponent_of_integer x z Hxz Hz0 Hz) as Hk.
    rewrite <- Hxz.
    apply (binary64_exact x (z * 2 ^ (- (exponent (Qred x) - 52))) Hx).
    set (k := exponent (Qred x)) in *.
    rewrite Z.max_l by lia. rewrite div_pow2_neg by lia.
    rewrite Hxz, inject_Z_mult. reflexivity.
Qed.

(** Rounding does not cross an integer below [2^53]. *)
Lemma binary64_ge x c :
  0 < c < 2 ^ 53 -> (inject_Z c <= x)%Q -> (inject_Z c <= binary64 x)%Q.
Proof.
  intros Hc Hx.
  assert (H1 : (1 <= x)%Q).
  { eapply Qle_trans; [|exact Hx]. change 1%Q with (inject_Z 1).
    rewrite <- Zle_Qle. lia. }
  assert (Hx0 : ~ (x == 0)%Q) by (intros E; lra).
  assert (HA : (Qabs x == x)%Q) by (apply Qabs_pos; lra).
  assert (Hk0 : 0 <= exponent (Qred x)).
  { apply exponent_nonneg. rewrite HA. exact H1. }
  assert (Hr : ~ (Qred x == 0)%Q) by (rewrite Qred_correct; exact Hx0).
  destruct (exponent_spec _ Hr) as [Hlo _].
  assert (HR : (Qabs (Qred x) == x)%Q) by (rewrite Qred_correct; exact HA).
  rewrite HR in Hlo.
  rewrite (binary64_unfold x Hx0). cbv zeta.
  set (k := exponent (Qred x)) in *.
  rewrite Z.max_l by lia.
  pose proof (pow2_pos (k - 52)) as Hp.
  destruct (Z_le_gt_dec k 52) as [Hk|Hk].
  - assert (Hm : c * 2 ^ (- (k - 52)) <= nearest_even (x / 2 ^ (k - 52))).
    { apply nearest_even_ge. rewrite div_pow2_neg by lia.
      rewrite inject_Z_mult.
      apply Qmult_le_compat_r; [exact Hx|].
      change 0%Q with (inject_Z 0). rewrite <- Zle_Qle. lia. }
    rewrite Zle_Qle, inject_Z_mult in Hm.
    rewrite <- pow2_Z in Hm by lia.
    pose proof (pow2_cancel (k - 52)) as Hcancel.
    pose proof (pow2_pos (- (k - 52))) as Hp'.
    set (m := inject_Z (nearest_even _)) in *.
    set (P := (2 ^ (k - 52))%Q) in *. set (P' := (2 ^ (- (k - 52)))%Q) in *.
    set (C := inject_Z c) in *.
    assert (HC : (C == C * P' * P)%Q).
    { rewrite <- Qmult_assoc, (Qmult_comm P'), Hcancel. ring. }
    rewrite HC. apply Qmult_le_compat_r; [exact Hm|lra].
  - assert (Hm : 2 ^ 52 <= nearest_even (x / 2 ^ (k - 52))).
    { apply nearest_even_ge. rewrite <- pow2_Z by lia.
      apply Qle_shift_div_l; [exact Hp|].
      rewrite <- pow2_add. replace (52 + (k - 52)) with k by lia. exact Hlo. }
    rewrite Zle_Qle in Hm. rewrite <- pow2_Z in Hm by lia.
    assert (Hc' : (inject_Z c <= 2 ^ k)%Q).
    { apply Qle_trans with (y := (2 ^ 53)%Q).
      - rewrite (pow2_Z 53) by lia. rewrite <- Zle_Qle. lia.
      - apply pow2_le. lia. }
    assert (Hk' : (2 ^ k == 2 ^ 52 * 2 ^ (k - 52))%Q).
    { rewrite <- pow2_add. replace (52 + (k - 52)) with k by lia. reflexivity. }
    eapply Qle_trans; [exact Hc'|]. rewrite Hk'.
    apply Qmult_le_compat_r; [exact Hm|lra].
Qed.

Lemma binary64_le x c :
  0 <= c < 2 ^ 53 -> (x <= inject_Z c)%Q -> (binary64 x <= inject_Z c)%Q.
Proof.
  intros Hc Hx.
  assert (Hc0 : (0 <= inject_Z c)%Q).
  { change 0%Q with (inject_Z 0). rewrite <- Zle_Qle. lia. }
  destruct (Qlt_le_dec 0 x) as [Hpos|Hneg].
  - assert (Hx0 : ~ (x == 0)%Q) by (intros E; lra).
    assert (HA : (Qabs x == x)%Q) by (apply Qabs_pos; lra).
    assert (Hr : ~ (Qred x == 0)%Q) by (rewrite Qred_correct; exact Hx0).
    destruct (exponent_spec _ Hr) as [Hlo _].
    assert (HR : (Qabs (Qred x) == x)%Q) by (rewrite Qred_correct; exact HA).
    rewrite HR in Hlo.
    rewrite (binary64_unfold x Hx0). cbv zeta.
    set (k := exponent (Qred x)) in *.
    assert (Hk : k <= 52).
    { assert (Hlt : (2 ^ k < 2 ^ 53)%Q).
      { eapply Qle_lt_trans; [exact Hlo|]. eapply Qle_lt_trans; [exact Hx|].
        rewrite (pow2_Z 53) by lia. rewrite <- Zlt_Qlt. lia. }
      apply Qpower_lt_compat_l_inv in Hlt; [lia|reflexivity]. }
    set (e := Z.max (k - 52) (-1074)).
    assert (He : e <= 0) by (unfold e; lia).
    pose proof (pow2_pos e) as Hp.
    assert (Hm : nearest_even (x / 2 ^ e) <= c * 2 ^ (- e)).
    { apply nearest_even_le. rewrite div_pow2_neg by exact He.
      rewrite inject_Z_mult.
      apply Qmult_le_compat_r; [exact Hx|].
      change 0%Q with (inject_Z 0). rewrite <- Zle_Qle. lia. }
    rewrite Zle_Qle, inject_Z_mult in Hm.
    rewrite <- pow2_Z in Hm by lia.
    pose proof (pow2_cancel e) as Hcancel.
    set (m := inject_Z (nearest_even _)) in *.
    set (P := (2 ^ e)%Q) in *. set (P' := (2 ^ (- e))%Q) in *.
    set (C := inject_Z c) in *.
    assert (HC : (C == C * P' * P)%Q).
    { rewrite <- Qmult_assoc, (Qmult_comm P'), Hcancel. ring. }
    rewrite HC. apply Qmult_le_compat_r; [exact Hm|lra].
  - eapply Qle_trans; [exact (binary64_nonpos x Hneg)|exact Hc0].
Qed.

(** ** The range of the computed brightness *)

Lemma byte_value_range b : 0 <= byte_value b <= 255.
Proof.
  unfold byte_value. pose proof (Byte.to_N_bounded b) as H. lia.
Qed.

Lemma getImageData_bytes blend img data :
  getImageData blend img = Returned data ->
  length data = (4 * (width img * height img))%nat
  /\ (0 < width img * height img)%nat
  /\ Forall (fun z => 0 <= z <= 255) data.
Proof.
  unfold getImageData.
  destruct ((width img =? 0) || (height img =? 0))%nat eqn:Hdim; [discriminate|].
  intros [= <-]. apply orb_false_elim in Hdim as [Hw Hh].
  apply Nat.eqb_neq in Hw, Hh.
  split; [rewrite length_map, length_seq; lia|].
  split; [nia|].
  apply Forall_forall. intros z Hz.
  apply list_elem_of_fmap in Hz as (i & -> & _). apply byte_value_range.
Qed.

(** The brightness of one pixel, [(r + g + b) / 3] in doubles. *)
Lemma pixel_brightness_range r g b :
  0 <= r <= 255 -> 0 <= g <= 255 -> 0 <= b <= 255 ->
  (0 <= binary64 (binary64 (binary64 (inject_Z r + inject_Z g) + inject_Z b) / 3)
   /\ binary64 (binary64 (binary64 (inject_Z r + inject_Z g) + inject_Z b) / 3)
      <= 255)%Q.
Proof.
  intros [Hr0 Hr1] [Hg0 Hg1] [Hb0 Hb1].
  rewrite Zle_Qle in Hr0, Hr1, Hg0, Hg1, Hb0, Hb1.
  change (inject_Z 0) with 0%Q in *. change (inject_Z 255) with 255%Q in *.
  assert (H1 : (0 <= binary64 (inject_Z r + inject_Z g)
                /\ binary64 (inject_Z r + inject_Z g) <= 510)%Q).
  { split; [apply binary64_nonneg; lra|].
    apply (binary64_le _ 510); [lia|]. change (inject_Z 510) with 510%Q. lra. }
  set (s1 := binary64 (inject_Z r + inject_Z g)) in *.
  assert (H2 : (0 <= binary64 (s1 + inject_Z b)
                /\ binary64 (s1 + inject_Z b) <= 765)%Q).
  { split; [apply binary64_nonneg; lra|].
    apply (binary64_le _ 765); [lia|]. change (inject_Z 765) with 765%Q. lra. }
  set (s2 := binary64 (s1 + inject_Z b)) in *.
  assert (H3 : (s2 / 3 == s2 * (1 # 3))%Q) by reflexivity.
  split; [apply binary64_nonneg; lra|].
  apply (binary64_le _ 255); [lia|]. change (inject_Z 255) with 255%Q. lra.
Qed.

Lemma brightnessLoop_bounds k :
  forall data acc,
    length data = (4 * k)%nat ->
    Forall (fun z => 0 <= z <= 255) data ->
    (0 <= acc)%Q ->
    (0 <= brightnessLoop data acc)%Q
    /\ forall j,
         0 <= j -> 255 * (j + Z.of_nat k) < 2 ^ 53 ->
         (acc <= inject_Z (255 * j))%Q ->
         (brightnessLoop data acc <= inject_Z (255 * (j + Z.of_nat k)))%Q.
Proof.
  induction k as [|k IH]; intros data acc Hlen Hall Hacc.
  - destruct data; [|discriminate]. cbn [brightnessLoop].
    split; [exact Hacc|]. intros j _ _ Hj.
    replace (j + Z.of_nat 0) with j by lia. exact Hj.
  - destruct data as [|r [|g [|b [|a rest]]]]; try (simpl in Hlen; lia).
    apply Forall_cons in Hall as [Hr Hall].
    apply Forall_cons in Hall as [Hg Hall].
    apply Forall_cons in Hall as [Hb Hall].
    apply Forall_cons in Hall as [_ Hrest].
    cbn [brightnessLoop].
    assert (Hlen' : length rest = (4 * k)%nat) by (simpl in Hlen; lia).
    destruct (pixel_brightness_range r g b Hr Hg Hb) as [Ht0 Ht1].
    set (t := binary64 (binary64 (binary64 (inject_Z r + inject_Z g) + inject_Z b) / 3))
      in *.
    assert (Hacc' : (0 <= binary64 (acc + t))%Q) by (apply binary64_nonneg; lra).
    destruct (IH rest (binary64 (acc + t)) Hlen' Hrest Hacc') as [Hlo Hhi].
    split; [exact Hlo|]. intros j Hj Hsmall Hle.
    replace (j + Z.of_nat (S k)) with ((j + 1) + Z.of_nat k) by lia.
    apply Hhi; [lia|lia|].
    apply binary64_le; [lia|].
    replace (255 * (j + 1)) with (255 * j + 255) by lia.
    rewrite inject_Z_plus. change (inject_Z 255) with 255%Q. lra.
Qed.

(** The mean is not negative; it is at most 255 as long as the sum of
    the pixels stays below [2^53], where doubles hold every integer. *)
Lemma luminance_range blend img a :
  analyzeImageQuality blend img = Returned a ->
  (0 <= luminance blend img)%Q
  /\ (Z.of_nat (width img * height img) < 2 ^ 45 ->
      (luminance blend img <= 255)%Q).
Proof.
  unfold analyzeImageQuality, luminance.
  destruct (getImageData blend img) as [data|e] eqn:Hdata; [|discriminate].
  intros _. destruct (getImageData_bytes _ _ _ Hdata) as (Hlen & Hpos & Hall).
  set (k := (width img * height img)%nat) in *.
  destruct (brightnessLoop_bounds k data 0 Hlen Hall ltac:(lra)) as [Hlo Hhi].
  unfold meanBrightness.
  set (sum := brightnessLoop data 0) in *.
  set (count := binary64 (inject_Z (Z.of_nat (length data)) / 4)).
  assert (Hcount0 : (0 <= count)%Q).
  { apply binary64_nonneg. apply Qle_shift_div_l; [reflexivity|].
    rewrite Qmult_0_l. change 0%Q with (inject_Z 0). rewrite <- Zle_Qle. lia. }
  split.
  - apply binary64_nonneg.
    destruct (Qeq_dec count 0) as [E|E].
    + rewrite E. unfold Qdiv. change (/ 0)%Q with 0%Q. lra.
    + apply Qle_shift_div_l; lra.
  - intros Hsmall.
    assert (Hcount : (count == inject_Z (Z.of_nat k))%Q).
    { apply binary64_Z; [|lia]. rewrite Hlen, Nat2Z.inj_mul, inject_Z_mult.
      change (inject_Z (Z.of_nat 4)) with 4%Q. field. }
    assert (Hk : (0 < inject_Z (Z.of_nat k))%Q).
    { change 0%Q with (inject_Z 0). rewrite <- Zlt_Qlt. lia. }
    specialize (Hhi 0 ltac:(lia) ltac:(lia) (Qle_refl 0)).
    rewrite Z.add_0_l, inject_Z_mult in Hhi. change (inject_Z 255) with 255%Q in Hhi.
    apply (binary64_le _ 255); [lia|]. change (inject_Z 255) with 255%Q.
    rewrite Hcount. apply Qle_shift_div_r; [exact Hk|]. lra.
Qed.

(** Settles one bucket equivalence from the two equations that give the
    quality and the lighting as conditionals on the luminance. *)
Ltac bucket Hq Hl :=
  split; revert Hq Hl; compare_all; simpl; intros Hq Hl;
  try rewrite Hq; try rewrite Hl; intros;
  try discriminate; try reflexivity; try lra;
  try (exfalso; lra);
  try match goal with H : _ \/ _ |- _ => destruct H; exfalso; lra end.

(** ** Image quality buckets (C1) *)

Lemma analyzeImageQuality_luminance blend img a :
  analyzeImageQuality blend img = Returned a ->
  let L := luminance blend img in
  quality a =
    (if Qltb 100 L && Qltb L 200 then QGood
     else if Qltb 50 L then QFair else QPoor) /\
  lightingConditions a = spec_lighting L.
Proof.
  unfold analyzeImageQuality, luminance, spec_lighting.
  destruct (getImageData blend img) as [data|e]; [|discriminate].
  intros [= <-]. split; reflexivity.
Qed.

(** C1, as stated, fails: an evenly lit image of luminance 220 is rated
    fair by the analyzer, while the stated buckets put every luminance
    outside (50,200) into poor.  This is so whether the luminance is
    read as the brightness the analyzer computes or as the exact mean. *)
Lemma quality_buckets_as_stated_fail :
  ~ (forall blend img a,
       analyzeImageQuality blend img = Returned a ->
       quality a = spec_quality (luminance blend img))
  /\ ~ (forall blend img a,
          analyzeImageQuality blend img = Returned a ->
          quality a = spec_quality (spec_mean_luminance blend img)).
Proof.
  split; intros H;
    specialize (H premultiplied_8bit (uniform_image 1 1 Byte.xdc) _ eq_refl);
    vm_compute in H; discriminate H.
Qed.

(** C1, amended: quality and lighting of an analyzed image are functions
    of the brightness L the analyzer computes for it (the per-pixel means
    summed and divided by the number of pixels, in doubles).  Quality is
    good for L in (100,200), fair for L in (50,100] and for L >= 200,
    poor for L <= 50; lighting is overexposed for L > 180, low for
    L < 80, good for L in [80,180].  The three cases of each are
    exhaustive and exclusive; L is never negative and, for an image of
    fewer than 2^45 pixels, at most 255; and two images of equal L get
    the same quality and lighting. *)
Theorem analyzeImageQuality_buckets blend img a :
  analyzeImageQuality blend img = Returned a ->
  let L := luminance blend img in
  (0 <= L)%Q /\
  (Z.of_nat (width img * height img) < 2 ^ 45 -> (L <= 255)%Q) /\
  (quality a = QGood <-> (100 < L /\ L < 200)%Q) /\
  (quality a = QFair <-> ((50 < L /\ L <= 100) \/ 200 <= L)%Q) /\
  (quality a = QPoor <-> (L <= 50)%Q) /\
  (lightingConditions a = LOverexposed <-> (180 < L)%Q) /\
  (lightingConditions a = LLow <-> (L < 80)%Q) /\
  (lightingConditions a = LGood <-> (80 <= L /\ L <= 180)%Q) /\
  (forall blend' img' a',
     analyzeImageQuality blend' img' = Returned a' ->
     (luminance blend' img' == L)%Q ->
     quality a' = quality a /\ lightingConditions a' = lightingConditions a).
Proof.
  intros Ha L.
  destruct (analyzeImageQuality_luminance blend img a Ha) as [Hq Hl].
  fold L in Hq, Hl. unfold spec_lighting in Hl.
  destruct (luminance_range blend img a Ha) as [H0 H255]. fold L in H0, H255.
  split; [exact H0|]. split; [exact H255|].
  do 6 (split; [bucket Hq Hl|]).
  intros blend' img' a' Ha' HL.
  destruct (analyzeImageQuality_luminance blend' img' a' Ha') as [Hq' Hl'].
  cbv zeta in Hq', Hl'. unfold spec_lighting in Hl'. split.
  - rewrite Hq, Hq'.
    rewrite (Qltb_comp 100 100 (luminance blend' img') L),
      (Qltb_comp (luminance blend' img') L 200 200),
      (Qltb_comp 50 50 (luminance blend' img') L); auto with qarith.
  - rewrite Hl, Hl'.
    rewrite (Qltb_comp 180 180 (luminance blend' img') L),
      (Qltb_comp (luminance blend' img') L 80 80);
      auto with qarith.
Qed.

Lemma analyzeImageQuality_buckets_witness :
  let img := uniform_image 2 2 Byte.xdc in
  let L := luminance premultiplied_8bit img in
  exists a, analyzeImageQuality premultiplied_8bit img = Returned a /\
    (quality a = QFair <-> ((50 < L /\ L <= 100) \/ 200 <= L)%Q).
Proof.
  intros img L. eexists. split; [reflexivity|].
  apply (analyzeImageQuality_buckets premultiplied_8bit
           (uniform_image 2 2 Byte.xdc) _ eq_refl).
Defined.

(** The brightness is the rounded one: an image whose exact mean
    luminance is 100 is computed at 100.00000000000001 and rated good,
    where a uniform image of value 100 is rated fair; one whose exact
    mean is 80 is computed below 80 and lit low; one whose exact mean is
    50 is computed above 50 and rated fair; one whose exact mean is 200
    is computed below 200 and rated good. *)
Example rounding_decides_the_bucket :
  (spec_mean_luminance premultiplied_8bit mean_100 == 100)%Q
  /\ (spec_mean_luminance premultiplied_8bit (uniform_image 1 1 Byte.x64) == 100)%Q
  /\ quality <$> analysis_report mean_100 = Some QGood
  /\ quality <$> analysis_report (uniform_image 1 1 Byte.x64) = Some QFair
  /\ (spec_mean_luminance premultiplied_8bit mean_80 == 80)%Q
  /\ lightingConditions <$> analysis_report mean_80 = Some LLow
  /\ (spec_mean_luminance premultiplied_8bit mean_50 == 50)%Q
  /\ quality <$> analysis_report mean_50 = Some QFair
  /\ (spec_mean_luminance premultiplied_8bit mean_200 == 200)%Q
  /\ quality <$> analysis_report mean_200 = Some QGood.
Proof.
  do 9 (split; [vm_compute; reflexivity|]). vm_compute. reflexivity.
Qed.

(** ** Running the helpers *)

Section Runs.

Variable env : Env.

Lemma random_pick_run arr s :
  random_pick env arr s =
    (Returned (JS.at_index arr
       (Math_floor (random_source env (randoms_drawn s)
                    * inject_Z (Z.of_nat (length arr))))),
     after_draw s).
Proof. reflexivity. Qed.

Lemma after_draw_events s : events (after_draw s) = events s.
Proof. reflexivity. Qed.

Lemma getSubCategory_returns type s :
  exists v s', getSubCategory env type s = (Returned v, s')
    /\ events s' = events s /\ loading s' = loading s.
Proof.
  unfold getSubCategory. destruct (switch_type type) as [t|].
  - rewrite random_pick_run. eauto.
  - unfold ret. eauto.
Qed.

Lemma getMaterial_returns type s :
  exists v s', getMaterial env type s = (Returned v, s')
    /\ events s' = events s /\ loading s' = loading s.
Proof.
  unfold getMaterial. destruct (switch_type type) as [t|].
  - rewrite random_pick_run. eauto.
  - unfold ret. eauto.
Qed.

(** [basic_details] always returns, with the local recommendations of the
    type, and emits nothing. *)
Lemma basic_details_returns type s :
  exists d s', basic_details env type s = (Returned d, s')
    /\ d !! "recommendations" = Some (JS.strings (getRecommendations type))
    /\ events s' = events s /\ loading s' = loading s.
Proof.
  unfold basic_details, bind.
  destruct (getSubCategory_returns type s) as (sub & s1 & -> & He1 & Hl1).
  destruct (getMaterial_returns type s1) as (mat & s2 & -> & He2 & Hl2).
  unfold ret. eexists _, _. split; [reflexivity|].
  split; [reflexivity|]. split; congruence.
Qed.

Lemma processEnhancedPredictions_run data a s :
  exists p s',
    processEnhancedPredictions env data a s = (Returned p, s')
    /\ p_confidence p = code_confidence data a
    /\ events s' = events s.
Proof.
  destruct data as [[b r] h].
  unfold processEnhancedPredictions, bind.
  match goal with |- context [basic_details env ?t s] =>
    destruct (basic_details_returns t s) as (d & s1 & -> & _ & He & _) end.
  unfold ret. eexists _, _. split; [reflexivity|]. split; [|exact He].
  reflexivity.
Qed.

End Runs.

(** ** Confidence adjustment (C2, C3) *)

Lemma Math_min_99_le x y : (x <= y)%Q -> (Math_min 99 x <= Math_min 99 y)%Q.
Proof.
  intros H. unfold Math_min.
  destruct (Q.min_spec 99 x) as [[H1 E1]|[H1 E1]];
    destruct (Q.min_spec 99 y) as [[H2 E2]|[H2 E2]]; lra.
Qed.

Lemma Math_min_99_comp x y : (x == y)%Q -> (Math_min 99 x == Math_min 99 y)%Q.
Proof.
  intros H. apply Qle_antisym; apply Math_min_99_le; lra.
Qed.

Lemma clamp_round_mono x y :
  (x <= y)%Q -> Math_round (Math_min 99 x) <= Math_round (Math_min 99 y).
Proof. intros H. apply Math_round_mono, Math_min_99_le, H. Qed.

(** Whatever the adjusted value, once clamped and rounded it is an integer
    of [0,99]: this part does not depend on how the products round. *)
Lemma clamp_round_range x :
  (0 <= x)%Q -> 0 <= Math_round (Math_min 99 x) <= 99.
Proof.
  intros H. split.
  - transitivity (Math_round (inject_Z 0)); [rewrite Math_round_Z; lia|].
    apply Math_round_mono. change (inject_Z 0) with 0%Q.
    unfold Math_min. destruct (Q.min_spec 99 x) as [[H1 E1]|[H1 E1]]; lra.
  - transitivity (Math_round (inject_Z 99)); [|rewrite Math_round_Z; lia].
    apply Math_round_mono. change (inject_Z 99) with 99%Q.
    unfold Math_min. apply Q.le_min_l.
Qed.

Lemma code_confidence_spec data a :
  code_confidence data a = spec_adjusted_confidence (raw_confidence data) a.
Proof.
  unfold code_confidence, spec_adjusted_confidence.
  apply Math_round_comp, Math_min_99_comp.
  destruct (quality a), (lightingConditions a); ring.
Qed.

Lemma code_confidence_range data a :
  (0 <= raw_confidence data)%Q -> 0 <= code_confidence data a <= 99.
Proof.
  intros H. unfold code_confidence. apply clamp_round_range.
  destruct (quality a), (lightingConditions a); lra.
Qed.

(** C2: for a raw confidence C in [0,100] and any image-quality report,
    the prediction's confidence is round(min(99, C')) where C' is C times
    0.8 when the quality is poor and times 0.9 when the lighting is low
    (both when both hold); it is an integer between 0 and 99. *)
Theorem adjusted_confidence_as_specified env data a s :
  (0 <= raw_confidence data)%Q -> (raw_confidence data <= 100)%Q ->
  exists p s',
    processEnhancedPredictions env data a s = (Returned p, s')
    /\ p_confidence p = spec_adjusted_confidence (raw_confidence data) a
    /\ 0 <= p_confidence p <= 99.
Proof.
  intros Hlo _.
  destruct (processEnhancedPredictions_run env data a s) as (p & s' & Hrun & Hc & _).
  exists p, s'. split; [exact Hrun|]. rewrite Hc. split.
  - apply code_confidence_spec.
  - apply code_confidence_range, Hlo.
Qed.

Lemma adjusted_confidence_as_specified_witness :
  exists p s',
    processEnhancedPredictions (world no_config unreachable (Returned tt) offline)
      bright_scores gray_poor_low (initial_state ∅) = (Returned p, s')
    /\ p_confidence p = spec_adjusted_confidence (raw_confidence bright_scores) gray_poor_low
    /\ 0 <= p_confidence p <= 99.
Proof.
  apply (adjusted_confidence_as_specified
           (world no_config unreachable (Returned tt) offline)
           bright_scores gray_poor_low (initial_state ∅)).
  - vm_compute. discriminate.
  - vm_compute. discriminate.
Defined.

(** C3: for a raw confidence in [0,100] and a fixed lighting condition,
    the adjusted confidence does not increase as the quality degrades from
    good to fair to poor. *)
Theorem adjusted_confidence_monotone_in_quality env data a s :
  (0 <= raw_confidence data)%Q -> (raw_confidence data <= 100)%Q ->
  exists pg pf pp,
    result_of (processEnhancedPredictions env data (with_quality QGood a) s) = Returned pg
    /\ result_of (processEnhancedPredictions env data (with_quality QFair a) s) = Returned pf
    /\ result_of (processEnhancedPredictions env data (with_quality QPoor a) s) = Returned pp
    /\ p_confidence pp <= p_confidence pf <= p_confidence pg.
Proof.
  intros Hlo _.
  destruct (processEnhancedPredictions_run env data (with_quality QGood a) s)
    as (pg & sg & Hg & Hcg & _).
  destruct (processEnhancedPredictions_run env data (with_quality QFair a) s)
    as (pf & sf & Hf & Hcf & _).
  destruct (processEnhancedPredictions_run env data (with_quality QPoor a) s)
    as (pp & sp & Hp & Hcp & _).
  exists pg, pf, pp. rewrite Hg, Hf, Hp. repeat (split; [reflexivity|]).
  rewrite Hcg, Hcf, Hcp. unfold code_confidence, with_quality. simpl.
  split.
  - apply clamp_round_mono. destruct (lightingConditions a); lra.
  - apply Z.le_refl.
Qed.

Lemma adjusted_confidence_monotone_in_quality_witness :
  exists pg pf pp,
    result_of (processEnhancedPredictions (world no_config unreachable (Returned tt) offline)
                 bright_scores (with_quality QGood gray_poor_low) (initial_state ∅)) = Returned pg
    /\ result_of (processEnhancedPredictions (world no_config unreachable (Returned tt) offline)
                 bright_scores (with_quality QFair gray_poor_low) (initial_state ∅)) = Returned pf
    /\ result_of (processEnhancedPredictions (world no_config unreachable (Returned tt) offline)
                 bright_scores (with_quality QPoor gray_poor_low) (initial_state ∅)) = Returned pp
    /\ p_confidence pp <= p_confidence pf <= p_confidence pg.
Proof.
  apply (adjusted_confidence_monotone_in_quality
           (world no_config unreachable (Returned tt) offline)
           bright_scores gray_poor_low (initial_state ∅)).
  - vm_compute. discriminate.
  - vm_compute. discriminate.
Defined.


(** ** The simulated classifier and the orchestrator (C4, C5) *)

Lemma Qfloor_eq_iff x k :
  Qfloor x = k <-> (inject_Z k <= x /\ x < inject_Z (k + 1))%Q.
Proof.
  split.
  - intros <-. split; [apply Qfloor_le | apply Qlt_floor].
  - intros [Hlo Hhi].
    pose proof (Qfloor_le x) as Fl. pose proof (Qlt_floor x) as Fh.
    assert (k < Qfloor x + 1) by (rewrite Zlt_Qlt; lra).
    assert (Qfloor x < k + 1) by (rewrite Zlt_Qlt; lra).
    lia.
Qed.

(** [Math.floor(u * n)] for u in [0,1) is an index below n. *)
Lemma floor_scaled_range u n :
  0 < n -> (0 <= u)%Q -> (u < 1)%Q ->
  0 <= Math_floor (u * inject_Z n) < n.
Proof.
  intros Hn Hlo Hhi. unfold Math_floor.
  pose proof (Qfloor_le (u * inject_Z n)) as Fl.
  pose proof (Qlt_floor (u * inject_Z n)) as Fh.
  assert (Hn' : (0 < inject_Z n)%Q) by (change 0%Q with (inject_Z 0); rewrite <- Zlt_Qlt; exact Hn).
  rewrite inject_Z_plus in Fh. change (inject_Z 1) with 1%Q in Fh.
  assert (H0 : (0 <= u * inject_Z n)%Q) by nra.
  assert (H1 : (u * inject_Z n < inject_Z n)%Q) by nra.
  split.
  - assert (-1 < Qfloor (u * inject_Z n)); [|lia].
    rewrite Zlt_Qlt. change (inject_Z (-1)) with (-1)%Q. lra.
  - rewrite Zlt_Qlt. lra.
Qed.

Section Orchestrator.

Variable env : Env.

(** The simulated classifier always returns; it asks for one timeout of
    350 ms plus 400 times its first random draw, takes the category at
    index floor(3 u) for its second draw u, and reports the confidence
    85 + floor(15 v) for its third draw v. *)
Lemma mockClassification_returns s :
  let n := randoms_drawn s in
  exists r s',
    mockClassification env s = (Returned r, s')
    /\ events s' = events s ++ [SetTimeout (350 + random_source env n * 400)%Q]
    /\ loading s' = loading s
    /\ JS.field "type" r =
         JS.at_index mock_types (Math_floor (random_source env (S n) * 3))
    /\ JS.field "confidence" r =
         VNum (inject_Z (85 + Math_floor (random_source env (S (S n)) * 15))).
Proof.
  intros n.
  cbv beta iota zeta delta
    [mockClassification bind Math_random tick_random ret emit modify random_pick].
  match goal with |- context [basic_details env ?t ?s0] =>
    destruct (basic_details_returns env t s0) as (d & s1 & -> & _ & He & Hl) end.
  eexists _, _. split; [reflexivity|].
  split; [exact He|]. split; [exact Hl|].
  split; reflexivity.
Qed.


(** The simulated result is an object of the four members of a
    classification result; its processing time is the constant 600. *)
Lemma mockClassification_object s r s' :
  mockClassification env s = (Returned r, s') ->
  exists type confidence details,
    r = VObj (<["type" := type]>
              (<["confidence" := VNum (inject_Z confidence)]>
               (<["processingTime" := VNum 600]>
                (<["details" := VObj details]> ∅)))).
Proof.
  cbv beta iota zeta delta
    [mockClassification bind Math_random tick_random ret emit modify random_pick].
  match goal with |- context [basic_details env ?t ?s0] =>
    destruct (basic_details_returns env t s0) as (d & s1 & -> & _) end.
  intros [= <- <-]. eexists _, _, _. reflexivity.
Qed.

(** The [catch] block logs the error and runs the simulated classifier. *)
Lemma fallback_to_mock_run e s :
  fallback_to_mock env e s =
    mockClassification env
      (logged (ConsoleError ("Classification error: " +:+ message_or "" e)) s).
Proof. reflexivity. Qed.

(** What [classifyWaste] does around its [try] block. *)
Lemma classifyWaste_unfold input s :
  classifyWaste env input s =
    let s0 := state_of (setLoading true s) in
    match select_backend env input s0 with
    | (Returned r, s1) => (Returned r, state_of (setLoading false s1))
    | (Threw e, s1) =>
        match fallback_to_mock env e s1 with
        | (r, s2) => (r, state_of (setLoading false s2))
        end
    end.
Proof.
  unfold classifyWaste, bind, try_finally, try_catch. simpl.
  destruct (select_backend env input _) as [[r|e] s1]; [reflexivity|].
  destruct (fallback_to_mock env e s1) as [r s2]. reflexivity.
Qed.

End Orchestrator.

(** C4: [classifyWaste] returns a result for every input, configuration
    and state, and leaves the loading flag down.  A result of the chosen
    backend is returned as it is.  When the backend raises, the error is
    logged and the result is the one the simulated classifier produces
    on the state the failure left: an object with a type, a confidence,
    the processing time 600 and details. *)
Theorem classifyWaste_never_throws env input s :
  exists r s',
    classifyWaste env input s = (Returned r, s')
    /\ loading s' = false
    /\ (forall r0 s1,
          select_backend env input (state_of (setLoading true s)) = (Returned r0, s1) ->
          r = r0 /\ s' = state_of (setLoading false s1))
    /\ (forall e s1,
          select_backend env input (state_of (setLoading true s)) = (Threw e, s1) ->
          exists s2 type confidence details,
            mockClassification env
              (logged (ConsoleError ("Classification error: " +:+ message_or "" e)) s1)
              = (Returned r, s2)
            /\ s' = state_of (setLoading false s2)
            /\ r = VObj (<["type" := type]>
                         (<["confidence" := VNum (inject_Z confidence)]>
                          (<["processingTime" := VNum 600]>
                           (<["details" := VObj details]> ∅))))).
Proof.
  rewrite classifyWaste_unfold. cbv zeta.
  destruct (select_backend env input _) as [[r|e] s1].
  - exists r, (state_of (setLoading false s1)).
    split; [reflexivity|]. split; [reflexivity|]. split.
    + intros r0 s1' [= <- <-]. split; reflexivity.
    + intros e s2 [=].
  - rewrite fallback_to_mock_run.
    match goal with |- context [mockClassification env ?s0] =>
      destruct (mockClassification_returns env s0) as (r & s2 & Hm & _) end.
    rewrite Hm. exists r, (state_of (setLoading false s2)).
    split; [reflexivity|]. split; [reflexivity|]. split.
    + intros r0 s1' [=].
    + intros e' s1' [= <- <-].
      destruct (mockClassification_object env _ _ _ Hm)
        as (type & confidence & details & Hr).
      exists s2, type, confidence, details.
      split; [exact Hm|]. split; [reflexivity|exact Hr].
Qed.

(** The scenario of section 8: the endpoint is configured and answers
    HTTP 500; the remote classifier raises, the orchestrator logs the
    error and returns the simulated result. *)
Example classifyWaste_http_500 :
  let env := world api_config unreachable (Returned tt) http_500 in
  let s0 := state_of (setLoading true (initial_state ∅)) in
  result_of (select_backend env (InFile a_file) s0)
    = Threw (ErrorObj "API request failed: Internal Server Error")
  /\ exists r s',
       classifyWaste env (InFile a_file) (initial_state ∅) = (Returned r, s')
       /\ JS.field "type" r = VStr "recyclable"
       /\ JS.field "confidence" r = VNum 92
       /\ exists delay,
            last (events s') = Some (SetTimeout delay) /\ (delay == 550)%Q.
Proof.
  intros env s0. split; [vm_compute; reflexivity|].
  eexists _, _. split; [vm_compute; reflexivity|].
  split; [vm_compute; reflexivity|].
  split; [vm_compute; reflexivity|].
  eexists. split; vm_compute; reflexivity.
Qed.

(** The on-device backend failing at inference is caught the same way. *)
Example classifyWaste_inference_error :
  let env := world no_config unreachable (Returned tt) offline in
  let s := state_of (loadModel env
             (initial_state {[ modelKey := broken_model "cached" ]})) in
  isReady s = true
  /\ exists r s',
       classifyWaste env (InImage (uniform_image 2 2 Byte.x80)) s = (Returned r, s')
       /\ JS.field "processingTime" r = VNum 600.
Proof.
  intros env s. split; [vm_compute; reflexivity|].
  eexists _, _. split; vm_compute; reflexivity.
Qed.


(** The category at index floor(3 u), for u in [0,1): each of the three
    categories is chosen on one third of the range of u. *)
Lemma mock_type_thirds u :
  (0 <= u)%Q -> (u < 1)%Q ->
  exists t,
    JS.at_index mock_types (Math_floor (u * 3)) = type_value t
    /\ (t = biodegradable <-> (u < 1 # 3)%Q)
    /\ (t = recyclable <-> (1 # 3 <= u /\ u < 2 # 3)%Q)
    /\ (t = hazardous <-> (2 # 3 <= u)%Q).
Proof.
  intros Hlo Hhi.
  pose proof (floor_scaled_range u 3 ltac:(lia) Hlo Hhi) as Hk.
  change (inject_Z 3) with 3%Q in Hk.
  remember (Math_floor (u * 3)) as k eqn:Ek. symmetry in Ek.
  unfold Math_floor in Ek. apply Qfloor_eq_iff in Ek.
  rewrite inject_Z_plus in Ek. change (inject_Z 1) with 1%Q in Ek.
  assert (Hcases : k = 0 \/ k = 1 \/ k = 2) by lia.
  destruct Hcases as [-> | [-> | ->]];
    [exists biodegradable | exists recyclable | exists hazardous];
    (split; [reflexivity|]);
    change (inject_Z 0) with 0%Q in Ek; change (inject_Z 1) with 1%Q in Ek;
    change (inject_Z 2) with 2%Q in Ek;
    repeat split; intros; try discriminate; try lra; exfalso; lra.
Qed.



(** ** The remote API classifier (C8, C9, C10) *)

Lemma get_not_nullish v k :
  nullish v = false -> JS.get v k = Returned (JS.field k v).
Proof. destruct v; simpl; intros; try discriminate; reflexivity. Qed.

Lemma get_nullish v k :
  nullish v = true -> exists e, JS.get v k = Threw e.
Proof. destruct v; simpl; intros; try discriminate; eauto. Qed.

Lemma classifyImageViaAPI_run env file s :
  api_run env file (result_of (classifyImageViaAPI env file s)).
Proof.
  unfold classifyImageViaAPI. fold (configured env).
  destruct (configured env) eqn:Hc; simpl.
  - cbv beta iota zeta delta
      [bind try_finally try_catch setApiLoading setApiError modify Date_now
       tick_clock ret emit lift throw result_of fst].
    destruct (network env (api_request env file)) as [resp|e] eqn:Hn.
    + destruct (ok resp) eqn:Hok; simpl.
      * destruct (json resp) as [body|e] eqn:Hj.
        -- destruct (nullish body) eqn:Hb.
           ++ destruct (get_nullish body "details" Hb) as [e He].
              rewrite He. eapply api_null_body; eassumption.
           ++ rewrite !get_not_nullish by exact Hb.
              eapply api_success; eassumption.
        -- eapply api_bad_json; eassumption.
      * eapply api_bad_status; eassumption.
    + eapply api_network_failure; eassumption.
  - apply api_not_configured, Hc.
Qed.

(** A call that is not configured leaves the state untouched: nothing is
    sent, no loading flag is raised. *)
Lemma classifyImageViaAPI_not_configured env file s :
  configured env = false ->
  classifyImageViaAPI env file s =
    (Threw (ErrorObj "ML API endpoint not configured"), s).
Proof.
  intros Hc. unfold classifyImageViaAPI. fold (configured env).
  rewrite Hc. reflexivity.
Qed.

(** Case analysis on a run of the remote classifier. *)
Ltac api_cases H :=
  inversion H as
    [ Hc' Hres
    | e' Hc' Hn' Hres
    | resp' Hc' Hn' Hok' Hres
    | resp' e' Hc' Hn' Hok' Hj' Hres
    | resp' body' e' Hc' Hn' Hok' Hj' Hb' Hg' Hres
    | resp' body' t' Hc' Hn' Hok' Hj' Hb' Hres ].

(** C8, as stated, fails in its "exactly": the endpoint answers with a
    success status and the well-formed JSON document [null]; the call
    raises a [TypeError] on reading [result.details], in none of the
    stated cases. *)
Lemma api_raises_outside_stated_cases :
  ~ (forall env file s,
       (exists e, result_of (classifyImageViaAPI env file s) = Threw e) ->
       stated_raise_cases env file).
Proof.
  intros H.
  destruct (H (world api_config unreachable (Returned tt) (http_ok VNull))
              a_file (initial_state ∅)) as [Hc | [[e He] | (resp & Hr & Hbad)]].
  - eexists. vm_compute. reflexivity.
  - discriminate Hc.
  - discriminate He.
  - injection Hr as <-. destruct Hbad as [Hok | [e He]]; discriminate.
Qed.

(** C8, amended: without a configured endpoint the remote classifier
    raises "ML API endpoint not configured" at once, sending nothing and
    changing no state; on a non-success status it raises "API request
    failed: " followed by the status text; and it raises exactly when no
    endpoint is configured, the request fails, the status is not a
    success, the body does not parse, or the parsed body is null. *)
Theorem classifyImageViaAPI_raises env file s :
  (configured env = false ->
     classifyImageViaAPI env file s =
       (Threw (ErrorObj "ML API endpoint not configured"), s))
  /\ (forall resp,
        configured env = true ->
        network env (api_request env file) = Returned resp ->
        ok resp = false ->
        result_of (classifyImageViaAPI env file s) =
          Threw (ErrorObj ("API request failed: " +:+ statusText resp)))
  /\ ((exists e, result_of (classifyImageViaAPI env file s) = Threw e) <->
        stated_raise_cases env file
        \/ (exists resp body,
              network env (api_request env file) = Returned resp
              /\ json resp = Returned body /\ nullish body = true)).
Proof.
  split; [apply classifyImageViaAPI_not_configured|].
  pose proof (classifyImageViaAPI_run env file s) as Hrun.
  unfold stated_raise_cases. split; [|split].
  - intros resp Hc Hn Hok. api_cases Hrun; try congruence.
  - intros [e He]. rewrite He in Hrun. api_cases Hrun; eauto 10.
  - intros Hcases. api_cases Hrun; eauto. exfalso.
    destruct Hcases as [[Hc | [[e He] | (resp & Hr & [Hok | [e He]])]]
                       | (resp & body0 & Hr & Hj0 & Hb0)]; congruence.
Qed.

(** The specification's scenario for C8: HTTP 500. *)
Example classifyImageViaAPI_http_500 :
  result_of (classifyImageViaAPI
               (world api_config unreachable (Returned tt) http_500)
               a_file (initial_state ∅))
  = Threw (ErrorObj "API request failed: Internal Server Error").
Proof. vm_compute. reflexivity. Qed.

Lemma api_run_success env file r :
  api_run env file (Returned r) ->
  exists resp body t,
    network env (api_request env file) = Returned resp
    /\ ok resp = true
    /\ json resp = Returned body
    /\ nullish body = false
    /\ r = api_result body t.
Proof.
  intros H. api_cases H. exists resp', body', t'. auto.
Qed.

Lemma api_result_recommendations body t :
  JS.field "recommendations" (JS.field "details" (api_result body t))
  = JS.strings (getRecommendations (JS.field "type" body)).
Proof.
  unfold api_result. cbn [JS.field].
  rewrite lookup_insert_eq. cbn [from_option id JS.field].
  rewrite lookup_insert_eq. reflexivity.
Qed.

Lemma api_result_confidence body t :
  JS.field "confidence" (api_result body t)
  = default VUndefined (JS.spread body !! "confidence").
Proof.
  unfold api_result. cbn [JS.field].
  rewrite lookup_insert_ne by discriminate.
  rewrite lookup_insert_ne by discriminate. reflexivity.
Qed.

(** C9: whenever the remote classifier returns, the recommendations of
    its result are the local ones for the type the response names,
    whatever recommendations the response itself carries. *)
Theorem api_recommendations_are_local env file s r s' :
  classifyImageViaAPI env file s = (Returned r, s') ->
  exists resp body,
    network env (api_request env file) = Returned resp
    /\ json resp = Returned body
    /\ JS.field "recommendations" (JS.field "details" r)
       = JS.strings (getRecommendations (JS.field "type" body)).
Proof.
  intros Hrun.
  pose proof (classifyImageViaAPI_run env file s) as H.
  rewrite Hrun in H. apply api_run_success in H.
  destruct H as (resp & body & t & Hn & _ & Hj & _ & ->).
  exists resp, body. split; [exact Hn|]. split; [exact Hj|].
  apply api_result_recommendations.
Qed.

Lemma api_recommendations_are_local_witness :
  let env := world api_config unreachable (Returned tt) (http_ok certain_body) in
  exists resp body,
    network env (api_request env a_file) = Returned resp
    /\ json resp = Returned body
    /\ JS.field "recommendations"
         (JS.field "details"
            (api_result certain_body 10))
       = JS.strings (getRecommendations (JS.field "type" body)).
Proof.
  intros env.
  eapply (api_recommendations_are_local env a_file (initial_state ∅)
            (api_result certain_body 10)).
  vm_compute. reflexivity.
Defined.

(** The response's own text is replaced, not merged. *)
Example remote_recommendation_text_is_dropped :
  let env := world api_config unreachable (Returned tt) (http_ok certain_body) in
  JS.field "recommendations" (JS.field "details" certain_body)
    = JS.strings ["Throw it in any bin"]
  /\ exists r s',
       classifyImageViaAPI env a_file (initial_state ∅) = (Returned r, s')
       /\ JS.field "recommendations" (JS.field "details" r)
          = JS.strings (getRecommendations (VStr "recyclable")).
Proof.
  intros env. split; [vm_compute; reflexivity|].
  eexists _, _. split; vm_compute; reflexivity.
Qed.

(** C10: whenever the remote classifier returns, the confidence of its
    result is the [confidence] property copied from the response body,
    unclamped and unadjusted; a response reporting 100 reaches the caller
    of [classifyWaste] with confidence 100, outside [0,99]. *)
Theorem api_confidence_is_passed_through :
  (forall env file s r s',
     classifyImageViaAPI env file s = (Returned r, s') ->
     exists resp body,
       network env (api_request env file) = Returned resp
       /\ json resp = Returned body
       /\ JS.field "confidence" r
          = default VUndefined (JS.spread body !! "confidence")
       /\ forall props, body = VObj props ->
            JS.field "confidence" r = JS.field "confidence" body)
  /\ (exists env file s r s',
        classifyWaste env (InFile file) s = (Returned r, s')
        /\ result_of (classifyImageViaAPI env file (state_of (setLoading true s)))
           = Returned r
        /\ JS.field "confidence" r = VNum 100
        /\ ~ (100 <= 99)%Q).
Proof.
  split.
  - intros env file s r s' Hrun.
    pose proof (classifyImageViaAPI_run env file s) as H.
    rewrite Hrun in H. apply api_run_success in H.
    destruct H as (resp & body & t & Hn & _ & Hj & _ & ->).
    exists resp, body. split; [exact Hn|]. split; [exact Hj|].
    split; [apply api_result_confidence|].
    intros props ->. rewrite api_result_confidence. reflexivity.
  - exists (world api_config unreachable (Returned tt) (http_ok certain_body)),
      a_file, (initial_state ∅).
    eexists _, _. split; [vm_compute; reflexivity|].
    split; [vm_compute; reflexivity|].
    split; [vm_compute; reflexivity|]. vm_compute. intros H. apply H. reflexivity.
Qed.

(** ** Model loading (C6, C7) *)

Section Loading.

Variable env : Env.

Lemma loadLayersModel_cache s :
  tf_loadLayersModel env cache_url s =
    match indexeddb s !! modelKey with
    | Some m => (Returned m, logged (LoadLayersModel cache_url) s)
    | None =>
        (Threw (ErrorObj ("Cannot find model with path " +:+ modelKey)),
         logged (LoadLayersModel cache_url) s)
    end.
Proof.
  unfold tf_loadLayersModel, bind, emit, modify, gets, ret, throw. cbv beta.
  change (String.prefix indexeddb_scheme cache_url) with true. cbv iota.
  change (String.substring (String.length indexeddb_scheme)
            (String.length cache_url - String.length indexeddb_scheme) cache_url)
    with modelKey.
  cbn [indexeddb with_events].
  destruct (indexeddb s !! modelKey); reflexivity.
Qed.

Lemma loadLayersModel_remote from s :
  String.prefix indexeddb_scheme from = false ->
  tf_loadLayersModel env from s =
    (http_model env from, logged (LoadLayersModel from) s).
Proof.
  intros Hp. unfold tf_loadLayersModel, bind, emit, modify, lift.
  rewrite Hp. reflexivity.
Qed.

Lemma loadOfflineModel_run s :
  loadOfflineModel env s =
    (Returned ((fun m => (m, offline_info)) <$> indexeddb s !! modelKey),
     logged (LoadLayersModel cache_url) s).
Proof.
  unfold loadOfflineModel, try_catch, bind. fold cache_url.
  rewrite loadLayersModel_cache.
  destruct (indexeddb s !! modelKey) as [m|]; reflexivity.
Qed.

(** Caching never raises and touches neither the loading state nor the
    model: it logs its success or its failure. *)
Lemma cacheModelOffline_run m s :
  exists s',
    cacheModelOffline env m s = (Returned tt, s')
    /\ loadingState s' = loadingState s
    /\ model s' = model s
    /\ error s' = error s
    /\ modelInfo s' = modelInfo s
    /\ isOfflineMode s' = isOfflineMode s
    /\ match indexeddb_write env with
       | Returned _ =>
           indexeddb s' = <[modelKey := m]> (indexeddb s)
           /\ events s' = events s ++ [ModelSave cache_url;
                                       ConsoleLog "Model cached for offline use"]
       | Threw e =>
           indexeddb s' = indexeddb s
           /\ events s' = events s ++
                [ModelSave cache_url;
                 ConsoleWarn ("Failed to cache model offline: " +:+ message_or "" e)]
       end.
Proof.
  unfold cacheModelOffline, try_catch, model_save, bind, emit, modify, lift,
    store_model.
  destruct (indexeddb_write env) as [[]|e]; eexists;
    (split; [reflexivity|]); simpl; rewrite <- ?app_assoc; auto 10.
Qed.

(** A failing import ends the attempt before any source is tried. *)
Lemma loadModel_import_failure s e :
  import_tfjs env = Threw e ->
  exists s',
    loadModel env s = (Returned tt, s')
    /\ model s' = model s
    /\ modelInfo s' = modelInfo s
    /\ indexeddb s' = indexeddb s
    /\ loadingState s' = error_state
    /\ error s' = Some (message_or "Failed to load ML model" e)
    /\ events s' = events s ++ [ConsoleWarn
         "ML model loading failed, classification will use enhanced mock data"].
Proof.
  intros Himp. unfold loadModel, try_catch, bind, lift. rewrite Himp.
  change (setLoadingState loading_model s) with (Returned tt, loading_started s).
  cbv iota. eexists. split; [reflexivity|].
  repeat (split; [reflexivity|]). reflexivity.
Qed.

End Loading.

Section LoadAttempt.

Variable env : Env.
Hypothesis tfjs_imports : import_tfjs env = Returned tt.

Lemma loadModel_cached s m :
  indexeddb s !! modelKey = Some m ->
  exists s',
    loadModel env s = (Returned tt, s')
    /\ model s' = Some m
    /\ loadingState s' = loaded
    /\ isOfflineMode s' = true
    /\ offlineCapable <$> modelInfo s' = Some true
    /\ error s' = error s
    /\ events s' = events s ++ [LoadLayersModel cache_url].
Proof.
  intros Hhit.
  unfold loadModel, try_catch, bind, lift. rewrite tfjs_imports.
  change (setLoadingState loading_model s) with (Returned tt, loading_started s).
  cbv iota.
  rewrite loadOfflineModel_run.
  change (indexeddb (loading_started s)) with (indexeddb s). rewrite Hhit.
  eexists. split; [reflexivity|]. repeat (split; [reflexivity|]). reflexivity.
Qed.

Lemma loadModel_demo s :
  indexeddb s !! modelKey = None ->
  remote_configured env = false ->
  exists s',
    loadModel env s = (Returned tt, s')
    /\ model s' = Some (demo_model env)
    /\ loadingState s' = loaded
    /\ offlineCapable <$> modelInfo s' = Some true
    /\ error s' = error s
    /\ events s' = events s ++ [LoadLayersModel cache_url].
Proof.
  intros Hmiss Hurl.
  unfold loadModel, try_catch, bind, lift. rewrite tfjs_imports.
  change (setLoadingState loading_model s) with (Returned tt, loading_started s).
  cbv iota.
  rewrite loadOfflineModel_run.
  change (indexeddb (loading_started s)) with (indexeddb s). rewrite Hmiss.
  cbn [fmap option_fmap option_map].
  fold (remote_configured env). rewrite Hurl.
  eexists. split; [reflexivity|]. repeat (split; [reflexivity|]). reflexivity.
Qed.

Lemma loadModel_remote_failure s e :
  indexeddb s !! modelKey = None ->
  remote_configured env = true ->
  String.prefix indexeddb_scheme (remote_url env) = false ->
  http_model env (remote_url env) = Threw e ->
  exists s',
    loadModel env s = (Returned tt, s')
    /\ model s' = model s
    /\ loadingState s' = error_state
    /\ error s' = Some (message_or "Failed to load ML model" e)
    /\ events s' = events s ++
         [LoadLayersModel cache_url; LoadLayersModel (remote_url env);
          ConsoleWarn
            "ML model loading failed, classification will use enhanced mock data"].
Proof.
  intros Hmiss Hurl Hp Hfail.
  unfold loadModel, try_catch, bind, lift. rewrite tfjs_imports.
  change (setLoadingState loading_model s) with (Returned tt, loading_started s).
  cbv iota.
  rewrite loadOfflineModel_run.
  change (indexeddb (loading_started s)) with (indexeddb s). rewrite Hmiss.
  cbn [fmap option_fmap option_map].
  fold (remote_configured env) (remote_url env). rewrite Hurl.
  rewrite (loadLayersModel_remote env _ _ Hp), Hfail.
  eexists. split; [reflexivity|]. repeat (split; [reflexivity|]).
  cbn [events with_events logged loading_started state_of setLoadingState
       setError modify snd emit].
  rewrite <- !app_assoc. reflexivity.
Qed.

Lemma loadModel_remote_success s m :
  indexeddb s !! modelKey = None ->
  remote_configured env = true ->
  String.prefix indexeddb_scheme (remote_url env) = false ->
  http_model env (remote_url env) = Returned m ->
  exists s',
    loadModel env s = (Returned tt, s')
    /\ model s' = Some m
    /\ loadingState s' = loaded
    /\ offlineCapable <$> modelInfo s' = Some true
    /\ error s' = error s
    /\ match indexeddb_write env with
       | Returned _ =>
           indexeddb s' = <[modelKey := m]> (indexeddb s)
           /\ events s' = events s ++
                [LoadLayersModel cache_url; LoadLayersModel (remote_url env);
                 ModelSave cache_url; ConsoleLog "Model cached for offline use"]
       | Threw e =>
           indexeddb s' = indexeddb s
           /\ events s' = events s ++
                [LoadLayersModel cache_url; LoadLayersModel (remote_url env);
                 ModelSave cache_url;
                 ConsoleWarn ("Failed to cache model offline: " +:+ message_or "" e)]
       end.
Proof.
  intros Hmiss Hurl Hp Hok.
  unfold loadModel, try_catch, bind, lift. rewrite tfjs_imports.
  change (setLoadingState loading_model s) with (Returned tt, loading_started s).
  cbv iota.
  rewrite loadOfflineModel_run.
  change (indexeddb (loading_started s)) with (indexeddb s). rewrite Hmiss.
  cbn [fmap option_fmap option_map].
  fold (remote_configured env) (remote_url env). rewrite Hurl.
  rewrite (loadLayersModel_remote env _ _ Hp), Hok.
  cbv beta iota zeta delta [setModel setModelInfo setLoadingState modify].
  match goal with |- context [cacheModelOffline env m ?s0] =>
    destruct (cacheModelOffline_run env m s0)
      as (s' & -> & Hls & Hm & Her & Hmi & _ & Hw) end.
  exists s'. split; [reflexivity|].
  rewrite Hls, Hm, Her, Hmi. repeat (split; [reflexivity|]).
  destruct (indexeddb_write env) as [[]|e]; destruct Hw as [-> ->];
    (split; [reflexivity|]); simpl; rewrite <- !app_assoc; reflexivity.
Qed.

End LoadAttempt.

(** C6, as stated, fails: with an empty cache and a configured URL whose
    fetch fails, the chain worded in section 4.2 would end on the demo
    model; the load attempt ends in the error state with no model, the
    demo model never built. *)
Lemma demo_model_is_not_a_fallback :
  ~ (forall env s,
       import_tfjs env = Returned tt ->
       model (state_of (loadModel env s)) = spec_first_success env s
       /\ loadingState (state_of (loadModel env s)) = loaded).
Proof.
  intros H.
  destruct (H (world url_config unreachable (Returned tt) offline)
              (initial_state ∅) eq_refl) as [_ Hloaded].
  vm_compute in Hloaded. discriminate Hloaded.
Qed.

(** C6, amended: a load attempt first imports TensorFlow.js; when the
    import fails the attempt ends in the error state and no source is
    tried.  Otherwise it first asks the offline cache under the fixed
    key.  A cached model is kept: nothing else is loaded, the remote URL
    is never fetched, and the model information has
    [offlineCapable = true].  With no cached model and a remote URL
    configured, the URL is fetched next: its model is kept on success,
    and on failure the attempt ends in the error state, the demo model
    not being tried.  The demo model is built only when the cache is
    empty and no remote URL is configured. *)
Theorem loadModel_source_order env s :
  (forall e,
     import_tfjs env = Threw e ->
     exists s',
       loadModel env s = (Returned tt, s')
       /\ model s' = model s
       /\ modelInfo s' = modelInfo s
       /\ loadingState s' = error_state
       /\ error s' = Some (message_or "Failed to load ML model" e)
       /\ events s' = events s ++ [ConsoleWarn
            "ML model loading failed, classification will use enhanced mock data"])
  /\ (import_tfjs env = Returned tt ->
      (forall m,
         indexeddb s !! modelKey = Some m ->
         exists s',
           loadModel env s = (Returned tt, s')
           /\ model s' = Some m
           /\ loadingState s' = loaded
           /\ isOfflineMode s' = true
           /\ offlineCapable <$> modelInfo s' = Some true
           /\ events s' = events s ++ [LoadLayersModel cache_url])
      /\ (indexeddb s !! modelKey = None ->
          remote_configured env = true ->
          String.prefix indexeddb_scheme (remote_url env) = false ->
          exists s' rest,
            loadModel env s = (Returned tt, s')
            /\ events s' = events s ++
                 [LoadLayersModel cache_url; LoadLayersModel (remote_url env)] ++ rest
            /\ match http_model env (remote_url env) with
               | Returned m =>
                   model s' = Some m
                   /\ loadingState s' = loaded
                   /\ offlineCapable <$> modelInfo s' = Some true
               | Threw e =>
                   model s' = model s
                   /\ loadingState s' = error_state
                   /\ error s' = Some (message_or "Failed to load ML model" e)
                   /\ rest = [ConsoleWarn
                       "ML model loading failed, classification will use enhanced mock data"]
               end)
      /\ (indexeddb s !! modelKey = None ->
          remote_configured env = false ->
          exists s',
            loadModel env s = (Returned tt, s')
            /\ model s' = Some (demo_model env)
            /\ loadingState s' = loaded
            /\ offlineCapable <$> modelInfo s' = Some true
            /\ events s' = events s ++ [LoadLayersModel cache_url])).
Proof.
  split.
  { intros e Himport.
    destruct (loadModel_import_failure env s e Himport)
      as (s' & Hrun & Hm & Hmi & _ & Hl & Her & He).
    exists s'. auto 10. }
  intros Himport. split; [|split].
  - intros m Hhit.
    destruct (loadModel_cached env Himport s m Hhit)
      as (s' & Hrun & Hm & Hl & Ho & Hc & _ & He).
    exists s'. auto 10.
  - intros Hmiss Hurl Hp.
    destruct (http_model env (remote_url env)) as [m|e] eqn:Hfetch.
    + destruct (loadModel_remote_success env Himport s m Hmiss Hurl Hp Hfetch)
        as (s' & Hrun & Hm & Hl & Ho & _ & Hw).
      destruct (indexeddb_write env) as [[]|e]; destruct Hw as [_ He];
        exists s'; eexists; (split; [exact Hrun|]);
        (split; [rewrite He; reflexivity|]); auto.
    + destruct (loadModel_remote_failure env Himport s e Hmiss Hurl Hp Hfetch)
        as (s' & Hrun & Hm & Hl & Her & He).
      exists s'; eexists. split; [exact Hrun|].
      split; [rewrite He; reflexivity|]. auto.
  - intros Hmiss Hurl.
    destruct (loadModel_demo env Himport s Hmiss Hurl)
      as (s' & Hrun & Hm & Hl & Hc & _ & He).
    exists s'. auto 10.
Qed.

(** The scenario of section 8: a prior model in the cache, a remote URL
    configured and reachable; only the cache is read. *)
Lemma loadModel_source_order_witness :
  let env := world url_config (Returned remote_model) (Returned tt) offline in
  let s := initial_state {[ modelKey := cached_model ]} in
  exists s',
    loadModel env s = (Returned tt, s')
    /\ model s' = Some cached_model
    /\ loadingState s' = loaded
    /\ isOfflineMode s' = true
    /\ offlineCapable <$> modelInfo s' = Some true
    /\ events s' = events s ++ [LoadLayersModel cache_url].
Proof.
  intros env s.
  destruct (loadModel_source_order env s) as [_ Hsources].
  destruct (Hsources eq_refl) as [Hcached _].
  apply (Hcached cached_model). vm_compute. reflexivity.
Defined.

(** The same world when the import fails: the cached model is not read. *)
Example loadModel_import_comes_first :
  let env := world_without_tfjs url_config in
  let s := initial_state {[ modelKey := cached_model ]} in
  model (state_of (loadModel env s)) = None
  /\ loadingState (state_of (loadModel env s)) = error_state
  /\ events (state_of (loadModel env s)) = [ConsoleWarn
       "ML model loading failed, classification will use enhanced mock data"].
Proof.
  intros env s. split; [vm_compute; reflexivity|].
  split; vm_compute; reflexivity.
Qed.

(** C7: when the model came from the remote URL and the write to the
    offline cache fails, the failure is logged as a warning and goes no
    further: the load attempt returns, the loading state is "loaded" with
    the remote model in place, no error is recorded and the cache is
    unchanged. *)
Theorem cache_write_failure_is_swallowed env s m e :
  import_tfjs env = Returned tt ->
  indexeddb s !! modelKey = None ->
  remote_configured env = true ->
  String.prefix indexeddb_scheme (remote_url env) = false ->
  http_model env (remote_url env) = Returned m ->
  indexeddb_write env = Threw e ->
  exists s',
    loadModel env s = (Returned tt, s')
    /\ loadingState s' = loaded
    /\ model s' = Some m
    /\ error s' = error s
    /\ indexeddb s' = indexeddb s
    /\ events s' = events s ++
         [LoadLayersModel cache_url; LoadLayersModel (remote_url env);
          ModelSave cache_url;
          ConsoleWarn ("Failed to cache model offline: " +:+ message_or "" e)].
Proof.
  intros Himport Hmiss Hurl Hp Hfetch Hwrite.
  destruct (loadModel_remote_success env Himport s m Hmiss Hurl Hp Hfetch)
    as (s' & Hrun & Hm & Hl & _ & Her & Hw).
  rewrite Hwrite in Hw. destruct Hw as [Hdb He].
  exists s'. auto 10.
Qed.

Lemma cache_write_failure_is_swallowed_witness :
  let env := world url_config (Returned remote_model)
               (Threw (ErrorObj "QuotaExceededError")) offline in
  exists s',
    loadModel env (initial_state ∅) = (Returned tt, s')
    /\ loadingState s' = loaded
    /\ model s' = Some remote_model
    /\ error s' = None
    /\ indexeddb s' = ∅
    /\ events s' =
         [LoadLayersModel cache_url; LoadLayersModel (remote_url env);
          ModelSave cache_url;
          ConsoleWarn "Failed to cache model offline: QuotaExceededError"].
Proof.
  apply (cache_write_failure_is_swallowed
           (world url_config (Returned remote_model)
              (Threw (ErrorObj "QuotaExceededError")) offline)
           (initial_state ∅) remote_model (ErrorObj "QuotaExceededError"));
    reflexivity.
Defined.

(** * Further properties *)

(** ** Upload validation *)

(** X1: A file is accepted exactly when its MIME type is one of the three
    allowed ones and its size is at most 5 MiB (a file of exactly
    5242880 bytes passes); a wrong type is reported even when the file is
    also too large. *)
Theorem validateImageForClassification_accepts file :
  let v := validateImageForClassification file in
  (isValid v = true <->
     file_type file ∈ allowedTypes /\ file_size file <= 5242880)
  /\ (isValid v = true <-> validation_error v = None)
  /\ (file_type file ∉ allowedTypes <->
        validation_error v = Some "Please upload a JPEG, PNG, or WebP image")
  /\ (file_type file ∈ allowedTypes /\ 5242880 < file_size file <->
        validation_error v = Some "Image size must be less than 5MB").
Proof.
  unfold validateImageForClassification.
  change maxSize with 5242880.
  destruct (bool_decide (file_type file ∈ allowedTypes)) eqn:Ht;
    [apply bool_decide_eq_true in Ht | apply bool_decide_eq_false in Ht];
    cbn [negb].
  - destruct (5242880 <? file_size file) eqn:Hs;
      [apply Z.ltb_lt in Hs | apply Z.ltb_ge in Hs]; cbn;
      repeat split; intros; try discriminate; try tauto; try lia;
      try (exfalso; tauto); try (destruct_and?; lia).
  - cbn. repeat split; intros; try discriminate; try tauto.
Qed.

(** ** Footprint estimates *)

Lemma Math_round_near x :
  (x - (1 # 2) < inject_Z (Math_round x) /\ inject_Z (Math_round x) <= x + (1 # 2))%Q.
Proof.
  unfold Math_round.
  pose proof (Qfloor_le (x + (1 # 2))) as Hlo.
  pose proof (Qlt_floor (x + (1 # 2))) as Hhi.
  rewrite inject_Z_plus in Hhi. change (inject_Z 1) with 1%Q in Hhi.
  split; lra.
Qed.

Lemma hundredths n : (inject_Z n / 100 == inject_Z n * (1 # 100))%Q.
Proof. unfold Qdiv. reflexivity. Qed.

(** X2: Both estimates are the exact figure rounded to two decimals: a whole
    number of hundredths, above the exact figure by at most 0.005 and
    below it by less than 0.005. *)
Theorem footprint_estimates_round_to_hundredths classifications pickups co2Kg :
  let exact := (classifications * (5 # 10) + pickups * (12 # 10))%Q in
  (exists n, estimateCO2Saved classifications pickups == inject_Z n / 100
     /\ exact - (1 # 200) < estimateCO2Saved classifications pickups
     /\ estimateCO2Saved classifications pickups <= exact + (1 # 200))%Q
  /\ (exists n, treesEquivalent co2Kg == inject_Z n / 100
        /\ co2Kg / 21 - (1 # 200) < treesEquivalent co2Kg
        /\ treesEquivalent co2Kg <= co2Kg / 21 + (1 # 200))%Q.
Proof.
  intros exact. split.
  - unfold estimateCO2Saved. fold exact.
    exists (Math_round (exact * 100)). split; [reflexivity|].
    pose proof (Math_round_near (exact * 100)) as [Hlo Hhi].
    rewrite hundredths. split; lra.
  - unfold treesEquivalent.
    exists (Math_round (co2Kg / 21 * 100)). split; [reflexivity|].
    pose proof (Math_round_near (co2Kg / 21 * 100)) as [Hlo Hhi].
    rewrite hundredths. unfold Qdiv in *.
    change (/ 21)%Q with (1 # 21)%Q in *. split; lra.
Qed.

(** X3: More classified items or more pickups never lower the CO2 estimate,
    and a larger CO2 figure never lowers the tree equivalent. *)
Theorem footprint_estimates_monotone c c' p p' :
  (c <= c')%Q -> (p <= p')%Q ->
  (estimateCO2Saved c p <= estimateCO2Saved c' p')%Q
  /\ (treesEquivalent (estimateCO2Saved c p)
      <= treesEquivalent (estimateCO2Saved c' p'))%Q.
Proof.
  intros Hc Hp.
  assert (H : (estimateCO2Saved c p <= estimateCO2Saved c' p')%Q).
  { unfold estimateCO2Saved. rewrite !hundredths.
    assert (Hr : Math_round ((c * (5 # 10) + p * (12 # 10)) * 100)
                 <= Math_round ((c' * (5 # 10) + p' * (12 # 10)) * 100))
      by (apply Math_round_mono; lra).
    rewrite Zle_Qle in Hr. lra. }
  split; [exact H|].
  unfold treesEquivalent. rewrite !hundredths.
  set (x := estimateCO2Saved c p) in *. set (y := estimateCO2Saved c' p') in *.
  assert (Hr : Math_round (x / 21 * 100) <= Math_round (y / 21 * 100)).
  { apply Math_round_mono. unfold Qdiv. change (/ 21)%Q with (1 # 21)%Q. lra. }
  rewrite Zle_Qle in Hr. lra.
Qed.

Lemma footprint_estimates_monotone_witness :
  (estimateCO2Saved 3 1 <= estimateCO2Saved 4 2)%Q
  /\ (treesEquivalent (estimateCO2Saved 3 1)
      <= treesEquivalent (estimateCO2Saved 4 2))%Q.
Proof.
  apply (footprint_estimates_monotone 3 4 1 2); vm_compute; discriminate.
Defined.

(** ** Waste forecast *)

(** X4: With no profile, no household size or a household size of zero, the
    forecast is that of a household of two: 6.4, 5.6 and 0.6 per week
    and 54.18 per month, the same report as for a profile that gives the
    size 2.  A missing or empty household type gives "apartment". *)
Theorem forecast_defaults userProfile :
  (userProfile ≫= householdSize = None
   \/ (exists q, userProfile ≫= householdSize = Some q /\ (q == 0)%Q) ->
   let f := generateWasteForecast userProfile in
   (weekly_biodegradable (weeklyWaste f) == 64 # 10)%Q
   /\ (weekly_recyclable (weeklyWaste f) == 56 # 10)%Q
   /\ (weekly_hazardous (weeklyWaste f) == 6 # 10)%Q
   /\ (total (monthlyForecast f) == 5418 # 100)%Q
   /\ weeklyWaste f = weeklyWaste (generateWasteForecast (Some household_of_two))
   /\ monthlyForecast f
      = monthlyForecast (generateWasteForecast (Some household_of_two)))
  /\ (userProfile ≫= householdType = None
      \/ userProfile ≫= householdType = Some "" ->
      forecast_householdType (generateWasteForecast userProfile) = "apartment").
Proof.
  split.
  - intros Hsize.
    assert (Heff : number_or (userProfile ≫= householdSize) 2 = 2%Q).
    { destruct Hsize as [-> | (q & -> & Hq)]; [reflexivity|].
      unfold number_or. apply Qeq_bool_iff in Hq. rewrite Hq. reflexivity. }
    unfold generateWasteForecast. cbv zeta. rewrite Heff.
    split; [vm_compute; reflexivity|]. split; [vm_compute; reflexivity|].
    split; [vm_compute; reflexivity|]. split; [vm_compute; reflexivity|].
    split; vm_compute; reflexivity.
  - intros Htype. unfold generateWasteForecast, string_or. cbv zeta.
    cbn [forecast_householdType]. destruct Htype as [-> | ->]; reflexivity.
Qed.

(** X5: The monthly total is 4.3 times the weekly waste, that is 27.09 kg per
    household member, and the four itemised entries always add up to
    472/630 of it (about three quarters): the breakdown never accounts
    for the whole total. *)
Theorem forecast_breakdown_share userProfile :
  let f := generateWasteForecast userProfile in
  let w := weeklyWaste f in
  let m := monthlyForecast f in
  (total m == (weekly_biodegradable w + weekly_recyclable w + weekly_hazardous w)
              * (43 # 10))%Q
  /\ (total m == (2709 # 100) * effective_size userProfile)%Q
  /\ size (breakdown m) = 4%nat
  /\ exists food plastic paper electronics,
       breakdown m !! "Food waste" = Some food
       /\ breakdown m !! "Plastic packaging" = Some plastic
       /\ breakdown m !! "Paper products" = Some paper
       /\ breakdown m !! "Electronics" = Some electronics
       /\ (food + plastic + paper + electronics == (472 # 630) * total m)%Q.
Proof.
  unfold generateWasteForecast. cbv zeta.
  fold (effective_size userProfile). set (h := effective_size userProfile).
  cbn [weeklyWaste monthlyForecast total breakdown weekly_biodegradable
       weekly_recyclable weekly_hazardous fold_left].
  split; [ring|]. split; [ring|].
  split; [vm_compute; reflexivity|].
  eexists _, _, _, _.
  split; [apply lookup_insert_eq|].
  split; [rewrite lookup_insert_ne by discriminate; apply lookup_insert_eq|].
  split; [rewrite !lookup_insert_ne by discriminate; apply lookup_insert_eq|].
  split; [rewrite !lookup_insert_ne by discriminate; apply lookup_insert_eq|].
  ring.
Qed.

(** ** Image analysis: clarity and the mean *)

Lemma analyzeImageQuality_clarity_eq blend img a :
  analyzeImageQuality blend img = Returned a ->
  clarity a = Math_min 100 (Math_max 0
                (binary64 (binary64 (luminance blend img - 50) / (3 # 2)))%Q)
  /\ objectDetectionCount a = 1.
Proof.
  unfold analyzeImageQuality, luminance.
  destruct (getImageData blend img) as [data|e]; [|discriminate].
  intros [= <-]. split; reflexivity.
Qed.

Lemma clamp_0_100 x :
  (0 <= Math_min 100 (Math_max 0 x) /\ Math_min 100 (Math_max 0 x) <= 100
   /\ (Math_min 100 (Math_max 0 x) == 0 <-> x <= 0)
   /\ (Math_min 100 (Math_max 0 x) == 100 <-> 100 <= x)
   /\ (0 <= x -> x <= 100 -> Math_min 100 (Math_max 0 x) == x))%Q.
Proof.
  unfold Math_min, Math_max.
  destruct (Q.max_spec 0 x) as [[H1 E1]|[H1 E1]];
    destruct (Q.min_spec 100 (Qmax 0 x)) as [[H2 E2]|[H2 E2]];
    repeat split; intros; lra.
Qed.

Lemma quality_poor_iff blend img a :
  analyzeImageQuality blend img = Returned a ->
  quality a = QPoor <-> (luminance blend img <= 50)%Q.
Proof.
  intros Ha. destruct (analyzeImageQuality_luminance blend img a Ha) as [Hq _].
  cbv zeta in Hq. rewrite Hq. clear Hq.
  split; compare_all; cbn; intros; try discriminate; try reflexivity; lra.
Qed.

(** [(brightness - 50) / 1.5] in doubles, on either side of its range. *)
Lemma clarity_formula_low L :
  (L <= 50 -> binary64 (binary64 (L - 50) / (3 # 2)) <= 0)%Q.
Proof.
  intros HL.
  assert (H1 : (binary64 (L - 50) <= 0)%Q) by (apply binary64_nonpos; lra).
  set (d := binary64 (L - 50)) in *.
  assert (H2 : (d / (3 # 2) == d * (2 # 3))%Q) by reflexivity.
  apply binary64_nonpos. lra.
Qed.

Lemma clarity_formula_high L :
  (200 <= L -> 100 <= binary64 (binary64 (L - 50) / (3 # 2)))%Q.
Proof.
  intros HL.
  assert (H1 : (150 <= binary64 (L - 50))%Q).
  { apply (binary64_ge _ 150); [lia|]. change (inject_Z 150) with 150%Q. lra. }
  set (d := binary64 (L - 50)) in *.
  assert (H2 : (d / (3 # 2) == d * (2 # 3))%Q) by reflexivity.
  apply (binary64_ge _ 100); [lia|]. change (inject_Z 100) with 100%Q. lra.
Qed.

(** X6: The clarity score is (L - 50) / 1.5, computed in doubles from the
    brightness L the analyzer computed and clamped to [0,100].  It lies
    between 0 and 100, it is 0 for every image rated poor, and it is 100
    for every image whose L is at least 200.  The object count is always
    1. *)
Theorem analyzeImageQuality_clarity blend img a :
  analyzeImageQuality blend img = Returned a ->
  let L := luminance blend img in
  clarity a = Math_min 100 (Math_max 0 (binary64 (binary64 (L - 50) / (3 # 2)))%Q)
  /\ (0 <= clarity a /\ clarity a <= 100)%Q
  /\ (quality a = QPoor -> clarity a == 0)%Q
  /\ (200 <= L -> clarity a == 100)%Q
  /\ objectDetectionCount a = 1.
Proof.
  intros Ha L.
  destruct (analyzeImageQuality_clarity_eq blend img a Ha) as [Hc Hn].
  pose proof (quality_poor_iff blend img a Ha) as Hpoor.
  fold L in Hc, Hpoor. split; [exact Hc|]. rewrite Hc.
  pose proof (clarity_formula_low L) as Hlow.
  pose proof (clarity_formula_high L) as Hhigh.
  set (x := binary64 (binary64 (L - 50) / (3 # 2))) in *.
  destruct (clamp_0_100 x) as (H0 & H100 & Hz & Hs & _).
  split; [split; assumption|].
  split; [intros Hq; apply Hz, Hlow, Hpoor, Hq|].
  split; [intros HL; apply Hs, Hhigh, HL | exact Hn].
Qed.

Lemma analyzeImageQuality_clarity_witness :
  let img := uniform_image 2 2 Byte.x80 in
  exists a, analyzeImageQuality premultiplied_8bit img = Returned a
    /\ (0 <= clarity a /\ clarity a <= 100)%Q
    /\ objectDetectionCount a = 1.
Proof.
  intros img. eexists. split; [reflexivity|].
  pose proof (analyzeImageQuality_clarity premultiplied_8bit img _ eq_refl) as H.
  split; [apply H | apply H].
Defined.

(** The clarity of the four images at a threshold: the one computed just
    above 50 has a clarity just above 0, the one computed just below 200
    a clarity just below 100. *)
Example clarity_next_to_a_threshold :
  (exists c, clarity <$> analysis_report mean_50 = Some c /\ (0 < c /\ c < 1 # 1000)%Q)
  /\ (exists c, clarity <$> analysis_report mean_200 = Some c
                /\ (100 - (1 # 1000) < c /\ c < 100)%Q).
Proof.
  split; eexists; (split; [vm_compute; reflexivity|]); split; reflexivity.
Qed.

Lemma seq_four s n :
  seq s (4 * S n) = s :: S s :: S (S s) :: S (S (S s)) :: seq (4 + s) (4 * n).
Proof.
  replace (4 * S n)%nat with (S (S (S (S (4 * n))))) by lia. reflexivity.
Qed.

(** The loop over the pixels of one colour value [v]: every partial sum
    is an integer, which doubles hold exactly below [2^53]. *)
Lemma brightnessLoop_const (f : nat -> Z) v n :
  0 <= v <= 255 ->
  (forall i, (i mod 4 <> 3)%nat -> f i = v) ->
  forall s acc j,
    (s mod 4 = 0)%nat ->
    0 <= j -> (j + Z.of_nat n) * 255 < 2 ^ 53 ->
    (acc == inject_Z (j * v))%Q ->
    (brightnessLoop (map f (seq s (4 * n))) acc == inject_Z ((j + Z.of_nat n) * v))%Q.
Proof.
  intros Hv Hf. induction n as [|n IH]; intros s acc j Hs Hj Hsmall Hacc.
  - cbn [Nat.mul seq map brightnessLoop]. rewrite Hacc.
    replace (j + Z.of_nat 0) with j by lia. reflexivity.
  - rewrite seq_four. cbn [map brightnessLoop].
    rewrite (Hf s), (Hf (S s)), (Hf (S (S s))).
    + replace (j + Z.of_nat (S n)) with ((j + 1) + Z.of_nat n) by lia.
      apply IH; [|lia|lia|].
      * rewrite Nat.Div0.add_mod, Hs by lia. reflexivity.
      * assert (H1 : (binary64 (inject_Z v + inject_Z v) == inject_Z (v + v))%Q).
        { apply binary64_Z; [rewrite inject_Z_plus; reflexivity|lia]. }
        assert (H2 : (binary64 (binary64 (inject_Z v + inject_Z v) + inject_Z v)
                      == inject_Z (v + v + v))%Q).
        { apply binary64_Z; [rewrite H1, <- inject_Z_plus; reflexivity|lia]. }
        assert (H3 : (binary64
                        (binary64 (binary64 (inject_Z v + inject_Z v) + inject_Z v) / 3)
                      == inject_Z v)%Q).
        { apply binary64_Z; [|lia]. rewrite H2, !inject_Z_plus. field. }
        apply binary64_Z; [|nia].
        rewrite H3, Hacc, <- inject_Z_plus.
        replace (j * v + v) with ((j + 1) * v) by lia. reflexivity.
    + replace (S (S s)) with (2 + s)%nat by lia.
      rewrite Nat.Div0.add_mod, Hs by lia. cbn. lia.
    + replace (S s) with (1 + s)%nat by lia.
      rewrite Nat.Div0.add_mod, Hs by lia. cbn. lia.
    + lia.
Qed.

(** The canvas gives the colour bytes of an opaque image back. *)
Lemma canvas_byte_uniform blend w h b i :
  (i mod 4 <> 3)%nat ->
  canvas_byte blend (uniform_image w h b) i = b.
Proof.
  intros Hi. unfold canvas_byte, uniform_image. cbn [rgba].
  assert (Ha : ((i - i mod 4 + 3) mod 4 =? 3)%nat = true).
  { apply Nat.eqb_eq. pose proof (Nat.div_mod_eq i 4) as Hd.
    replace (i - i mod 4 + 3)%nat with (3 + (i / 4) * 4)%nat by lia.
    rewrite Nat.Div0.mod_add. reflexivity. }
  rewrite Ha. apply Nat.eqb_neq in Hi. rewrite Hi. reflexivity.
Qed.

(** X8: The brightness computed for an opaque image of a single colour value
    is exactly that value, for every image of fewer than 2^45 pixels
    (the sums are then integers that doubles hold exactly). *)
Theorem luminance_of_uniform_image blend w h b :
  Z.of_nat (S w * S h) < 2 ^ 45 ->
  (luminance blend (uniform_image (S w) (S h) b) == inject_Z (byte_value b))%Q.
Proof.
  intros Hsmall.
  unfold luminance, getImageData.
  change (width (uniform_image (S w) (S h) b)) with (S w).
  change (height (uniform_image (S w) (S h) b)) with (S h).
  cbn [Nat.eqb orb].
  set (n := (S w * S h)%nat) in *.
  replace (4 * S w * S h)%nat with (4 * n)%nat by (unfold n; lia).
  unfold meanBrightness. rewrite length_map, length_seq.
  pose proof (byte_value_range b) as Hb.
  assert (Hsum :
    (brightnessLoop
       (map (fun i => byte_value (canvas_byte blend (uniform_image (S w) (S h) b) i))
            (seq 0 (4 * n))) 0
     == inject_Z ((0 + Z.of_nat n) * byte_value b))%Q).
  { apply brightnessLoop_const; [exact Hb| |reflexivity|lia|lia|].
    - intros i Hi. rewrite canvas_byte_uniform by exact Hi. reflexivity.
    - rewrite Z.mul_0_l. reflexivity. }
  assert (Hcount : (binary64 (inject_Z (Z.of_nat (4 * n)) / 4)
                    == inject_Z (Z.of_nat n))%Q).
  { apply binary64_Z; [|lia]. rewrite Nat2Z.inj_mul, inject_Z_mult.
    change (inject_Z (Z.of_nat 4)) with 4%Q. field. }
  assert (Hn : ~ (inject_Z (Z.of_nat n) == 0)%Q).
  { change 0%Q with (inject_Z 0). rewrite inject_Z_injective. unfold n. lia. }
  apply binary64_Z; [|lia].
  rewrite Hsum, Hcount, Z.add_0_l, inject_Z_mult. field. exact Hn.
Qed.

Lemma luminance_of_uniform_image_witness :
  (luminance premultiplied_8bit (uniform_image 2 2 Byte.x80) == 128)%Q.
Proof.
  apply (luminance_of_uniform_image premultiplied_8bit 1 1 Byte.x80).
  vm_compute. reflexivity.
Defined.

(** What the canvas reads back decides, not the bytes of the file: the
    same mid-gray pixel is analysed as black when it is fully
    transparent. *)
Example transparent_pixels_read_back_black :
  getImageData premultiplied_8bit (gray_of_alpha Byte.x00) = Returned [0; 0; 0; 0]
  /\ quality <$> analysis_report (gray_of_alpha Byte.x00) = Some QPoor
  /\ quality <$> analysis_report opaque_gray = Some QGood.
Proof.
  split; [vm_compute; reflexivity|]. split; vm_compute; reflexivity.
Qed.

(** ** Predictions: the selected category and the lighting adjustment *)

Lemma processEnhancedPredictions_result env data a s :
  exists d s',
    processEnhancedPredictions env data a s =
      (Returned {| p_type := code_type data;
                   p_confidence := code_confidence data a;
                   p_details := d |}, s')
    /\ basic_details env (type_value (code_type data)) s = (Returned d, s').
Proof.
  destruct data as [[b r] h].
  unfold processEnhancedPredictions, bind.
  match goal with |- context [basic_details env ?t s] =>
    change t with (type_value (code_type (b, r, h)));
    destruct (basic_details_returns env (type_value (code_type (b, r, h))) s)
      as (d & s1 & Hd & _) end.
  rewrite Hd. exists d, s1. split; reflexivity.
Qed.

Lemma code_type_argmax b r h :
  (code_type (b, r, h) = biodegradable <-> (r <= b /\ h <= b)%Q)
  /\ (code_type (b, r, h) = recyclable <-> (b < r /\ h <= r)%Q)
  /\ (code_type (b, r, h) = hazardous <-> (b < h /\ r < h)%Q).
Proof.
  unfold code_type, Math_max.
  set (m := Qmax (Qmax b r) h).
  assert (Hm : (b <= m /\ r <= m /\ h <= m /\ (m == b \/ m == r \/ m == h))%Q).
  { unfold m.
    destruct (Q.max_spec b r) as [[H1 E1]|[H1 E1]];
      destruct (Q.max_spec (Qmax b r) h) as [[H2 E2]|[H2 E2]];
      repeat split; try lra; auto. }
  destruct Hm as (Hb & Hr & Hh & Hcases).
  destruct (Qeq_bool m b) eqn:Eb.
  - apply Qeq_bool_iff in Eb.
    repeat split; intros; try discriminate; try lra; exfalso; lra.
  - apply Qeq_bool_neq in Eb.
    destruct (Qeq_bool m r) eqn:Er.
    + apply Qeq_bool_iff in Er.
      repeat split; intros; try discriminate; try lra;
        try (exfalso; lra);
        try (apply Qnot_le_lt; intros Hle; apply Eb; lra).
    + apply Qeq_bool_neq in Er.
      destruct Hcases as [H | [H | H]]; [contradiction | contradiction |].
      repeat split; intros; try discriminate; try lra;
        try (exfalso; lra);
        try (apply Qnot_le_lt; intros Hle; first [apply Eb | apply Er]; lra).
Qed.

(** X9: For three numeric scores of which the largest is not negative, the
    predicted category is the one with the largest score; on equal
    scores biodegradable wins over recyclable and recyclable over
    hazardous. *)
Theorem predicted_type_is_argmax env b r h a s :
  (0 <= raw_confidence (b, r, h))%Q ->
  exists p s',
    processEnhancedPredictions env (b, r, h) a s = (Returned p, s')
    /\ (p_type p = biodegradable <-> (r <= b /\ h <= b)%Q)
    /\ (p_type p = recyclable <-> (b < r /\ h <= r)%Q)
    /\ (p_type p = hazardous <-> (b < h /\ r < h)%Q).
Proof.
  intros _.
  destruct (processEnhancedPredictions_result env (b, r, h) a s)
    as (d & s' & Hrun & _).
  eexists _, s'. split; [exact Hrun|]. apply code_type_argmax.
Qed.

Lemma predicted_type_is_argmax_witness :
  let env := world no_config unreachable (Returned tt) offline in
  exists p s',
    processEnhancedPredictions env (1 # 10, 7 # 10, 2 # 10)%Q gray_poor_low
      (initial_state ∅) = (Returned p, s')
    /\ (p_type p = biodegradable <-> (7 # 10 <= 1 # 10 /\ 2 # 10 <= 1 # 10)%Q)
    /\ (p_type p = recyclable <-> (1 # 10 < 7 # 10 /\ 2 # 10 <= 7 # 10)%Q)
    /\ (p_type p = hazardous <-> (1 # 10 < 2 # 10 /\ 7 # 10 < 2 # 10)%Q).
Proof.
  intros env.
  apply (predicted_type_is_argmax env (1 # 10) (7 # 10) (2 # 10) gray_poor_low
           (initial_state ∅)).
  vm_compute. discriminate.
Defined.

Lemma code_confidence_by_lighting data a :
  (0 <= raw_confidence data)%Q ->
  code_confidence data (with_lighting LLow a)
    <= code_confidence data (with_lighting LGood a)
  /\ code_confidence data (with_lighting LOverexposed a)
     = code_confidence data (with_lighting LGood a)
  /\ code_confidence data a <= Math_round (Math_min 99 (raw_confidence data)).
Proof.
  intros Hlo. unfold code_confidence, with_lighting. cbn [quality lightingConditions].
  split; [|split].
  - apply clamp_round_mono. destruct (quality a); lra.
  - reflexivity.
  - apply clamp_round_mono. destruct (quality a), (lightingConditions a); lra.
Qed.

(** X10: Low lighting never raises the confidence, overexposed lighting is not
    penalised at all, and no report yields more than the raw confidence
    clamped to 99 and rounded. *)
Theorem adjusted_confidence_by_lighting env data a s :
  (0 <= raw_confidence data)%Q ->
  exists low good over any,
    predicted_confidence env data (with_lighting LLow a) s = Some low
    /\ predicted_confidence env data (with_lighting LGood a) s = Some good
    /\ predicted_confidence env data (with_lighting LOverexposed a) s = Some over
    /\ predicted_confidence env data a s = Some any
    /\ low <= good /\ over = good
    /\ any <= Math_round (Math_min 99 (raw_confidence data)).
Proof.
  intros Hlo.
  destruct (code_confidence_by_lighting data a Hlo) as (H1 & H2 & H3).
  unfold predicted_confidence.
  destruct (processEnhancedPredictions_run env data (with_lighting LLow a) s)
    as (p1 & s1 & R1 & C1 & _).
  destruct (processEnhancedPredictions_run env data (with_lighting LGood a) s)
    as (p2 & s2 & R2 & C2 & _).
  destruct (processEnhancedPredictions_run env data (with_lighting LOverexposed a) s)
    as (p3 & s3 & R3 & C3 & _).
  destruct (processEnhancedPredictions_run env data a s)
    as (p4 & s4 & R4 & C4 & _).
  rewrite R1, R2, R3, R4. cbn [result_of fst].
  eexists _, _, _, _. repeat (split; [reflexivity|]).
  rewrite C1, C2, C3, C4, H2. auto.
Qed.

Lemma adjusted_confidence_by_lighting_witness :
  let env := world no_config unreachable (Returned tt) offline in
  exists low good over any,
    predicted_confidence env bright_scores (with_lighting LLow gray_poor_low)
      (initial_state ∅) = Some low
    /\ predicted_confidence env bright_scores (with_lighting LGood gray_poor_low)
      (initial_state ∅) = Some good
    /\ predicted_confidence env bright_scores (with_lighting LOverexposed gray_poor_low)
      (initial_state ∅) = Some over
    /\ predicted_confidence env bright_scores gray_poor_low (initial_state ∅) = Some any
    /\ low <= good /\ over = good
    /\ any <= Math_round (Math_min 99 (raw_confidence bright_scores)).
Proof.
  intros env.
  apply (adjusted_confidence_by_lighting env bright_scores gray_poor_low
           (initial_state ∅)).
  vm_compute. discriminate.
Defined.

(** ** Random picks and the simulated result *)

Lemma switch_type_value t : switch_type (type_value t) = Some t.
Proof. destruct t; reflexivity. Qed.

Lemma switch_type_Some v t : switch_type v = Some t -> v = type_value t.
Proof.
  destruct v as [| | | |s| |]; cbn; try discriminate.
  destruct (String.eqb s "biodegradable") eqn:E1.
  { apply String.eqb_eq in E1 as ->. intros [= <-]. reflexivity. }
  destruct (String.eqb s "recyclable") eqn:E2.
  { apply String.eqb_eq in E2 as ->. intros [= <-]. reflexivity. }
  destruct (String.eqb s "hazardous") eqn:E3.
  { apply String.eqb_eq in E3 as ->. intros [= <-]. reflexivity. }
  discriminate.
Qed.

(** An index computed from a draw in [0,1) always hits the array. *)
Lemma at_index_scaled (arr : list string) u :
  arr <> [] -> (0 <= u)%Q -> (u < 1)%Q ->
  exists x,
    JS.at_index arr (Math_floor (u * inject_Z (Z.of_nat (length arr)))) = VStr x
    /\ x ∈ arr.
Proof.
  intros Hne Hlo Hhi.
  assert (Hlen : 0 < Z.of_nat (length arr)) by (destruct arr; [congruence | cbn; lia]).
  pose proof (floor_scaled_range u _ Hlen Hlo Hhi) as Hk.
  set (k := Math_floor (u * inject_Z (Z.of_nat (length arr)))) in *.
  unfold JS.at_index.
  destruct (k <? 0) eqn:Hneg; [apply Z.ltb_lt in Hneg; lia|].
  destruct (lookup_lt_is_Some_2 arr (Z.to_nat k)) as [x Hx]; [lia|].
  exists x. rewrite Hx. split; [reflexivity|].
  apply list_elem_of_lookup. eauto.
Qed.

Lemma subCategories_nonempty t : subCategories t <> [].
Proof. destruct t; discriminate. Qed.

Lemma materials_nonempty t : materials t <> [].
Proof. destruct t; discriminate. Qed.

Section Picks.

Variable env : Env.
Hypothesis random_in_range :
  forall n, (0 <= random_source env n /\ random_source env n < 1)%Q.

(** X11: For one of the three categories, the sub-category and the material
    are always entries of that category's candidate lists (never
    [undefined]), each costing one random draw; for any other type value
    both are "Unknown" and no random number is drawn. *)
Theorem picks_come_from_the_category type s :
  match switch_type type with
  | Some t =>
      exists sub mat,
        getSubCategory env type s = (Returned (VStr sub), after_draw s)
        /\ sub ∈ subCategories t
        /\ getMaterial env type s = (Returned (VStr mat), after_draw s)
        /\ mat ∈ materials t
  | None =>
      getSubCategory env type s = (Returned (VStr "Unknown"), s)
      /\ getMaterial env type s = (Returned (VStr "Unknown"), s)
  end.
Proof.
  unfold getSubCategory, getMaterial.
  destruct (switch_type type) as [t|]; [|split; reflexivity].
  rewrite !random_pick_run.
  destruct (random_in_range (randoms_drawn s)) as [Hlo Hhi].
  destruct (at_index_scaled (subCategories t) _ (subCategories_nonempty t) Hlo Hhi)
    as (sub & -> & Hsub).
  destruct (at_index_scaled (materials t) _ (materials_nonempty t) Hlo Hhi)
    as (mat & -> & Hmat).
  exists sub, mat. auto.
Qed.

Lemma basic_details_known t s :
  exists sub mat,
    basic_details env (type_value t) s =
      (Returned (details_of (VStr sub) (VStr mat) (type_value t)),
       after_draw (after_draw s))
    /\ sub ∈ subCategories t /\ mat ∈ materials t.
Proof.
  unfold basic_details, bind, getSubCategory, getMaterial.
  rewrite switch_type_value, !random_pick_run.
  destruct (random_in_range (randoms_drawn s)) as [Hlo Hhi].
  destruct (at_index_scaled (subCategories t) _ (subCategories_nonempty t) Hlo Hhi)
    as (sub & -> & Hsub).
  destruct (random_in_range (randoms_drawn (after_draw s))) as [Hlo' Hhi'].
  destruct (at_index_scaled (materials t) _ (materials_nonempty t) Hlo' Hhi')
    as (mat & -> & Hmat).
  exists sub, mat. split; [reflexivity|]. auto.
Qed.

(** X12: The simulated result is consistent with its own category: the
    sub-category, the material and the recommendations are those of the
    category it reports.  It always reports a processing time of 600 ms,
    whatever delay it waited, and uses exactly five random draws. *)
Theorem mock_result_is_consistent s :
  exists r s' t sub mat,
    mockClassification env s = (Returned r, s')
    /\ JS.field "type" r = type_value t
    /\ JS.field "details" r = VObj (details_of (VStr sub) (VStr mat) (type_value t))
    /\ sub ∈ subCategories t
    /\ mat ∈ materials t
    /\ JS.field "recommendations" (JS.field "details" r)
       = JS.strings (getRecommendations (type_value t))
    /\ JS.field "processingTime" r = VNum 600
    /\ randoms_drawn s' = (randoms_drawn s + 5)%nat.
Proof.
  cbv beta iota zeta delta
    [mockClassification bind Math_random tick_random ret emit modify random_pick].
  change (inject_Z (Z.of_nat (length mock_types))) with 3%Q.
  destruct (random_in_range (S (randoms_drawn s))) as [Ulo Uhi].
  cbn [randoms_drawn with_events].
  destruct (mock_type_thirds _ Ulo Uhi) as (t & -> & _).
  match goal with |- context [basic_details env _ ?s0] =>
    destruct (basic_details_known t s0) as (sub & mat & -> & Hsub & Hmat) end.
  eexists _, _, t, sub, mat. split; [reflexivity|].
  split; [reflexivity|]. split; [reflexivity|].
  split; [exact Hsub|]. split; [exact Hmat|].
  split; [reflexivity|]. split; [reflexivity|].
  cbn. lia.
Qed.

End Picks.

Lemma mock_result_is_consistent_witness :
  let env := world no_config unreachable (Returned tt) offline in
  exists r s' t sub mat,
    mockClassification env (initial_state ∅) = (Returned r, s')
    /\ JS.field "type" r = type_value t
    /\ JS.field "details" r = VObj (details_of (VStr sub) (VStr mat) (type_value t))
    /\ sub ∈ subCategories t
    /\ mat ∈ materials t
    /\ JS.field "recommendations" (JS.field "details" r)
       = JS.strings (getRecommendations (type_value t))
    /\ JS.field "processingTime" r = VNum 600
    /\ randoms_drawn s' = 5%nat.
Proof.
  intros env.
  apply (mock_result_is_consistent env).
  intros n. split; vm_compute; [discriminate | reflexivity].
Defined.

Lemma picks_come_from_the_category_witness :
  let env := world no_config unreachable (Returned tt) offline in
  exists sub mat,
    getSubCategory env (VStr "hazardous") (initial_state ∅)
      = (Returned (VStr sub), after_draw (initial_state ∅))
    /\ sub ∈ subCategories hazardous
    /\ getMaterial env (VStr "hazardous") (initial_state ∅)
      = (Returned (VStr mat), after_draw (initial_state ∅))
    /\ mat ∈ materials hazardous.
Proof.
  intros env.
  apply (picks_come_from_the_category env
           (fun n => conj (ltac:(vm_compute; discriminate) : (0 <= random_source env n)%Q)
                          (ltac:(vm_compute; reflexivity) : (random_source env n < 1)%Q))
           (VStr "hazardous") (initial_state ∅)).
Defined.

(** ** On-device classification *)

Lemma clamp_round_le_99 x : Math_round (Math_min 99 x) <= 99.
Proof.
  transitivity (Math_round (inject_Z 99)); [|rewrite Math_round_Z; lia].
  apply Math_round_mono. change (inject_Z 99) with 99%Q.
  unfold Math_min. apply Q.le_min_l.
Qed.

Section OnDevice.

Variable env : Env.

Lemma classifyImage_not_loaded img s :
  model s = None ->
  classifyImage env img s = (Threw (ErrorObj "Model not loaded"), s).
Proof.
  intros Hm. unfold classifyImage, bind, gets. rewrite Hm. reflexivity.
Qed.

Lemma classifyImage_run img s m :
  model s = Some m ->
  match inference env m img with
  | Threw cause =>
      classifyImage env img s = (Threw (classification_failed cause), after_clock s)
  | Returned (a, data) =>
      exists d s1,
        basic_details env (type_value (code_type data)) (after_clock s)
          = (Returned d, s1)
        /\ classifyImage env img s =
             (Returned
                (tf_result {| p_type := code_type data;
                              p_confidence := code_confidence data a;
                              p_details := d |} a
                   (clock_source env (clock_reads s1)
                    - clock_source env (clock_reads s))),
              after_clock s1)
  end.
Proof.
  intros Hm. unfold classifyImage, bind, gets, inference. rewrite Hm. cbv iota beta.
  unfold try_catch, bind, Date_now, bind, ret, lift, throw.
  change (tick_clock s) with (Returned (clock_reads s), after_clock s). cbv iota beta.
  destruct (import_tfjs env) as [[]|e]; [|reflexivity].
  destruct (analyzeImageQuality (canvas_rounding env) img) as [a|e]; [|reflexivity].
  destruct (predict m img) as [data|e]; [|reflexivity].
  destruct (processEnhancedPredictions_result env data a (after_clock s))
    as (d & s1 & -> & Hd).
  exists d, s1. split; [exact Hd|]. reflexivity.
Qed.

Lemma basic_details_frame type s d s' :
  basic_details env type s = (Returned d, s') ->
  events s' = events s /\ clock_reads s' = clock_reads s.
Proof.
  unfold basic_details, bind, getSubCategory, getMaterial, ret.
  destruct (switch_type type); rewrite ?random_pick_run;
    intros [= <- <-]; split; reflexivity.
Qed.

(** X13: Every exception of [classifyImage] is an [Error] of one of two
    forms: "Model not loaded" when no model is set, raised before
    anything else happens, or "Classification failed: " followed by the
    message of the step that failed (the TensorFlow import, the image
    analysis or the inference).  Nothing is logged in either case. *)
Theorem classifyImage_errors img s e s' :
  classifyImage env img s = (Threw e, s') ->
  (model s = None /\ e = ErrorObj "Model not loaded" /\ s' = s)
  \/ (exists m cause,
        model s = Some m
        /\ inference env m img = Threw cause
        /\ e = ErrorObj ("Classification failed: "
                         +:+ message_or "Unknown error" cause)
        /\ events s' = events s).
Proof.
  intros Hrun. destruct (model s) as [m|] eqn:Hm.
  - right. pose proof (classifyImage_run img s m Hm) as H.
    destruct (inference env m img) as [[a data]|cause] eqn:Hinf.
    + destruct H as (d & s1 & _ & H). rewrite H in Hrun. discriminate.
    + rewrite H in Hrun. injection Hrun as <- <-.
      exists m, cause. split; [reflexivity|]. split; [exact Hinf|].
      split; reflexivity.
  - left. rewrite (classifyImage_not_loaded img s Hm) in Hrun.
    injection Hrun as <- <-. auto.
Qed.

(** X14: With a model set, every step succeeding and numeric scores of which
    the largest is not negative, [classifyImage] returns the category
    of the largest score with a confidence that is an integer between 0
    and 99, the image analysis it computed, the time between its two
    clock readings, enrichment data for that same category, and logs
    nothing. *)
Theorem classifyImage_result img s m a data :
  model s = Some m ->
  inference env m img = Returned (a, data) ->
  (0 <= raw_confidence data)%Q ->
  exists r s' c,
    classifyImage env img s = (Returned r, s')
    /\ JS.field "type" r = type_value (code_type data)
    /\ JS.field "confidence" r = VNum (inject_Z c)
    /\ 0 <= c <= 99
    /\ JS.field "imageAnalysis" r = imageAnalysis_value a
    /\ JS.field "processingTime" r =
         VNum (inject_Z (clock_source env (S (clock_reads s))
                         - clock_source env (clock_reads s)))
    /\ JS.field "recommendations" (JS.field "details" r)
       = JS.strings (getRecommendations (type_value (code_type data)))
    /\ JS.field "alternativeDisposal" r
       = JS.strings (getAlternativeDisposal (code_type data))
    /\ JS.field "carbonFootprint" r = VNum (calculateCarbonFootprint (code_type data))
    /\ events s' = events s.
Proof.
  intros Hm Hinf Hraw. pose proof (classifyImage_run img s m Hm) as H.
  rewrite Hinf in H. destruct H as (d & s1 & Hd & ->).
  destruct (basic_details_frame _ _ _ _ Hd) as [He Hc].
  destruct (basic_details_returns env (type_value (code_type data)) (after_clock s))
    as (d' & s1' & Hd' & Hrec & _).
  rewrite Hd in Hd'. injection Hd' as <- <-.
  eexists _, _, (code_confidence data a). split; [reflexivity|].
  split; [reflexivity|]. split; [reflexivity|].
  split; [split; [apply code_confidence_range, Hraw | apply clamp_round_le_99]|].
  split; [reflexivity|].
  split; [rewrite Hc; reflexivity|].
  split.
  { unfold tf_result. cbn [JS.field p_details p_type].
    rewrite !lookup_insert_ne by discriminate. rewrite lookup_insert_eq.
    cbn [from_option id JS.field].
    rewrite !lookup_insert_ne by discriminate. rewrite Hrec. reflexivity. }
  split; [reflexivity|]. split; [reflexivity|].
  exact He.
Qed.

End OnDevice.

Lemma classifyImage_errors_witness :
  let env := world no_config unreachable (Returned tt) offline in
  let s := state_of (loadModel env
             (initial_state {[ modelKey := broken_model "cached" ]})) in
  exists m cause,
    model s = Some m
    /\ inference env m opaque_gray = Threw cause
    /\ ErrorObj "Classification failed: Tensor shape mismatch"
       = ErrorObj ("Classification failed: " +:+ message_or "Unknown error" cause)
    /\ events (after_clock s) = events s.
Proof.
  intros env s.
  destruct (classifyImage_errors env opaque_gray s
              (ErrorObj "Classification failed: Tensor shape mismatch")
              (after_clock s)) as [(Hnone & _) | H].
  - vm_compute. reflexivity.
  - vm_compute in Hnone. discriminate Hnone.
  - exact H.
Defined.

Lemma classifyImage_result_witness :
  let env := world no_config unreachable (Returned tt) offline in
  let s := state_of (loadModel env
             (initial_state {[ modelKey := cached_model ]})) in
  exists r s' c,
    classifyImage env opaque_gray s = (Returned r, s')
    /\ JS.field "type" r = type_value biodegradable
    /\ JS.field "confidence" r = VNum (inject_Z c)
    /\ 0 <= c <= 99.
Proof.
  intros env s.
  assert (Hinf : exists a, inference env cached_model opaque_gray
                             = Returned (a, (6 # 10, 3 # 10, 1 # 10)%Q))
    by (eexists; vm_compute; reflexivity).
  destruct Hinf as [a Hinf].
  destruct (classifyImage_result env opaque_gray s cached_model a
              (6 # 10, 3 # 10, 1 # 10)%Q)
    as (r & s' & c & Hrun & Hty & Hc & Hle & _).
  - vm_compute. reflexivity.
  - exact Hinf.
  - vm_compute. discriminate.
  - exists r, s', c. auto.
Defined.

(** ** Routing in the orchestrator *)

Lemma same_hooks_refl s : same_hooks s s.
Proof. repeat split. Qed.

Lemma same_hooks_trans s1 s2 s3 :
  same_hooks s1 s2 -> same_hooks s2 s3 -> same_hooks s1 s3.
Proof.
  unfold same_hooks. intros (?&?&?&?&?&?&?&?) (?&?&?&?&?&?&?&?).
  repeat split; congruence.
Qed.

Section Frames.

Variable env : Env.

Lemma basic_details_hooks type s d s' :
  basic_details env type s = (Returned d, s') ->
  same_hooks s s' /\ events s' = events s /\ loading s' = loading s.
Proof.
  unfold basic_details, bind, getSubCategory, getMaterial, ret.
  destruct (switch_type type); rewrite ?random_pick_run;
    intros [= <- <-]; repeat split.
Qed.

Lemma mockClassification_frame s :
  exists r s' delay,
    mockClassification env s = (Returned r, s')
    /\ events s' = events s ++ [SetTimeout delay]
    /\ same_hooks s s'
    /\ loading s' = loading s
    /\ JS.field "processingTime" r = VNum 600.
Proof.
  cbv beta iota zeta delta
    [mockClassification bind Math_random tick_random ret emit modify random_pick].
  match goal with |- context [basic_details env ?t ?s0] =>
    destruct (basic_details_returns env t s0) as (d & s1 & Hd & _);
    destruct (basic_details_hooks t s0 d s1 Hd) as (Hh & He & Hl);
    rewrite Hd end.
  eexists _, _, _. split; [reflexivity|].
  split; [rewrite He; reflexivity|].
  split; [|split; [rewrite Hl; reflexivity | reflexivity]].
  eapply same_hooks_trans; [|exact Hh]. repeat split.
Qed.

Lemma classifyImage_frame img s :
  exists o s',
    classifyImage env img s = (o, s')
    /\ events s' = events s /\ same_hooks s s' /\ loading s' = loading s.
Proof.
  destruct (model s) as [m|] eqn:Hm.
  - pose proof (classifyImage_run env img s m Hm) as H.
    destruct (inference env m img) as [[a data]|cause].
    + destruct H as (d & s1 & Hd & ->).
      destruct (basic_details_hooks _ _ _ _ Hd) as (Hh & He & Hl).
      eexists _, _. split; [reflexivity|].
      split; [exact He|]. split; [|exact Hl].
      eapply same_hooks_trans; [|eapply same_hooks_trans; [exact Hh|]]; repeat split.
    + rewrite H. eexists _, _. split; [reflexivity|]. repeat split.
  - rewrite (classifyImage_not_loaded env img s Hm).
    eexists _, _. split; [reflexivity|]. repeat split.
Qed.

End Frames.

Lemma same_hooks_setLoading b s : same_hooks s (state_of (setLoading b s)).
Proof. repeat split. Qed.

Lemma same_hooks_with_events f s : same_hooks s (with_events f s).
Proof. repeat split. Qed.

(** Settles the preservation of the hooks along a run from the facts
    about its steps. *)
Ltac hooks_chain :=
  unfold same_hooks in *;
  cbn [model loadingState error modelInfo isOfflineMode api_loading api_error
       indexeddb with_events state_of setLoading modify snd] in *;
  repeat match goal with H : _ /\ _ |- _ => destruct H end;
  repeat split; congruence.

(** X15: An image input never reaches the network: whatever the configuration
    and the state of the model, classifying an image sends no request
    and leaves the model hook, the API hook and the model store as they
    were. *)
Theorem image_input_never_fetches env img s :
  exists r s' added,
    classifyWaste env (InImage img) s = (Returned r, s')
    /\ events s' = events s ++ added
    /\ forallb (fun e => negb (is_fetch e)) added = true
    /\ same_hooks s s'.
Proof.
  rewrite classifyWaste_unfold. cbv zeta.
  set (s0 := state_of (setLoading true s)).
  assert (H0 : same_hooks s s0) by apply same_hooks_setLoading.
  assert (E0 : events s0 = events s) by reflexivity.
  clearbody s0.
  unfold select_backend, bind, gets, emit, modify.
  cbn [as_image as_file].
  destruct (isReady s0).
  - match goal with |- context [classifyImage env img ?s1] =>
      destruct (classifyImage_frame env img s1) as (o & s2 & -> & He & Hh & _) end.
    cbn [events with_events] in He. rewrite E0 in He.
    destruct o as [r|e].
    + eexists r, _, _. split; [reflexivity|].
      split; [cbn [events state_of setLoading modify snd]; rewrite He; reflexivity|].
      split; [reflexivity|]. hooks_chain.
    + unfold fallback_to_mock, bind, emit, modify.
      match goal with |- context [mockClassification env ?s3] =>
        destruct (mockClassification_frame env s3)
          as (r & s4 & d & -> & He' & Hh' & _) end.
      cbn [events with_events] in He'. rewrite He in He'.
      eexists r, _, _. split; [reflexivity|].
      split; [cbn [events state_of setLoading modify snd]; rewrite He';
              rewrite <- !app_assoc; reflexivity|].
      split; [reflexivity|]. hooks_chain.
  - destruct (JS.truthy (apiEndpoint (mlConfig env)));
      match goal with |- context [mockClassification env ?s3] =>
        destruct (mockClassification_frame env s3)
          as (r & s4 & d & -> & He' & Hh' & _) end;
      cbn [events with_events] in He'; rewrite E0 in He';
      (eexists r, _, _; split; [reflexivity|];
       split; [cbn [events state_of setLoading modify snd]; rewrite He';
               rewrite <- !app_assoc; reflexivity|];
       split; [reflexivity|]; hooks_chain).
Qed.

(** X16: A file input never uses the on-device model: with no endpoint
    configured a file is classified by the simulation, whether or not a
    model is loaded. *)
Theorem file_input_without_endpoint_is_simulated env file s :
  JS.truthy (apiEndpoint (mlConfig env)) = false ->
  exists r s' delay,
    classifyWaste env (InFile file) s = (Returned r, s')
    /\ events s' = events s
         ++ [ConsoleLog "Using mock classification"; SetTimeout delay]
    /\ JS.field "processingTime" r = VNum 600
    /\ same_hooks s s'.
Proof.
  intros Hcfg. rewrite classifyWaste_unfold. cbv zeta.
  set (s0 := state_of (setLoading true s)).
  unfold select_backend, bind, gets, emit, modify.
  cbn [as_image as_file]. rewrite Hcfg.
  replace (if isReady s0 then None else None) with (@None HTMLImageElement)
    by (destruct (isReady s0); reflexivity).
  match goal with |- context [mockClassification env ?s3] =>
    destruct (mockClassification_frame env s3)
      as (r & s4 & d & -> & He' & Hh' & _ & Hpt) end.
  eexists r, _, d. split; [reflexivity|].
  split; [cbn [events state_of setLoading modify snd]; rewrite He';
          cbn [events with_events]; rewrite <- !app_assoc; reflexivity|].
  split; [exact Hpt|]. subst s0. hooks_chain.
Qed.

Lemma file_input_without_endpoint_is_simulated_witness :
  let env := world no_config unreachable (Returned tt) offline in
  let s := state_of (loadModel env
             (initial_state {[ modelKey := cached_model ]})) in
  isReady s = true
  /\ exists r s' delay,
       classifyWaste env (InFile a_file) s = (Returned r, s')
       /\ events s' = events s
            ++ [ConsoleLog "Using mock classification"; SetTimeout delay]
       /\ JS.field "processingTime" r = VNum 600
       /\ same_hooks s s'.
Proof.
  intros env s. split; [vm_compute; reflexivity|].
  apply (file_input_without_endpoint_is_simulated env a_file s).
  reflexivity.
Defined.

(** ** The remote classifier: requests and hook state *)

(** Unfolds the monad, the setters and the state projections on a state
    given by its fields. *)
Ltac run_state :=
  cbv beta iota zeta delta
    [negb bind try_finally try_catch ret emit lift throw gets modify
     setApiLoading setApiError setLoading setModel setModelInfo setError
     setLoadingState setIsOfflineMode store_model Date_now Math_random
     tick_clock tick_random with_events state_of result_of fst snd
     randoms_drawn clock_reads indexeddb events model loadingState error
     modelInfo isOfflineMode api_loading api_error loading].

Lemma classifyImageViaAPI_state env file s :
  configured env = true ->
  exists o s',
    classifyImageViaAPI env file s = (o, s')
    /\ events s' = events s ++ [Fetch (api_request env file)]
    /\ api_loading s' = false
    /\ api_error s' =
         match o with
         | Returned _ => None
         | Threw e => Some (message_or "" e)
         end
    /\ (forall e, o = Threw e -> exists msg, e = ErrorObj msg)
    /\ model s' = model s /\ loadingState s' = loadingState s
    /\ error s' = error s /\ modelInfo s' = modelInfo s
    /\ isOfflineMode s' = isOfflineMode s /\ indexeddb s' = indexeddb s
    /\ loading s' = loading s.
Proof.
  intros Hc. unfold classifyImageViaAPI. fold (configured env). rewrite Hc.
  destruct s as [rd cr idb ev md ls er mi off al ae lo].
  run_state.
  destruct (network env (api_request env file)) as [resp|e].
  - destruct (ok resp); cbv beta iota.
    + destruct (json resp) as [body|e].
      * destruct (JS.get body "details") as [details|e].
        -- destruct (JS.get body "type") as [type|e];
             eexists _, _; (split; [reflexivity|]);
             repeat (split; [first [reflexivity | intros ? [= <-]; eauto]|]);
             reflexivity.
        -- eexists _, _; (split; [reflexivity|]);
             repeat (split; [first [reflexivity | intros ? [= <-]; eauto]|]);
             reflexivity.
      * eexists _, _; (split; [reflexivity|]);
          repeat (split; [first [reflexivity | intros ? [= <-]; eauto]|]);
          reflexivity.
    + eexists _, _; (split; [reflexivity|]);
        repeat (split; [first [reflexivity | intros ? [= <-]; eauto]|]);
        reflexivity.
  - eexists _, _; (split; [reflexivity|]);
      repeat (split; [first [reflexivity | intros ? [= <-]; eauto]|]);
      reflexivity.
Qed.

(** X17: A configured call sends exactly one request: a POST of the file to
    the configured endpoint, with an [Authorization: Bearer] header
    exactly when an API key is configured.  When the call ends, whether
    it returns or raises, the hook's loading flag is down, and its error
    is the raised message, or cleared on success. *)
Theorem api_call_protocol env file s :
  configured env = true ->
  exists o s',
    classifyImageViaAPI env file s = (o, s')
    /\ events s' = events s ++ [Fetch (api_request env file)]
    /\ Some (url (api_request env file)) = apiEndpoint (mlConfig env)
    /\ method (api_request env file) = "POST"
    /\ body (api_request env file) = file
    /\ (authorization (api_request env file) = None
        <-> JS.truthy (apiKey (mlConfig env)) = false)
    /\ (forall k, apiKey (mlConfig env) = Some k -> k <> "" ->
          authorization (api_request env file) = Some ("Bearer " +:+ k))
    /\ api_loading s' = false
    /\ api_error s' =
         match o with
         | Returned _ => None
         | Threw e => Some (message_or "" e)
         end.
Proof.
  intros Hc.
  destruct (classifyImageViaAPI_state env file s Hc)
    as (o & s' & Hrun & He & Hal & Hae & _).
  exists o, s'. split; [exact Hrun|]. split; [exact He|].
  split.
  { unfold configured, JS.truthy in Hc. unfold api_request. cbn [url].
    destruct (apiEndpoint (mlConfig env)); [reflexivity | discriminate]. }
  split; [reflexivity|]. split; [reflexivity|].
  split.
  { unfold api_request. cbn [authorization].
    destruct (JS.truthy (apiKey (mlConfig env))); split; intros; congruence. }
  split.
  { intros k Hk Hne. unfold api_request. cbn [authorization]. rewrite Hk.
    cbn [JS.truthy default from_option id].
    destruct (String.eqb k "") eqn:E; [apply String.eqb_eq in E; contradiction|].
    reflexivity. }
  split; [exact Hal | exact Hae].
Qed.

Lemma api_call_protocol_witness :
  let env := world api_config unreachable (Returned tt) http_500 in
  exists o s',
    classifyImageViaAPI env a_file (initial_state ∅) = (o, s')
    /\ events s' = [Fetch (api_request env a_file)]
    /\ Some (url (api_request env a_file)) = Some "https://api.example.org/classify"
    /\ method (api_request env a_file) = "POST"
    /\ body (api_request env a_file) = a_file
    /\ (authorization (api_request env a_file) = None <-> true = false)
    /\ (forall k, Some "k-123" = Some k -> k <> "" ->
          authorization (api_request env a_file) = Some ("Bearer " +:+ k))
    /\ api_loading s' = false
    /\ api_error s' =
         match o with
         | Returned _ => None
         | Threw e => Some (message_or "" e)
         end.
Proof.
  intros env.
  apply (api_call_protocol env a_file (initial_state ∅)).
  reflexivity.
Defined.

(** A call that returns got a response with a body that parsed, and
    builds its result from that body and its two clock readings. *)
Lemma classifyImageViaAPI_success env file s r s' :
  classifyImageViaAPI env file s = (Returned r, s') ->
  exists resp body,
    network env (api_request env file) = Returned resp
    /\ json resp = Returned body
    /\ r = api_result body
             (clock_source env (S (clock_reads s)) - clock_source env (clock_reads s)).
Proof.
  unfold classifyImageViaAPI. fold (configured env).
  destruct (configured env); cbn [negb]; [|discriminate].
  destruct s as [rd cr idb ev md ls er mi off al ae lo].
  run_state.
  destruct (network env (api_request env file)) as [resp|e] eqn:Hn; [|discriminate].
  destruct (ok resp); cbv beta iota; [|discriminate].
  destruct (json resp) as [body|e] eqn:Hj; [|discriminate].
  destruct (nullish body) eqn:Hb.
  - destruct (get_nullish body "details" Hb) as [e ->]. discriminate.
  - rewrite !get_not_nullish by exact Hb. intros [= <- <-].
    exists resp, body. split; [reflexivity|]. split; [exact Hj|reflexivity].
Qed.

(** X18: A successful call passes the response through: every property of the
    body except [processingTime] and [details], and every property of
    its [details] except [recommendations], reaches the result as the
    response gave it (a type outside the three categories included);
    [processingTime] is the difference of the call's two clock readings,
    whatever the response says. *)
Theorem api_response_passes_through env file s r s' :
  classifyImageViaAPI env file s = (Returned r, s') ->
  exists resp body,
    network env (api_request env file) = Returned resp
    /\ json resp = Returned body
    /\ (forall k, k <> "processingTime" -> k <> "details" ->
          JS.field k r = default VUndefined (JS.spread body !! k))
    /\ (forall k, k <> "recommendations" ->
          JS.field k (JS.field "details" r)
          = default VUndefined (JS.spread (JS.field "details" body) !! k))
    /\ JS.field "processingTime" r =
         VNum (inject_Z (clock_source env (S (clock_reads s))
                         - clock_source env (clock_reads s))).
Proof.
  intros Hrun.
  destruct (classifyImageViaAPI_success env file s r s' Hrun)
    as (resp & body & Hn & Hj & ->).
  exists resp, body. split; [exact Hn|]. split; [exact Hj|].
  unfold api_result. split; [|split].
  - intros k Hk1 Hk2. cbn [JS.field].
    rewrite !lookup_insert_ne by congruence. reflexivity.
  - intros k Hk. cbn [JS.field]. rewrite lookup_insert_eq.
    cbn [from_option id JS.field]. rewrite lookup_insert_ne by congruence.
    reflexivity.
  - cbn [JS.field]. rewrite lookup_insert_ne by discriminate.
    rewrite lookup_insert_eq. reflexivity.
Qed.

Lemma api_response_passes_through_witness :
  let env := world api_config unreachable (Returned tt) (http_ok odd_body) in
  exists resp body,
    network env (api_request env a_file) = Returned resp
    /\ json resp = Returned body
    /\ (forall k, k <> "processingTime" -> k <> "details" ->
          JS.field k (api_result odd_body 10)
          = default VUndefined (JS.spread body !! k))
    /\ (forall k, k <> "recommendations" ->
          JS.field k (JS.field "details" (api_result odd_body 10))
          = default VUndefined (JS.spread (JS.field "details" body) !! k))
    /\ JS.field "processingTime" (api_result odd_body 10) =
         VNum (inject_Z (clock_source env 1 - clock_source env 0)).
Proof.
  intros env.
  eapply (api_response_passes_through env a_file (initial_state ∅)
            (api_result odd_body 10)).
  vm_compute. reflexivity.
Defined.

(** A body that is a string spreads into its UTF-16 code units: four for
    a text of three characters, one of them outside the basic plane. *)
Example string_body_spreads_by_code_unit :
  size (JS.spread (VStr "né😀")) = 4%nat
  /\ JS.spread (VStr "né😀") !! "1" = Some (VStr "é").
Proof.
  split; vm_compute; reflexivity.
Qed.

(** ** What the hook reports after a swallowed failure *)

(** X19: When the endpoint answers with a non-success status, [classifyWaste]
    still returns the simulated result, but the failure is not lost: with
    no model error pending, the hook's [error] is "API request failed: "
    followed by the status text, and its [loading] is down unless a model
    load is in flight. *)
Theorem swallowed_api_failure_is_reported env file s resp :
  configured env = true ->
  network env (api_request env file) = Returned resp ->
  ok resp = false ->
  JS.truthy (error s) = false ->
  exists r s',
    classifyWaste env (InFile file) s = (Returned r, s')
    /\ JS.field "processingTime" r = VNum 600
    /\ view_error (useWasteClassification_view env s')
       = Some ("API request failed: " +:+ statusText resp)
    /\ view_loading (useWasteClassification_view env s')
       = is_loading (loadingState s).
Proof.
  intros Hc Hn Hok Herr.
  rewrite classifyWaste_unfold. cbv zeta.
  set (s0 := state_of (setLoading true s)).
  assert (H0 : same_hooks s s0) by apply same_hooks_setLoading.
  clearbody s0.
  unfold select_backend, bind, gets, emit, modify. cbn [as_image as_file].
  replace (if isReady s0 then None else None) with (@None HTMLImageElement)
    by (destruct (isReady s0); reflexivity).
  fold (configured env). rewrite Hc.
  match goal with |- context [classifyImageViaAPI env file ?s1] =>
    pose proof (classifyImageViaAPI_run env file s1) as Hrun;
    destruct (classifyImageViaAPI_state env file s1 Hc)
      as (o & s2 & Hcall & _ & Hal & Hae & _ & Hm & Hls & Her & Hmi & Hoff & Hdb & _) end.
  rewrite Hcall in *. cbn [result_of fst] in Hrun.
  assert (Ho : o = Threw (ErrorObj ("API request failed: " +:+ statusText resp))).
  { api_cases Hrun; try congruence. }
  subst o. cbn [message_or] in Hae.
  unfold fallback_to_mock, bind, emit, modify.
  match goal with |- context [mockClassification env ?s3] =>
    destruct (mockClassification_frame env s3)
      as (r & s4 & d & -> & _ & Hh & _ & Hpt) end.
  eexists r, _. split; [reflexivity|]. split; [exact Hpt|].
  unfold useWasteClassification_view. cbn [view_error view_loading].
  unfold same_hooks in *.
  cbn [model loadingState error modelInfo isOfflineMode api_loading api_error
       indexeddb loading with_events state_of setLoading modify snd] in *.
  destruct Hh as (_ & Hls4 & Her4 & _ & _ & Hal4 & Hae4 & _).
  destruct H0 as (_ & Hls0 & Her0 & _).
  rewrite Her4, Her, Her0, Herr, Hae4, Hae, Hal4, Hal, Hls4, Hls, Hls0.
  split; [reflexivity|]. cbn [orb]. apply orb_false_r.
Qed.

Lemma swallowed_api_failure_is_reported_witness :
  let env := world api_config unreachable (Returned tt) http_500 in
  exists r s',
    classifyWaste env (InFile a_file) (initial_state ∅) = (Returned r, s')
    /\ JS.field "processingTime" r = VNum 600
    /\ view_error (useWasteClassification_view env s')
       = Some "API request failed: Internal Server Error"
    /\ view_loading (useWasteClassification_view env s') = false.
Proof.
  intros env.
  apply (swallowed_api_failure_is_reported env a_file (initial_state ∅)
           {| ok := false; statusText := "Internal Server Error";
              json := Threw (ErrorObj "Unexpected end of JSON input") |});
    reflexivity.
Defined.

(** ** Load attempts: outcomes and persistence *)

Section LoadOutcomes.

Variable env : Env.

Lemma loadLayersModel_any from s :
  exists o, tf_loadLayersModel env from s = (o, logged (LoadLayersModel from) s).
Proof.
  unfold tf_loadLayersModel, bind, emit, modify, gets, lift, ret, throw.
  destruct (String.prefix indexeddb_scheme from); [|eauto].
  cbv beta. cbn [indexeddb with_events].
  match goal with |- context [indexeddb s !! ?k] =>
    destruct (indexeddb s !! k) end; eauto.
Qed.

(** X20: A load attempt never raises and never stays in "loading".  It ends
    loaded, with a model in place and model information that is
    offline-capable, or in the error state, with a message recorded and
    the model and its information as they were.  A success does not
    clear an error recorded earlier. *)
Theorem loadModel_always_settles s :
  exists s',
    loadModel env s = (Returned tt, s')
    /\ ((loadingState s' = loaded
         /\ (exists m, model s' = Some m)
         /\ offlineCapable <$> modelInfo s' = Some true
         /\ error s' = error s)
        \/ (loadingState s' = error_state
            /\ (exists msg, error s' = Some msg)
            /\ model s' = model s
            /\ modelInfo s' = modelInfo s)).
Proof.
  unfold loadModel, try_catch, bind, lift.
  change (setLoadingState loading_model s) with (Returned tt, loading_started s).
  cbv iota.
  destruct (import_tfjs env) as [[]|e].
  - rewrite loadOfflineModel_run.
    destruct (indexeddb (loading_started s) !! modelKey) as [m|].
    + cbn [fmap option_fmap option_map].
      eexists. split; [reflexivity|]. left.
      split; [reflexivity|]. split; [eexists; reflexivity|].
      split; reflexivity.
    + cbn [fmap option_fmap option_map].
      destruct (JS.truthy (tensorflowModelUrl (mlConfig env))).
      * match goal with |- context [tf_loadLayersModel env ?u ?s0] =>
          destruct (loadLayersModel_any u s0) as [o ->] end.
        destruct o as [m|e].
        -- cbv beta iota zeta delta [setModel setModelInfo setLoadingState modify].
           match goal with |- context [cacheModelOffline env m ?s0] =>
             destruct (cacheModelOffline_run env m s0)
               as (s' & -> & Hls & Hm & Her & Hmi & _) end.
           exists s'. split; [reflexivity|]. left.
           rewrite Hls, Hm, Her, Hmi.
           split; [reflexivity|]. split; [eexists; reflexivity|].
           split; reflexivity.
        -- eexists. split; [reflexivity|]. right.
           split; [reflexivity|]. split; [eexists; reflexivity|].
           split; reflexivity.
      * eexists. split; [reflexivity|]. left.
        split; [reflexivity|]. split; [eexists; reflexivity|].
        split; reflexivity.
  - eexists. split; [reflexivity|]. right.
    split; [reflexivity|]. split; [eexists; reflexivity|].
    split; reflexivity.
Qed.

(** X21: When TensorFlow.js cannot be imported, the attempt ends in the error
    state with the import's message, and nothing was tried: the cache is
    not read, nothing is fetched, only the warning is logged. *)
Theorem loadModel_without_tfjs s e :
  import_tfjs env = Threw e ->
  exists s',
    loadModel env s = (Returned tt, s')
    /\ loadingState s' = error_state
    /\ error s' = Some (message_or "Failed to load ML model" e)
    /\ model s' = model s
    /\ indexeddb s' = indexeddb s
    /\ events s' = events s ++
         [ConsoleWarn
            "ML model loading failed, classification will use enhanced mock data"].
Proof.
  intros Himp. unfold loadModel, try_catch, bind, lift. rewrite Himp.
  change (setLoadingState loading_model s) with (Returned tt, loading_started s).
  cbv iota. eexists. split; [reflexivity|].
  repeat (split; [reflexivity|]). reflexivity.
Qed.

End LoadOutcomes.

Lemma loadModel_without_tfjs_witness :
  let env := world_without_tfjs url_config in
  let s := initial_state {[ modelKey := cached_model ]} in
  exists s',
    loadModel env s = (Returned tt, s')
    /\ loadingState s' = error_state
    /\ error s' = Some "Failed to fetch dynamically imported module"
    /\ model s' = model s
    /\ indexeddb s' = indexeddb s
    /\ events s' = events s ++
         [ConsoleWarn
            "ML model loading failed, classification will use enhanced mock data"].
Proof.
  intros env s.
  apply (loadModel_without_tfjs env s
           (ErrorObj "Failed to fetch dynamically imported module")).
  reflexivity.
Defined.

(** X22: Persisting and reloading round-trip: after a load from the remote URL
    whose cache write succeeded, a later load attempt on the same store
    (any configuration, network reachable or not) finds that same model
    in the cache, ends loaded in offline mode and reads only the cache.
    The write touched no other key of the store. *)
Theorem cached_model_is_reloaded env env' s s2 m :
  import_tfjs env = Returned tt ->
  indexeddb s !! modelKey = None ->
  remote_configured env = true ->
  String.prefix indexeddb_scheme (remote_url env) = false ->
  http_model env (remote_url env) = Returned m ->
  indexeddb_write env = Returned tt ->
  import_tfjs env' = Returned tt ->
  indexeddb s2 = indexeddb (state_of (loadModel env s)) ->
  (forall k, k <> modelKey ->
     indexeddb (state_of (loadModel env s)) !! k = indexeddb s !! k)
  /\ exists s',
       loadModel env' s2 = (Returned tt, s')
       /\ model s' = Some m
       /\ loadingState s' = loaded
       /\ isOfflineMode s' = true
       /\ events s' = events s2 ++ [LoadLayersModel cache_url].
Proof.
  intros Himp Hmiss Hurl Hp Hfetch Hwrite Himp' Hstore.
  destruct (loadModel_remote_success env Himp s m Hmiss Hurl Hp Hfetch)
    as (s1 & Hrun & _ & _ & _ & _ & Hw).
  rewrite Hwrite in Hw. destruct Hw as [Hdb _].
  rewrite Hrun in *. cbn [state_of snd] in *. rewrite Hdb in *.
  split.
  - intros k Hk. rewrite lookup_insert_ne by congruence. reflexivity.
  - destruct (loadModel_cached env' Himp' s2 m) as (s' & Hrun' & Hm & Hl & Ho & _ & _ & He).
    + rewrite Hstore. apply lookup_insert_eq.
    + exists s'. auto.
Qed.

Lemma cached_model_is_reloaded_witness :
  let env := world url_config (Returned remote_model) (Returned tt) offline in
  let env' := world no_config unreachable (Returned tt) offline in
  let s2 := initial_state (indexeddb (state_of (loadModel env (initial_state ∅)))) in
  exists s',
    loadModel env' s2 = (Returned tt, s')
    /\ model s' = Some remote_model
    /\ loadingState s' = loaded
    /\ isOfflineMode s' = true
    /\ events s' = events s2 ++ [LoadLayersModel cache_url].
Proof.
  intros env env' s2.
  apply (cached_model_is_reloaded env env' (initial_state ∅) s2 remote_model);
    vm_compute; reflexivity.
Defined.

(** X23: Loading and classifying compose: once a load attempt has found a
    cached model, an image is classified on the device.  For numeric
    scores of which the largest is not negative, the result is the
    category of the largest score with an integer confidence between 0
    and 99, and no simulated delay is waited for. *)
Theorem loaded_model_classifies_images env s m img a data :
  import_tfjs env = Returned tt ->
  indexeddb s !! modelKey = Some m ->
  inference env m img = Returned (a, data) ->
  (0 <= raw_confidence data)%Q ->
  exists s1 r s' c,
    loadModel env s = (Returned tt, s1)
    /\ classifyWaste env (InImage img) s1 = (Returned r, s')
    /\ JS.field "type" r = type_value (code_type data)
    /\ JS.field "confidence" r = VNum (inject_Z c)
    /\ 0 <= c <= 99
    /\ JS.field "imageAnalysis" r = imageAnalysis_value a
    /\ events s' = events s1
         ++ [ConsoleLog "Using TensorFlow.js model for classification"].
Proof.
  intros Himp Hhit Hinf Hraw.
  destruct (loadModel_cached env Himp s m Hhit)
    as (s1 & Hload & Hm & Hl & _).
  exists s1. rewrite classifyWaste_unfold. cbv zeta.
  set (s0 := state_of (setLoading true s1)).
  assert (Hm0 : model s0 = Some m) by exact Hm.
  assert (Hr0 : isReady s0 = true) by (unfold isReady; cbn; rewrite Hl; reflexivity).
  assert (He0 : events s0 = events s1) by reflexivity.
  clearbody s0.
  unfold select_backend, bind, gets, emit, modify. rewrite Hr0. cbn [as_image].
  match goal with |- context [classifyImage env img ?s2] =>
    pose proof (classifyImage_run env img s2 m Hm0) as Hrun end.
  rewrite Hinf in Hrun. destruct Hrun as (d & s3 & Hd & ->).
  destruct (basic_details_hooks env _ _ _ _ Hd) as (_ & He & _).
  eexists _, _, (code_confidence data a).
  split; [exact Hload|]. split; [reflexivity|].
  split; [reflexivity|]. split; [reflexivity|].
  split; [split; [apply code_confidence_range, Hraw | apply clamp_round_le_99]|].
  split; [reflexivity|].
  cbn [events state_of setLoading modify snd after_clock tick_clock].
  rewrite He. cbn [events state_of after_clock tick_clock snd with_events].
  rewrite He0. reflexivity.
Qed.

Lemma loaded_model_classifies_images_witness :
  let env := world no_config unreachable (Returned tt) offline in
  let s := initial_state {[ modelKey := cached_model ]} in
  exists s1 r s' c,
    loadModel env s = (Returned tt, s1)
    /\ classifyWaste env (InImage opaque_gray) s1 = (Returned r, s')
    /\ JS.field "type" r = type_value biodegradable
    /\ JS.field "confidence" r = VNum (inject_Z c)
    /\ 0 <= c <= 99.
Proof.
  intros env s.
  assert (Hinf : exists a, inference env cached_model opaque_gray
                             = Returned (a, (6 # 10, 3 # 10, 1 # 10)%Q))
    by (eexists; vm_compute; reflexivity).
  destruct Hinf as [a Hinf].
  assert (Himp : import_tfjs env = Returned tt) by reflexivity.
  assert (Hhit : indexeddb s !! modelKey = Some cached_model)
    by (vm_compute; reflexivity).
  assert (Hraw : (0 <= raw_confidence (6 # 10, 3 # 10, 1 # 10))%Q)
    by (vm_compute; discriminate).
  destruct (loaded_model_classifies_images env s cached_model opaque_gray a
              (6 # 10, 3 # 10, 1 # 10)%Q Himp Hhit Hinf Hraw)
    as (s1 & r & s' & c & H1 & H2 & H3 & H4 & H5 & _).
  exists s1, r, s', c. auto.
Defined.
